(** * DigiKey client: retrieval, pagination and JSON store

    A shallow embedding of [main.py] (class [DgkeySdk]) and
    [product_details_api.py] (class [ProductDetailsAPI]).

    The Python code is effectful: it talks to the network, sleeps, reads
    and rewrites JSON files and prints.  It is embedded in a state and
    exception monad over an explicit [World]; library calls ([requests],
    [json], [time], [os.path], the [digikey] SDK) are given by their
    contracts, the repository's own functions are translated line by line.

    Not part of the [World]: the records handed to [logging].  [main.py]
    configures a file handler, so every [logger] call of [DgkeySdk] appends
    a line to [product_search.log] (and writes it to the console);
    [product_details_api.py] configures none.  The arguments of a [logger]
    call are evaluated, and are modelled, where their evaluation can raise;
    the record itself is not.  Accordingly [fs] stands for the JSON files
    only, and the properties of [DgkeySdk] name the files they speak of. *)

From Stdlib Require Import ZArith Lia Ascii String.
From stdpp Require Import base strings list gmap pretty.

Set Warnings "-register-all".
Local Open Scope string_scope.
Local Open Scope Z_scope.
Local Open Scope list_scope.

(** ** JSON values, as [json.load] and [response.json()] produce them

    Numbers are integers here; a non-integral number behaves like an
    integer in every operation below (it has no [get], no length, is not
    iterable and is falsy exactly when zero).  A Python [dict] keeps its
    insertion order, hence the association list. *)

Inductive json : Type :=
| JNull
| JBool (b : bool)
| JNum (z : Z)
| JStr (s : string)
| JList (l : list json)
| JDict (d : list (string * json)).

(** Python exceptions that the modelled code can meet. *)
Inductive exn : Type :=
| TypeError
| AttributeError
| KeyError
| IndexError
| ValueError
| UnicodeDecodeError         (* a ValueError, but not a JSONDecodeError *)
| OverflowError
| OSError
| JSONDecodeError
| ConnectionError            (* a RequestException that is not an HTTPError *)
| HTTPError (status : Z)     (* raised by raise_for_status *)
| SdkError.                  (* anything the digikey SDK raises *)

(** [except requests.exceptions.RequestException] *)
Definition is_RequestException (e : exn) : bool :=
  match e with ConnectionError | HTTPError _ => true | _ => false end.

(** [except requests.exceptions.HTTPError] *)
Definition is_HTTPError (e : exn) : bool :=
  match e with HTTPError _ => true | _ => false end.

(** [except json.JSONDecodeError] *)
Definition is_JSONDecodeError (e : exn) : bool :=
  match e with JSONDecodeError => true | _ => false end.

(** [except Exception] *)
Definition is_Exception (e : exn) : bool := true.

(** Outcome of a computation: a value, a raised exception, or a loop that
    has not finished within the fuel it was given. *)
Inductive result (A : Type) : Type :=
| Ret (a : A)
| Raise (e : exn)
| Diverge.
Arguments Ret {A} a.
Arguments Raise {A} e.
Arguments Diverge {A}.

(** ** Pure Python operations on JSON values *)
Module Py.

Fixpoint assoc (k : string) (d : list (string * json)) : option json :=
  match d with
  | [] => None
  | (k', v) :: d' => if String.eqb k k' then Some v else assoc k d'
  end.

(** [bool(x)] *)
Definition truthy (x : json) : bool :=
  match x with
  | JNull => false
  | JBool b => b
  | JNum z => negb (z =? 0)
  | JStr s => negb (String.eqb s "")
  | JList l => match l with [] => false | _ => true end
  | JDict d => match d with [] => false | _ => true end
  end.

Definition chars (s : string) : list json :=
  (fun a => JStr (String a EmptyString)) <$> String.list_ascii_of_string s.

(** [x.get(key, default)]: only a dict has the method. *)
Definition get (x : json) (key : string) (dflt : json) : result json :=
  match x with
  | JDict d => Ret (default dflt (assoc key d))
  | _ => Raise AttributeError
  end.

(** [x[key]] for a string key. *)
Definition getitem (x : json) (key : string) : result json :=
  match x with
  | JDict d => match assoc key d with Some v => Ret v | None => Raise KeyError end
  | _ => Raise TypeError
  end.

(** [x[i]] for a non-negative integer literal [i]. *)
Definition index (x : json) (i : nat) : result json :=
  match x with
  | JList l => match l !! i with Some v => Ret v | None => Raise IndexError end
  | JStr s => match chars s !! i with Some v => Ret v | None => Raise IndexError end
  | JDict _ => Raise KeyError
  | _ => Raise TypeError
  end.

(** [len(x)] *)
Definition len (x : json) : result Z :=
  match x with
  | JList l => Ret (Z.of_nat (length l))
  | JDict d => Ret (Z.of_nat (length d))
  | JStr s => Ret (Z.of_nat (String.length s))
  | _ => Raise TypeError
  end.

(** [for y in x]: the elements visited. *)
Definition iter (x : json) : result (list json) :=
  match x with
  | JList l => Ret l
  | JDict d => Ret ((fun kv => JStr (fst kv)) <$> d)
  | JStr s => Ret (chars s)
  | _ => Raise TypeError
  end.

Fixpoint substring_of (needle hay : string) : bool :=
  String.prefix needle hay ||
  match hay with
  | EmptyString => false
  | String _ hay' => substring_of needle hay'
  end.

Definition is_str (key : string) (x : json) : bool :=
  match x with JStr s => String.eqb s key | _ => false end.

(** [key in x] for a string [key]. *)
Definition contains (key : string) (x : json) : result bool :=
  match x with
  | JDict d => Ret (match assoc key d with Some _ => true | None => false end)
  | JList l => Ret (existsb (is_str key) l)
  | JStr s => Ret (substring_of key s)
  | _ => Raise TypeError
  end.

Definition isinstance_dict (x : json) : bool :=
  match x with JDict _ => true | _ => false end.

Definition isinstance_list (x : json) : bool :=
  match x with JList _ => true | _ => false end.

(** [n >= x] for an int [n]; [bool] is a subclass of [int]. *)
Definition int_ge (n : Z) (x : json) : result bool :=
  match x with
  | JNum z => Ret (z <=? n)
  | JBool b => Ret ((if b then 1 else 0) <=? n)
  | _ => Raise TypeError
  end.

(** [str(n)] for an int. *)
Definition str_int (n : Z) : string := pretty n.

End Py.

(** ** The world outside the program *)

(** A file is modelled by what [json.load] makes of it: the document its
    text decodes to (and [json.dump] of a document writes a text that decodes
    to it), a text on which [json.load] raises [JSONDecodeError], or bytes
    that are no text in the encoding the file is opened with, so that reading
    them raises [UnicodeDecodeError] before any parsing. *)
Inductive file_content : Type :=
| JsonText (doc : json)
| BadText (text : string)
| NotText (bytes : string).

(** What one HTTP exchange through [requests] yields. *)
Inductive http_outcome : Type :=
| ConnectionFailed                          (* requests raises, no response *)
| Responded (status_code : Z) (body : json). (* body as response.json() reads it *)

(** What one call into the digikey SDK does: it raises, or it returns after
    possibly leaving a new token file behind. *)
Inductive sdk_outcome : Type :=
| SdkRaises
| SdkReturns (stored : option file_content).

(** The request headers; both clients build them from the client id and
    the access token, the rest are literals. *)
Record headers : Type := Headers {
  h_client_id : string;
  h_locale_site : string;
  h_locale_language : string;
  h_locale_currency : string;
  h_content_type : option string;
  h_accept : string;
  h_bearer : json
}.

Inductive event : Type :=
| EvPost (url : string) (hd : headers) (data : json)
| EvGet (url : string) (hd : headers) (params : list (string * string))
| EvKeywordSearch (keywords : string) (record_count record_start_position : Z)
| EvSleep (secs : Z)
| EvPrint (x : json).

Record World : Type := mkWorld {
  fs : gmap string file_content;   (* the JSON files: path -> content *)
  unwritable : gset string;        (* paths at which rewriting the file
                                      fails: open(path, 'w') raises, or
                                      the write after it does *)
  torn : gmap string file_content; (* for those where the write does: what
                                      it leaves in the file *)
  http : nat -> http_outcome;      (* answer to the n-th HTTP request *)
  http_calls : nat;
  sdk : nat -> sdk_outcome;        (* effect of the n-th SDK call *)
  sdk_calls : nat;
  now : string;                    (* time.strftime(..., time.gmtime()) *)
  events : list event              (* what happened so far, oldest first *)
}.

Definition set_fs (f : gmap string file_content) (w : World) : World :=
  mkWorld f (unwritable w) (torn w) (http w) (http_calls w) (sdk w)
          (sdk_calls w) (now w) (events w).

Definition emit (e : event) (w : World) : World :=
  mkWorld (fs w) (unwritable w) (torn w)
          (http w) (http_calls w) (sdk w) (sdk_calls w)
          (now w) (events w ++ [e]).

Definition tick_http (w : World) : World :=
  mkWorld (fs w) (unwritable w) (torn w)
          (http w) (S (http_calls w)) (sdk w)
          (sdk_calls w) (now w) (events w).

Definition tick_sdk (w : World) : World :=
  mkWorld (fs w) (unwritable w) (torn w)
          (http w) (http_calls w) (sdk w)
          (S (sdk_calls w)) (now w) (events w).

(** ** The monad: state over [World], with exceptions *)

Definition M (A : Type) : Type := World -> result A * World.

Definition ret {A} (a : A) : M A := fun w => (Ret a, w).

Definition raise {A} (e : exn) : M A := fun w => (Raise e, w).

Definition diverge {A} : M A := fun w => (Diverge, w).

Definition bind {A B} (m : M A) (k : A -> M B) : M B :=
  fun w =>
    match m w with
    | (Ret a, w') => k a w'
    | (Raise e, w') => (Raise e, w')
    | (Diverge, w') => (Diverge, w')
    end.

Notation "x <- m ;; k" := (bind m (fun x => k))
  (at level 20, m at level 99, k at level 200, only parsing).
Notation "m ;; k" := (bind m (fun _ => k))
  (at level 100, k at level 200, only parsing, right associativity).

(** Lift a pure operation that may raise. *)
Definition lift {A} (r : result A) : M A := fun w => (r, w).

(** [try: m  except E: ...] with [E] given by [handles]: a caught exception
    is handed to the caller as [inr]; the others keep propagating. *)
Definition try_except {A} (m : M A) (handles : exn -> bool) : M (A + exn) :=
  fun w =>
    match m w with
    | (Ret a, w') => (Ret (inl a), w')
    | (Raise e, w') => if handles e then (Ret (inr e), w') else (Raise e, w')
    | (Diverge, w') => (Diverge, w')
    end.

(** [for x in xs: body x] *)
Fixpoint for_each {A} (xs : list A) (body : A -> M unit) : M unit :=
  match xs with
  | [] => ret tt
  | x :: xs' => body x ;; for_each xs' body
  end.

(** ** Library calls *)

(** [os.path.exists(path)] *)
Definition path_exists (path : string) : M bool :=
  fun w => (Ret (bool_decide (is_Some (fs w !! path))), w).

(** [with open(path, 'r') as f: json.load(f)] *)
Definition json_load_file (path : string) : M json :=
  fun w =>
    match fs w !! path with
    | None => (Raise OSError, w)                 (* FileNotFoundError *)
    | Some (JsonText doc) => (Ret doc, w)
    | Some (BadText _) => (Raise JSONDecodeError, w)
    | Some (NotText _) => (Raise UnicodeDecodeError, w)
    end.

(** What a write that fails leaves behind.  When [open(path, 'w')] itself
    raises (no permission, no such directory) the file is untouched.  When
    the failure comes later (the disk fills up while [json.dump] writes, or
    on close) the file has been truncated by then and holds whatever got
    written: the content [torn] gives for the path. *)
Definition after_failed_write (path : string) (w : World) : World :=
  match torn w !! path with
  | Some left_behind => set_fs (<[path := left_behind]> (fs w)) w
  | None => w
  end.

(** [with open(path, 'w') as f: json.dump(doc, f, ...)] *)
Definition json_dump_file (doc : json) (path : string) : M unit :=
  fun w =>
    if bool_decide (path ∈ unwritable w)
    then (Raise OSError, after_failed_write path w)
    else (Ret tt, set_fs (<[path := JsonText doc]> (fs w)) w).

(** The longest sleep, in seconds, that fits the nanosecond clock of
    [time.sleep] (a signed 64-bit count). *)
Definition max_sleep : Z := 9223372036.

(** [time.sleep(secs)] for an int: a length that does not fit the clock is
    an [OverflowError], a negative one a [ValueError]. *)
Definition sleep (secs : Z) : M unit :=
  fun w =>
    if (secs <? - max_sleep) || (max_sleep <? secs)
    then (Raise OverflowError, w)
    else if secs <? 0 then (Raise ValueError, w)
    else (Ret tt, emit (EvSleep secs) w).

(** [print(x)] *)
Definition print (x : json) : M unit :=
  fun w => (Ret tt, emit (EvPrint x) w).

(** [time.strftime("%Y-%m-%d %H:%M:%S", time.gmtime())] *)
Definition strftime_now : M string := fun w => (Ret (now w), w).

(** A response object: [status_code] and the decoded body. *)
Record response : Type := Response { status_code : Z; body : json }.

Definition exchange (e : event) : M response :=
  fun w =>
    let w' := tick_http (emit e w) in
    match http w (http_calls w) with
    | ConnectionFailed => (Raise ConnectionError, w')
    | Responded c b => (Ret (Response c b), w')
    end.

(** [requests.post(url, headers=headers, data=json.dumps(payload))] *)
Definition requests_post (url : string) (hd : headers) (payload : json)
  : M response := exchange (EvPost url hd payload).

(** [requests.get(url, headers=headers, params=params)] *)
Definition requests_get (url : string) (hd : headers)
    (params : list (string * string)) : M response :=
  exchange (EvGet url hd params).

(** [response.raise_for_status()]: raises for 4xx and 5xx. *)
Definition raise_for_status (r : response) : M unit :=
  if (400 <=? status_code r) && (status_code r <? 600)
  then raise (HTTPError (status_code r)) else ret tt.

(** [digikey.keyword_search(body=KeywordSearchRequest(...))]: the SDK keeps
    its token in [token_storage.json] under DIGIKEY_STORAGE_PATH. *)
Definition digikey_keyword_search (token_path : string) (keywords : string)
    (record_count record_start_position : Z) : M unit :=
  fun w =>
    let w' := tick_sdk (emit (EvKeywordSearch keywords record_count
                                              record_start_position) w) in
    match sdk w (sdk_calls w) with
    | SdkRaises => (Raise SdkError, w')
    | SdkReturns None => (Ret tt, w')
    | SdkReturns (Some c) => (Ret tt, set_fs (<[token_path := c]> (fs w')) w')
    end.

(** ** Shared by both clients *)

(** The attributes [__init__] sets on either client. *)
Record client : Type := Client {
  base_dir : string;
  client_id : string;
  client_secret : string
}.

Definition token_file (self : client) : string :=
  base_dir self +:+ "/token_storage.json".

(** The load / append / rewrite block.  The source spells it out three
    times, word for word up to the variable names: [main.py] 187-203 and
    [product_details_api.py] 336-350 and 355-376. *)
Definition append_to_store (path : string) (entry : json) : M unit :=
  file_there <- path_exists path ;;
  existing_data <-
    (if (file_there : bool) then
       r <- try_except
              (data <- json_load_file path ;;
               ret (match data with
                    | JList l => l
                    | _ => [data]        (* a single object becomes a list *)
                    end))
              is_JSONDecodeError ;;
       match r with
       | inl l => ret l
       | inr _ => ret []                 (* corrupted, starting fresh *)
       end
     else ret []) ;;
  json_dump_file (JList (existing_data ++ [entry])) path.

(** ** [main.py]: class [DgkeySdk] *)
Module DgkeySdk.

Definition token_update (self : client) : M unit :=
  digikey_keyword_search (token_file self)
    "Batteries Rechargeable (Secondary)" 10 0 ;;
  sleep 5.

Definition get_access_token (self : client) : M json :=
  let file_path := token_file self in
  file_there <- path_exists file_path ;;
  (if negb file_there then token_update self else ret tt) ;;
  data <- json_load_file file_path ;;
  lift (Py.getitem data "access_token").

Definition search_url : string :=
  "https://api.digikey.com/products/v4/search/keyword".

Definition search_payload (keyword : string) (limit offset manufactured_id : Z)
  : json :=
  JDict [("Keywords", JStr keyword);
         ("Limit", JNum limit);
         ("Offset", JNum offset);
         ("FilterOptionsRequest",
           JDict [("ManufacturerFilter",
                    JList [JDict [("Id", JNum manufactured_id)]])]);
         ("SortOptions",
           JDict [("Field", JStr "Supplier");
                  ("SortOrder", JStr "Descending")])].

Definition search_headers (self : client) (access_token : json) : headers :=
  {| h_client_id := client_id self;
     h_locale_site := "en";
     h_locale_language := "CA";
     h_locale_currency := "CAD";
     h_content_type := Some "application/json";
     h_accept := "application/json";
     h_bearer := access_token |}.

(** The [while retries < max_retries] loop of [_search_product], entered
    with the current value of [retries].  Every turn either returns or adds
    one to [retries], so [fuel] only has to cover [max_retries - retries]. *)
Fixpoint search_attempts (fuel : nat) (self : client) (hd : headers)
    (payload : json) (max_retries backoff_factor retries : Z) : M json :=
  if retries <? max_retries then
    match fuel with
    | O => diverge
    | S fuel' =>
        r <- try_except
               (resp <- requests_post search_url hd payload ;;
                raise_for_status resp ;;
                ret (body resp))
               is_RequestException ;;
        match r with
        | inl answer => ret answer
        | inr _ =>
            let retries := retries + 1 in
            let backoff := backoff_factor ^ retries in
            sleep backoff ;;
            token_update self ;;
            search_attempts fuel' self hd payload max_retries backoff_factor
                            retries
        end
    end
  else ret (JDict []).

Definition _search_product (self : client) (keyword : string)
    (limit offset manufactured_id max_retries backoff_factor : Z)
    (user_id : json) : M json :=
  access_token <- get_access_token self ;;
  let payload := search_payload keyword limit offset manufactured_id in
  let hd := search_headers self access_token in
  search_attempts (Z.to_nat max_retries) self hd payload max_retries
                  backoff_factor 0.

Definition store_file (self : client) : string :=
  base_dir self +:+ "/api_responses.json".

Definition batch_url (offset limit : Z) : string :=
  "https://api.digikey.com/products/v4/search/keyword?offset="
    +:+ Py.str_int offset +:+ "&limit=" +:+ Py.str_int limit.

Definition batch_data (products : json) (offset limit product_count : Z)
    (timestamp : string) : json :=
  JDict [("metadata",
           JDict [("url", JStr (batch_url offset limit));
                  ("offset", JNum offset);
                  ("limit", JNum limit);
                  ("product_count", JNum product_count);
                  ("timestamp", JStr timestamp)]);
         ("products", products)].

(** The debug line after a store: [product.get(...)] twice per product. *)
Definition log_product (product : json) : M unit :=
  lift (Py.get product "ManufacturerPartNumber" (JStr "N/A")) ;;
  lift (Py.get product "ProductDescription" (JStr "N/A")) ;;
  ret tt.

Definition process_products (self : client) (products : json)
    (offset limit : Z) : M unit :=
  n <- lift (Py.len products) ;;
  timestamp <- strftime_now ;;
  let batch := batch_data products offset limit n timestamp in
  let json_file_path := store_file self in
  r <- try_except
         (append_to_store json_file_path batch ;;
          items <- lift (Py.iter products) ;;
          for_each items log_product)
         is_Exception ;;
  match r with
  | inl _ => ret tt
  | inr _ =>
      (* fallback to printing if file storage fails *)
      items <- lift (Py.iter products) ;;
      for_each items print
  end.

(** The [while True] loop of [search_products] for one category. *)
Fixpoint search_pages (fuel : nat) (self : client) (category : string)
    (limit offset manufactured_id : Z) (user_id : json) : M unit :=
  match fuel with
  | O => diverge
  | S fuel' =>
      resp <- _search_product self category limit offset manufactured_id
                              10 2 user_id ;;
      if negb (Py.truthy resp) then ret tt
      else
        product_count <- lift (Py.get resp "ProductsCount" (JNum 0)) ;;
        products <- lift (Py.get resp "Products" (JList [])) ;;
        lift (Py.len products) ;;            (* logged before storing *)
        process_products self products offset limit ;;
        let offset := offset + limit in
        stop <- lift (Py.int_ge offset product_count) ;;
        if (stop : bool) then ret tt
        else search_pages fuel' self category limit offset manufactured_id
                          user_id
  end.

Definition search_products (fuel : nat) (self : client)
    (categories : list string) (manufactured_id : Z) (user_id : json)
  : M unit :=
  for_each categories
    (fun category =>
       let offset := 0 in
       let limit := 50 in
       search_pages fuel self category limit offset manufactured_id user_id).

End DgkeySdk.

(** ** Pure code that may raise *)

Definition rbind {A B} (r : result A) (k : A -> result B) : result B :=
  match r with
  | Ret a => k a
  | Raise e => Raise e
  | Diverge => Diverge
  end.

Notation "x <~ r ;; k" := (rbind r (fun x => k))
  (at level 20, r at level 99, k at level 200, only parsing).

(** [requests.utils.quote(s, safe='')]: every byte outside
    [A-Z a-z 0-9 _ . - ~] becomes [%XX]. *)
Module Quote.

Definition unreserved (a : ascii) : bool :=
  let n := nat_of_ascii a in
  ((65 <=? n) && (n <=? 90) || (97 <=? n) && (n <=? 122)
   || (48 <=? n) && (n <=? 57)
   || (n =? 95) || (n =? 46) || (n =? 45) || (n =? 126))%nat.

Definition hex_digit (n : nat) : ascii :=
  match String.get n "0123456789ABCDEF" with
  | Some a => a
  | None => "0"%char
  end.

Fixpoint quote (s : string) : string :=
  match s with
  | EmptyString => EmptyString
  | String a s' =>
      if unreserved a then String a (quote s')
      else let n := nat_of_ascii a in
           String "%" (String (hex_digit (n / 16))
                         (String (hex_digit (n mod 16)) (quote s')))
  end.

End Quote.

(** ** [product_details_api.py]: class [ProductDetailsAPI] *)
Module ProductDetailsAPI.

Definition get_access_token (self : client) : M json :=
  let file_path := token_file self in
  file_there <- path_exists file_path ;;
  if negb file_there then ret JNull      (* "Token file not found" *)
  else
    data <- json_load_file file_path ;;
    lift (Py.getitem data "access_token").

Definition details_url (product_number : string) : string :=
  "https://api.digikey.com/products/v4/search/"
    +:+ Quote.quote product_number +:+ "/productdetails".

Definition details_headers (self : client) (access_token : json) : headers :=
  {| h_client_id := client_id self;
     h_locale_site := "US";
     h_locale_language := "en";
     h_locale_currency := "USD";
     h_content_type := None;
     h_accept := "application/json";
     h_bearer := access_token |}.

Definition details_params (manufacturer_id : option Z)
  : list (string * string) :=
  match manufacturer_id with
  | Some id => if id =? 0 then [] else [("manufacturerId", Py.str_int id)]
  | None => []
  end.

(** [retries += 1], then the guarded backoff both handlers share. *)
Definition backoff_unless_last (max_retries backoff_factor retries : Z)
  : M unit :=
  if retries <? max_retries then
    let backoff := backoff_factor ^ retries in
    sleep backoff
  else ret tt.

(** The [while retries < max_retries] loop of [get_product_details]. *)
Fixpoint details_attempts (fuel : nat) (url : string) (hd : headers)
    (params : list (string * string))
    (max_retries backoff_factor retries : Z) : M json :=
  if retries <? max_retries then
    match fuel with
    | O => diverge
    | S fuel' =>
        r <- try_except
               (resp <- requests_get url hd params ;;
                if status_code resp =? 404 then ret (JDict [])
                else
                  raise_for_status resp ;;
                  ret (body resp))
               is_RequestException ;;
        match r with
        | inl answer => ret answer
        | inr (HTTPError code) =>
            if code =? 404 then ret (JDict [])
            else
              let retries := retries + 1 in
              backoff_unless_last max_retries backoff_factor retries ;;
              details_attempts fuel' url hd params max_retries
                               backoff_factor retries
        | inr _ =>
            let retries := retries + 1 in
            backoff_unless_last max_retries backoff_factor retries ;;
            details_attempts fuel' url hd params max_retries backoff_factor
                             retries
        end
    end
  else ret (JDict []).

Definition get_product_details (self : client) (product_number : string)
    (manufacturer_id : option Z) (max_retries backoff_factor : Z) : M json :=
  let url := details_url product_number in
  access_token <- get_access_token self ;;
  if negb (Py.truthy access_token) then ret (JDict [])
  else
    let hd := details_headers self access_token in
    let params := details_params manufacturer_id in
    details_attempts (Z.to_nat max_retries) url hd params max_retries
                     backoff_factor 0.

Section Mapping.

(** [repr] of a list or dict, which is what [str] and an f-string give
    for them; its exact text plays no part below. *)
Variable py_repr : json -> string.

(** [str(x)], [f"{x}"] *)
Definition py_str (x : json) : string :=
  match x with
  | JNull => "None"
  | JBool true => "True"
  | JBool false => "False"
  | JNum z => Py.str_int z
  | JStr s => s
  | _ => py_repr x
  end.

Definition safe_get (obj : json) (key : string) (dflt : json) : json :=
  match obj with
  | JDict d => default dflt (Py.assoc key d)
  | _ => dflt
  end.

Fixpoint first_parameter (params : list json) (parameter_text : string)
    (dflt : json) : result json :=
  match params with
  | [] => Ret dflt
  | param :: rest =>
      text <~ Py.get param "ParameterText" JNull ;;
      if Py.is_str parameter_text text
      then Py.get param "ValueText" dflt
      else first_parameter rest parameter_text dflt
  end.

Definition get_parameter_value (parameters : json)
    (parameter_text : string) (dflt : json) : result json :=
  if negb (Py.truthy parameters) then Ret dflt
  else
    params <~ Py.iter parameters ;;
    first_parameter params parameter_text dflt.

(** [not variations or not variations[0].get('StandardPricing')] *)
Definition no_standard_pricing (variations : json) : result bool :=
  if negb (Py.truthy variations) then Ret true
  else
    first <~ Py.index variations 0 ;;
    pricing <~ Py.get first "StandardPricing" JNull ;;
    Ret (negb (Py.truthy pricing)).

Fixpoint price_tiers (tiers : list json) : result (list string) :=
  match tiers with
  | [] => Ret []
  | price_tier :: rest =>
      qty <~ Py.get price_tier "BreakQuantity" (JNum 0) ;;
      price <~ Py.get price_tier "UnitPrice" (JNum 0) ;;
      more <~ price_tiers rest ;;
      Ret ((py_str qty +:+ "+-" +:+ py_str price) :: more)
  end.

Fixpoint join (sep : string) (parts : list string) : string :=
  match parts with
  | [] => ""
  | [p] => p
  | p :: rest => p +:+ sep +:+ join sep rest
  end.

Definition format_bulk_prices (variations : json) : result json :=
  none <~ no_standard_pricing variations ;;
  if (none : bool) then Ret (JStr "")
  else
    first <~ Py.index variations 0 ;;
    pricing <~ Py.getitem first "StandardPricing" ;;
    tiers <~ Py.iter pricing ;;
    pricing_list <~ price_tiers tiers ;;
    Ret (JStr (join ";" pricing_list)).

Definition get_base_price (variations : json) : result json :=
  none <~ no_standard_pricing variations ;;
  if (none : bool) then Ret (JNum 0)
  else
    first <~ Py.index variations 0 ;;
    pricing <~ Py.getitem first "StandardPricing" ;;
    first_pricing <~ Py.index pricing 0 ;;
    Py.get first_pricing "UnitPrice" (JNum 0).

Definition format_photos (photo_url : json) : json :=
  if Py.truthy photo_url
  then JStr (py_str photo_url +:+ "|" +:+ py_str photo_url)
  else JStr "".

Definition format_datasheets (datasheet_url : json) : result json :=
  if Py.truthy datasheet_url then
    match datasheet_url with
    | JStr s => Ret (JStr (if String.prefix "//" s then "https:" +:+ s else s))
    | _ => Raise AttributeError           (* no startswith *)
    end
  else Ret (JStr "").

(** [child_categories[i].get('Name', '') if len(child_categories) > i] *)
Definition child_name (child_categories : json) (i : nat) : result json :=
  n <~ Py.len child_categories ;;
  if Z.of_nat i <? n then
    child <~ Py.index child_categories i ;;
    Py.get child "Name" (JStr "")
  else Ret (JStr "").

Definition get_category_hierarchy (category : json)
  : result (json * json * json * json * json) :=
  if negb (Py.truthy category)
  then Ret (JStr "", JStr "", JStr "", JStr "", JStr "")
  else
    main_category <~ Py.get category "Name" (JStr "") ;;
    child_categories <~ Py.get category "ChildCategories" (JList []) ;;
    if Py.truthy child_categories then
      first <~ Py.index child_categories 0 ;;
      subcategory <~ Py.get first "Name" (JStr "") ;;
      sub_subcategory <~ child_name child_categories 1 ;;
      sub_sub_subcategory <~ child_name child_categories 2 ;;
      sub_sub_sub_subcategory <~ child_name child_categories 3 ;;
      Ret (main_category, subcategory, sub_subcategory,
           sub_sub_subcategory, sub_sub_sub_subcategory)
    else Ret (main_category, JStr "", JStr "", JStr "", JStr "").

(** [",".join(names)]: every item has to be a [str]. *)
Fixpoint str_items (names : list json) : result (list string) :=
  match names with
  | [] => Ret []
  | JStr s :: rest => more <~ str_items rest ;; Ret (s :: more)
  | _ :: _ => Raise TypeError
  end.

Definition format_other_names (other_names : json) : result json :=
  match other_names with
  | JList ((_ :: _) as names) =>
      parts <~ str_items names ;; Ret (JStr (join "," parts))
  | _ => Ret (JStr "")
  end.

(** A dict display [{k1: v1, k2: v2, ...}]: the values are evaluated in
    order and the first exception ends the evaluation. *)
Fixpoint dict_display (fields : list (string * result json))
  : result (list (string * json)) :=
  match fields with
  | [] => Ret []
  | (k, r) :: rest =>
      v <~ r ;;
      more <~ dict_display rest ;;
      Ret ((k, v) :: more)
  end.

(** [variations[0].get(key, dflt) if variations else ''] *)
Definition first_variation (variations : json) (key : string) (dflt : json)
  : result json :=
  if Py.truthy variations then
    first <~ Py.index variations 0 ;;
    Py.get first key dflt
  else Ret (JStr "").

Definition na : result json := Ret (JStr "").  (* not available in the API *)

Definition map_product_details_to_structure (api_response : json)
  : result json :=
  invalid <~ (if negb (Py.truthy api_response) then Ret true
              else has <~ Py.contains "Product" api_response ;;
                   Ret (negb has)) ;;
  if (invalid : bool) then Ret (JDict [])
  else
    product <~ Py.getitem api_response "Product" ;;
    parameters <~ Py.get product "Parameters" (JList []) ;;
    variations <~ Py.get product "ProductVariations" (JList []) ;;
    description <~ Py.get product "Description" (JDict []) ;;
    manufacturer <~ Py.get product "Manufacturer" (JDict []) ;;
    category <~ Py.get product "Category" (JDict []) ;;
    classifications <~ Py.get product "Classifications" (JDict []) ;;
    series <~ Py.get product "Series" (JDict []) ;;
    hierarchy <~ get_category_hierarchy category ;;
    let '(main_cat, sub_cat, sub_sub_cat, sub_sub_sub_cat,
          sub_sub_sub_sub_cat) := hierarchy in
    let e := JStr "" in
    mapped_product <~ dict_display [
      ("Product_Name_En", Ret (safe_get description "ProductDescription" e));
      ("ManufacturerPartNumber",
         Py.get product "ManufacturerProductNumber" e);
      ("Manufacturer_Name", Ret (safe_get manufacturer "Name" e));
      ("Series", Ret (safe_get series "Name" e));
      ("ShortDescription_En",
         Ret (safe_get description "ProductDescription" e));
      ("Description_En",
         Ret (safe_get description "DetailedDescription" e));
      ("CountryOfOrigin", na);
      ("ExpirationDate", na);
      ("RoHSCompliant", Ret (safe_get classifications "RohsStatus" e));
      ("BasePrice", get_base_price variations);
      ("BulkPrices", format_bulk_prices variations);
      ("StockQuantity", Py.get product "QuantityAvailable" (JNum 0));
      ("LeadTimeInDays",
         weeks <~ Py.get product "ManufacturerLeadWeeks" JNull ;;
         if Py.truthy weeks then
           shown <~ Py.get product "ManufacturerLeadWeeks" e ;;
           Ret (JStr (py_str shown +:+ " Weeks"))
         else Ret e);
      ("Manufacturer_Standard_Package",
         first_variation variations "StandardPackage" e);
      ("PackagingType",
         if Py.truthy variations then
           first <~ Py.index variations 0 ;;
           package_type <~ Py.get first "PackageType" (JDict []) ;;
           Py.get package_type "Name" e
         else Ret e);
      ("Warnings", na);
      ("Photos",
         photo_url <~ Py.get product "PhotoUrl" JNull ;;
         Ret (format_photos photo_url));
      ("Photos360", na);
      ("Datasheets",
         datasheet_url <~ Py.get product "DatasheetUrl" JNull ;;
         format_datasheets datasheet_url);
      ("Environmental_Information", na);
      ("Featured_Product", na);
      ("MSDS_Material_Safety_Datasheet", na);
      ("Product_Brief", na);
      ("Category", Ret main_cat);
      ("Subcategory", Ret sub_cat);
      ("Sub-Subcategory", Ret sub_sub_cat);
      ("Sub-sub-subcategory", Ret sub_sub_sub_cat);
      ("Sub-sub-sub-subcategory", Ret sub_sub_sub_sub_cat);
      ("Moisture_Sensitivity_Level_(MSL)",
         Ret (safe_get classifications "MoistureSensitivityLevel" e));
      ("REACH_Status", Ret (safe_get classifications "ReachStatus" e));
      ("ECCN",
         Ret (safe_get classifications "ExportControlClassNumber" e));
      ("HTSUS", Ret (safe_get classifications "HtsusCode" e));
      ("Other_Names",
         other_names <~ Py.get product "OtherNames" JNull ;;
         format_other_names other_names);
      ("Alternate_Color", na);
      ("Alternate_Length", na);
      ("Type", get_parameter_value parameters "Type" e);
      ("Part_Status",
         status <~ Py.get product "ProductStatus" (JDict []) ;;
         Ret (safe_get status "Status" e));
      ("Color", get_parameter_value parameters "Color" e);
      ("Width", get_parameter_value parameters "Width" e);
      ("Length", get_parameter_value parameters "Length" e);
      ("Shelf_Life", get_parameter_value parameters "Shelf Life" e);
      ("Shelf_Life_Start", na);
      ("Storage/Refrigeration_Temperature",
         get_parameter_value parameters
           "Storage/Refrigeration Temperature" e);
      ("Features", get_parameter_value parameters "Features" e);
      ("Base_Product_Number",
         base <~ Py.get product "BaseProductNumber" (JDict []) ;;
         Ret (safe_get base "Name" e));
      ("Material", get_parameter_value parameters "Material" e);
      ("Shrinkage_Ratio",
         get_parameter_value parameters "Shrinkage Ratio" e);
      ("Inner_Diameter_-_Supplied",
         get_parameter_value parameters "Inner Diameter - Supplied" e);
      ("Inner_Diameter_-_Recovered",
         get_parameter_value parameters "Inner Diameter - Recovered" e);
      ("Recovered_Wall_Thickness",
         get_parameter_value parameters "Recovered Wall Thickness" e);
      ("Operating_Temperature",
         get_parameter_value parameters "Operating Temperature" e);
      ("Shrink_Temperature",
         get_parameter_value parameters "Shrink Temperature" e);
      ("Link", Py.get product "ProductUrl" e)
    ] ;;
    Ret (JDict mapped_product).

Definition mapped_file (self : client) : string :=
  base_dir self +:+ "/product_details_mapped.json".

Definition raw_file (self : client) : string :=
  base_dir self +:+ "/product_details_raw.json".

Definition json_of_id (manufacturer_id : option Z) : json :=
  match manufacturer_id with Some id => JNum id | None => JNull end.

Definition process_and_store_product_details (self : client)
    (product_number : string) (manufacturer_id : option Z) : M json :=
  api_response <- get_product_details self product_number manufacturer_id
                                      3 2 ;;
  if negb (Py.truthy api_response) then ret (JDict [])
  else
    r <- try_except (lift (map_product_details_to_structure api_response))
                    is_Exception ;;
    match r with
    | inr _ => ret (JDict [])
    | inl mapped_product =>
        if negb (Py.truthy mapped_product) then ret (JDict [])
        else
          timestamp <- strftime_now ;;
          let result_data :=
            JDict [("metadata",
                     JDict [("product_number", JStr product_number);
                            ("manufacturer_id", json_of_id manufacturer_id);
                            ("timestamp", JStr timestamp);
                            ("api_endpoint", JStr "ProductDetails")]);
                   ("mapped_product", mapped_product);
                   ("raw_response", api_response)] in
          let raw_data :=
            JDict [("metadata",
                     JDict [("product_number", JStr product_number);
                            ("manufacturer_id", json_of_id manufacturer_id);
                            ("timestamp", JStr timestamp)]);
                   ("raw_response", api_response)] in
          r <- try_except
                 (append_to_store (mapped_file self) result_data ;;
                  append_to_store (raw_file self) raw_data ;;
                  ret mapped_product)
                 is_Exception ;;
          match r with
          | inl stored => ret stored
          | inr _ => ret (JDict [])
          end
    end.

Fixpoint bulk_loop (self : client) (product_numbers : list string)
    (manufacturer_id : option Z) (results : list json) : M (list json) :=
  match product_numbers with
  | [] => ret results
  | product_number :: rest =>
      mapped_product <- process_and_store_product_details
                          self product_number manufacturer_id ;;
      let results := if Py.truthy mapped_product
                     then (results ++ [mapped_product])%list else results in
      sleep 1 ;;
      bulk_loop self rest manufacturer_id results
  end.

Definition bulk_get_product_details (self : client)
    (product_numbers : list string) (manufacturer_id : option Z)
  : M (list json) :=
  bulk_loop self product_numbers manufacturer_id [].
End Mapping.

End ProductDetailsAPI.

(** ** Observations on worlds and traces, used to state the properties *)

(** The collection a store file stands for when the next append reads it. *)
Definition stored_collection (path : string) (w : World) : list json :=
  match fs w !! path with
  | Some (JsonText (JList l)) => l
  | Some (JsonText doc) => [doc]
  | Some (BadText _) => []
  | Some (NotText _) => []
  | None => []
  end.

(** The file at [path] cannot be read as text. *)
Definition undecodable (path : string) (w : World) : bool :=
  match fs w !! path with
  | Some (NotText _) => true
  | _ => false
  end.

Definition print_all (items : list json) (w : World) : World :=
  fold_left (fun w' x => emit (EvPrint x) w') items w.

(** Bodies of the POST requests in a trace, oldest first. *)
Definition page_requests (evs : list event) : list json :=
  flat_map (fun e => match e with EvPost _ _ data => [data] | _ => [] end) evs.

(** Lengths of the sleeps in a trace, oldest first. *)
Definition sleeps (evs : list event) : list Z :=
  flat_map (fun e => match e with EvSleep s => [s] | _ => [] end) evs.

Definition ceil_div (a b : Z) : Z := (a + b - 1) / b.

Definition all_dicts (items : list json) : bool :=
  forallb Py.isinstance_dict items.

(** What [process_products] does, in closed form: the batch is appended
    unless the file cannot be read as text or cannot be written; the items
    are printed when reading or writing fails, or when the debug line after
    the write raises. *)
Definition after_process_products (self : client) (products : json)
    (items : list json) (offset limit n : Z) (w : World) : World :=
  let path := DgkeySdk.store_file self in
  let batch := DgkeySdk.batch_data products offset limit n (now w) in
  if undecodable path w then print_all items w
  else if bool_decide (path ∈ unwritable w)
  then print_all items (after_failed_write path w)
  else
    let w1 := set_fs (<[path := JsonText (JList (stored_collection path w
                                                  ++ [batch]))]> (fs w)) w in
    if all_dicts items then w1 else print_all items w1.

(** The token file holds a credential that [get_access_token] can read. *)
Definition cached_token (self : client) (w : World) (tok : json) : Prop :=
  exists data,
    fs w !! token_file self = Some (JsonText data) /\
    Py.getitem data "access_token" = Ret tok.

(** An exchange that counts as failed: no response, or a status for which
    [raise_for_status] raises. *)
Definition fails (o : http_outcome) : bool :=
  match o with
  | ConnectionFailed => true
  | Responded c _ => (400 <=? c) && (c <? 600)
  end.

Definition is_404 (o : http_outcome) : bool :=
  match o with
  | ConnectionFailed => false
  | Responded c _ => c =? 404
  end.

(** What one [token_update] leaves in the trace. *)
Definition refresh_events : list event :=
  [EvKeywordSearch "Batteries Rechargeable (Secondary)" 10 0; EvSleep 5].

(** The [i]-th failed turn of [_search_product]'s loop, [i] counted from 1:
    the request, the backoff, the refresh. *)
Definition search_round (hd : headers) (payload : json) (backoff_factor : Z)
    (i : nat) : list event :=
  [EvPost DgkeySdk.search_url hd payload; EvSleep (backoff_factor ^ Z.of_nat i)]
    ++ refresh_events.

(** The [i]-th failed turn of [get_product_details]'s loop: the request, and
    the backoff unless it was the last turn. *)
Definition details_round (url : string) (hd : headers)
    (params : list (string * string)) (max_retries backoff_factor : Z)
    (i : nat) : list event :=
  EvGet url hd params ::
  (if Z.of_nat i <? max_retries then [EvSleep (backoff_factor ^ Z.of_nat i)]
   else []).

(** A successful page fetch: a response that [raise_for_status] accepts,
    whose body is a dict reporting [total] under [ProductsCount] and holding
    [products] ([[]] when the key is missing). *)
Definition is_page (total : Z) (products : json) (o : http_outcome) : Prop :=
  exists c d,
    o = Responded c (JDict d) /\
    fails o = false /\
    Py.assoc "ProductsCount" d = Some (JNum total) /\
    default (JList []) (Py.assoc "Products" d) = products.

(** ... whose products are a sequence. *)
Definition page_ok (total : Z) (o : http_outcome) : Prop :=
  exists products n, is_page total products o /\ Py.len products = Ret n.

(** Number of turns the [while True] loop takes for [total] results. *)
Definition pages_needed (total limit : Z) : nat :=
  Z.to_nat (Z.max 1 (ceil_div total limit)).

(** The request bodies of the pages [j], [j+1], ... ([k] of them). *)
Definition page_payloads (keyword : string) (limit manufactured_id : Z)
    (j k : nat) : list json :=
  (fun i => DgkeySdk.search_payload keyword limit (limit * Z.of_nat i)
                                    manufactured_id) <$> seq j k.

(** The keys of a mapped record, in the order of the dict display. *)
Definition output_keys : list string :=
  ["Product_Name_En"; "ManufacturerPartNumber"; "Manufacturer_Name"; "Series";
   "ShortDescription_En"; "Description_En"; "CountryOfOrigin";
   "ExpirationDate"; "RoHSCompliant"; "BasePrice"; "BulkPrices";
   "StockQuantity"; "LeadTimeInDays"; "Manufacturer_Standard_Package";
   "PackagingType"; "Warnings"; "Photos"; "Photos360"; "Datasheets";
   "Environmental_Information"; "Featured_Product";
   "MSDS_Material_Safety_Datasheet"; "Product_Brief"; "Category";
   "Subcategory"; "Sub-Subcategory"; "Sub-sub-subcategory";
   "Sub-sub-sub-subcategory"; "Moisture_Sensitivity_Level_(MSL)";
   "REACH_Status"; "ECCN"; "HTSUS"; "Other_Names"; "Alternate_Color";
   "Alternate_Length"; "Type"; "Part_Status"; "Color"; "Width"; "Length";
   "Shelf_Life"; "Shelf_Life_Start"; "Storage/Refrigeration_Temperature";
   "Features"; "Base_Product_Number"; "Material"; "Shrinkage_Ratio";
   "Inner_Diameter_-_Supplied"; "Inner_Diameter_-_Recovered";
   "Recovered_Wall_Thickness"; "Operating_Temperature"; "Shrink_Temperature";
   "Link"].

(** Shapes of a vendor product on which the mapper does not raise. *)
Module WellFormed.

(** Empty, or a list of dicts. *)
Definition dict_list (x : json) : bool :=
  negb (Py.truthy x) ||
  match x with JList l => all_dicts l | _ => false end.

Definition variations (v : json) : bool :=
  negb (Py.truthy v) ||
  match v with
  | JList (JDict first :: _) =>
      dict_list (default JNull (Py.assoc "StandardPricing" first)) &&
      match Py.assoc "PackageType" first with
      | None | Some (JDict _) => true
      | Some _ => false
      end
  | _ => false
  end.

Definition children (c : json) : bool :=
  negb (Py.truthy c) ||
  match c with JList l => all_dicts (take 4 l) | _ => false end.

Definition category (c : json) : bool :=
  negb (Py.truthy c) ||
  match c with
  | JDict d => children (default (JList []) (Py.assoc "ChildCategories" d))
  | _ => false
  end.

Definition datasheet (u : json) : bool :=
  negb (Py.truthy u) || match u with JStr _ => true | _ => false end.

Definition is_JStr (x : json) : bool :=
  match x with JStr _ => true | _ => false end.

Definition other_names (o : json) : bool :=
  match o with JList l => forallb is_JStr l | _ => true end.

Definition product (p : json) : bool :=
  match p with
  | JDict d =>
      dict_list (default (JList []) (Py.assoc "Parameters" d)) &&
      variations (default (JList []) (Py.assoc "ProductVariations" d)) &&
      category (default (JDict []) (Py.assoc "Category" d)) &&
      datasheet (default JNull (Py.assoc "DatasheetUrl" d)) &&
      other_names (default JNull (Py.assoc "OtherNames" d))
  | _ => false
  end.

End WellFormed.

(** The computation ends with a value. *)
Definition returns {A} (r : result A) : Prop := exists v, r = Ret v.

(** ** Sample inputs, for evaluating the model *)

Definition acme : client := Client "/srv/dkey" "client-id" "client-secret".

Definition sample_token : file_content :=
  JsonText (JDict [("access_token", JStr "t0k3n")]).

Definition sample_product : json :=
  JDict [("ManufacturerPartNumber", JStr "LM358");
         ("ProductDescription", JStr "IC OPAMP GP 2 CIRCUIT 8SOIC")].

Definition sample_page (total : Z) (products : list json) : json :=
  JDict [("ProductsCount", JNum total); ("Products", JList products)].

Definition sample_world (files : gmap string file_content)
    (locked : gset string) (answers : nat -> http_outcome) : World :=
  mkWorld files locked ∅ answers 0 (fun _ => SdkReturns None) 0
          "2024-05-01 12:00:00" [].

Definition corrupt_store : gmap string file_content :=
  {[ DgkeySdk.store_file acme := BadText "[{metadata: 50, " ]}.

Definition one_batch_store : gmap string file_content :=
  {[ DgkeySdk.store_file acme :=
       JsonText (JList [DgkeySdk.batch_data (JList []) 0 50 0
                                            "2024-04-30 08:00:00"]) ]}.

Definition no_answer : nat -> http_outcome := fun _ => ConnectionFailed.

Definition token_store : gmap string file_content :=
  {[ token_file acme := sample_token ]}.

Definition always_500 : nat -> http_outcome :=
  fun _ => Responded 500 (JDict [("detail", JStr "Internal Server Error")]).

Definition always_404 : nat -> http_outcome :=
  fun _ => Responded 404 (JDict [("detail", JStr "Not Found")]).


(** The same world with an SDK that stores [c] as the token file on every
    call. *)
Definition sdk_grants (c : file_content) (w : World) : World :=
  mkWorld (fs w) (unwritable w) (torn w)
          (http w) (http_calls w)
          (fun _ => SdkReturns (Some c)) (sdk_calls w) (now w) (events w).

Definition pages_of (total : Z) (products : list json) : nat -> http_outcome :=
  fun _ => Responded 200 (sample_page total products).

Definition sample_details : json :=
  JDict [("Product",
    JDict [("Description",
             JDict [("ProductDescription", JStr "HEATSHRINK 3/4 BLK 200FT");
                    ("DetailedDescription", JStr "Heat Shrink Tubing 2 to 1")]);
           ("ManufacturerProductNumber", JStr "FP-301 3/4 BL 200");
           ("Manufacturer", JDict [("Id", JNum 19); ("Name", JStr "3M")]);
           ("QuantityAvailable", JNum 12);
           ("ProductUrl", JStr "https://www.digikey.com/en/products/detail/x");
           ("DatasheetUrl", JStr "//multimedia.3m.com/fp301.pdf");
           ("ProductVariations",
             JList [JDict [("PackageType", JDict [("Name", JStr "Spool")]);
                           ("StandardPackage", JNum 1);
                           ("StandardPricing",
                             JList [JDict [("BreakQuantity", JNum 1);
                                           ("UnitPrice", JNum 153)];
                                    JDict [("BreakQuantity", JNum 5);
                                           ("UnitPrice", JNum 140)]])]]);
           ("Parameters",
             JList [JDict [("ParameterText", JStr "Type");
                           ("ValueText", JStr "Tubing, Flexible")];
                    JDict [("ParameterText", JStr "Color");
                           ("ValueText", JStr "Black")]]);
           ("Category",
             JDict [("Name", JStr "Cables, Wires - Management");
                    ("ChildCategories",
                      JList [JDict [("Name", JStr "Heat Shrink Tubing")]])]);
           ("OtherNames", JList [JStr "FP034K-200"; JStr "3M5385"])])].

(** A stand-in for [repr] of containers, to evaluate the mapper. *)
Definition opaque_repr : json -> string := fun _ => "<container>".

(** The same world where a failed write to [path] happens after the file
    has been opened, and leaves [left_behind] in it. *)
Definition tearing (path : string) (left_behind : file_content) (w : World)
  : World :=
  mkWorld (fs w) (unwritable w) (<[path := left_behind]> (torn w))
          (http w) (http_calls w) (sdk w) (sdk_calls w) (now w) (events w).

(** Bytes that are no UTF-8 text: the byte-order mark of another encoding
    (FF FE) in front of a JSON list. *)
Definition not_utf8 : string :=
  String (ascii_of_nat 255) (String (ascii_of_nat 254) "[1, 2]").

Definition undecodable_store : gmap string file_content :=
  {[ DgkeySdk.store_file acme := NotText not_utf8 ]}.

(** ** Further observations, for the properties beyond the claims *)

(** [w'] differs from [w] at most in the call counters, the trace and the
    token file. *)
Definition same_outside (self : client) (w w' : World) : Prop :=
  http w' = http w /\ sdk w' = sdk w /\
  unwritable w' = unwritable w /\ torn w' = torn w /\ now w' = now w /\
  forall p, p <> token_file self -> fs w' !! p = fs w !! p.

(** What the loop of [_search_product] can leave in the trace for a given
    request: that POST, a sleep, or the SDK search of [token_update]. *)
Definition search_event (hd : headers) (payload : json) (e : event) : Prop :=
  e = EvPost DgkeySdk.search_url hd payload \/
  (exists secs, e = EvSleep secs) \/
  e = EvKeywordSearch "Batteries Rechargeable (Secondary)" 10 0.

(** What the loop of [get_product_details] can leave in the trace. *)
Definition details_event (url : string) (hd : headers)
    (params : list (string * string)) (e : event) : Prop :=
  e = EvGet url hd params \/ exists secs, e = EvSleep secs.

(** The decoded body of an answer ([None] when there is none). *)
Definition answer_body (o : http_outcome) : json :=
  match o with
  | Responded _ b => b
  | ConnectionFailed => JNull
  end.





(** The entries [process_and_store_product_details] appends to the mapped
    file and to the raw file. *)
Definition mapped_entry (product_number : string) (manufacturer_id : option Z)
    (timestamp : string) (mapped_product api_response : json) : json :=
  JDict [("metadata",
           JDict [("product_number", JStr product_number);
                  ("manufacturer_id",
                     ProductDetailsAPI.json_of_id manufacturer_id);
                  ("timestamp", JStr timestamp);
                  ("api_endpoint", JStr "ProductDetails")]);
         ("mapped_product", mapped_product);
         ("raw_response", api_response)].

Definition raw_entry (product_number : string) (manufacturer_id : option Z)
    (timestamp : string) (api_response : json) : json :=
  JDict [("metadata",
           JDict [("product_number", JStr product_number);
                  ("manufacturer_id",
                     ProductDetailsAPI.json_of_id manufacturer_id);
                  ("timestamp", JStr timestamp)]);
         ("raw_response", api_response)].

(** Reading a percent-encoded text back, to show that [Quote.quote] loses
    nothing. *)
Definition hex_value (a : ascii) : option nat :=
  let n := nat_of_ascii a in
  if ((48 <=? n) && (n <=? 57))%nat then Some (n - 48)%nat
  else if ((65 <=? n) && (n <=? 70))%nat then Some (n - 55)%nat
  else None.

Fixpoint unquote (s : string) : string :=
  match s with
  | EmptyString => EmptyString
  | String a rest =>
      if Ascii.eqb a "%" then
        match rest with
        | String h (String l rest') =>
            match hex_value h, hex_value l with
            | Some x, Some y =>
                String (ascii_of_nat (16 * x + y)) (unquote rest')
            | _, _ => EmptyString
            end
        | _ => EmptyString
        end
      else String a (unquote rest)
  end.

(** A parameter entry that carries the given [ParameterText]. *)
Definition names_parameter (parameter_text : string) (param : json) : bool :=
  match param with
  | JDict d => Py.is_str parameter_text (default JNull (Py.assoc "ParameterText" d))
  | _ => false
  end.


(** * Properties *)

(** ** Running the monad *)

Lemma bind_ret {A B} (m : M A) (k : A -> M B) w a w' :
  m w = (Ret a, w') -> bind m k w = k a w'.
Proof. intros H. unfold bind. now rewrite H. Qed.

Lemma bind_raise {A B} (m : M A) (k : A -> M B) w e w' :
  m w = (Raise e, w') -> bind m k w = (Raise e, w').
Proof. intros H. unfold bind. now rewrite H. Qed.

Lemma path_exists_some path w c :
  fs w !! path = Some c -> path_exists path w = (Ret true, w).
Proof. intros H. unfold path_exists. now rewrite H. Qed.

Lemma path_exists_none path w :
  fs w !! path = None -> path_exists path w = (Ret false, w).
Proof. intros H. unfold path_exists. now rewrite H. Qed.

(** ** The store *)

(** The append block in closed form: reading bytes that are no text raises
    past the handler for [JSONDecodeError]; otherwise the entry is added to
    what the file stood for, unless the write fails. *)
Lemma append_to_store_run path entry w :
  append_to_store path entry w =
    if undecodable path w then (Raise UnicodeDecodeError, w)
    else if bool_decide (path ∈ unwritable w)
    then (Raise OSError, after_failed_write path w)
    else (Ret tt,
          set_fs (<[path := JsonText (JList (stored_collection path w ++ [entry]))]>
                    (fs w)) w).
Proof.
  unfold append_to_store, stored_collection, undecodable, bind, path_exists,
    try_except, json_load_file, json_dump_file, ret.
  destruct (fs w !! path) as [[doc|text|bytes]|] eqn:E; simpl; rewrite ?E;
    simpl; try reflexivity.
Qed.

Lemma for_each_print items w :
  for_each items print w = (Ret tt, print_all items w).
Proof.
  revert w. induction items as [|x items IH]; intros w; simpl; [reflexivity|].
  unfold bind, print at 1. apply IH.
Qed.

Lemma for_each_log items w :
  for_each items DgkeySdk.log_product w =
    (if all_dicts items then Ret tt else Raise AttributeError, w).
Proof.
  induction items as [|x items IH]; simpl; [reflexivity|].
  unfold bind. destruct x; simpl; try reflexivity.
  rewrite IH. destruct (all_dicts items); reflexivity.
Qed.

Lemma len_iter x n : Py.len x = Ret n -> exists items, Py.iter x = Ret items.
Proof. destruct x; simpl; intros H; try discriminate; eauto. Qed.

Lemma bind_lift_ret {A B} (r : result A) (k : A -> M B) w a :
  r = Ret a -> bind (lift r) k w = k a w.
Proof. intros ->. reflexivity. Qed.

Lemma process_products_run self products offset limit w n items :
  Py.len products = Ret n ->
  Py.iter products = Ret items ->
  DgkeySdk.process_products self products offset limit w =
    (Ret tt, after_process_products self products items offset limit n w).
Proof.
  intros Hn Hi.
  unfold DgkeySdk.process_products, after_process_products.
  rewrite (bind_lift_ret _ _ _ _ Hn).
  unfold bind at 1. unfold strftime_now at 1.
  unfold bind at 1. unfold try_except at 1.
  unfold bind at 1. rewrite append_to_store_run.
  destruct (undecodable (DgkeySdk.store_file self) w) eqn:D;
    [|destruct (bool_decide (DgkeySdk.store_file self ∈ unwritable w)) eqn:U].
  - simpl. rewrite (bind_lift_ret _ _ _ _ Hi). apply for_each_print.
  - simpl. rewrite (bind_lift_ret _ _ _ _ Hi). apply for_each_print.
  - rewrite (bind_lift_ret _ _ _ _ Hi).
    rewrite for_each_log.
    destruct (all_dicts items); simpl; [reflexivity|].
    rewrite (bind_lift_ret _ _ _ _ Hi). apply for_each_print.
Qed.

Lemma lookup_set_fs_eq path c w :
  fs (set_fs (<[path := c]> (fs w)) w) !! path = Some c.
Proof. simpl. apply lookup_insert_eq. Qed.

Lemma fs_print_all items w : fs (print_all items w) = fs w.
Proof.
  revert w. induction items as [|x items IH]; intros w; simpl; [reflexivity|].
  now rewrite IH.
Qed.

Lemma events_print_all items w :
  events (print_all items w) = events w ++ (EvPrint <$> items).
Proof.
  revert w. induction items as [|x items IH]; intros w; simpl.
  - now rewrite app_nil_r.
  - rewrite IH. simpl. now rewrite <- app_assoc.
Qed.

Lemma events_after_failed_write path w :
  events (after_failed_write path w) = events w.
Proof. unfold after_failed_write. now destruct (torn w !! path). Qed.

Lemma decodable_store path w c :
  fs w !! path = Some c -> (forall bytes, c <> NotText bytes) ->
  undecodable path w = false.
Proof.
  intros H Hc. unfold undecodable. rewrite H.
  destruct c; try reflexivity. now destruct (Hc bytes).
Qed.

(** After a write that went through, the store file holds the former
    collection followed by the new batch, whatever else happened. *)
Lemma process_products_stores self products items offset limit n w :
  DgkeySdk.store_file self ∉ unwritable w ->
  undecodable (DgkeySdk.store_file self) w = false ->
  fs (after_process_products self products items offset limit n w)
    !! DgkeySdk.store_file self =
  Some (JsonText (JList (stored_collection (DgkeySdk.store_file self) w ++
                         [DgkeySdk.batch_data products offset limit n (now w)]))).
Proof.
  intros Hw Hd. unfold after_process_products. rewrite Hd.
  rewrite bool_decide_eq_false_2 by exact Hw.
  destruct (all_dicts items); rewrite ?fs_print_all; apply lookup_set_fs_eq.
Qed.

(** Text that does not parse as JSON is recovered from: the append goes
    through and leaves a one-element collection holding the new entry; the
    corrupt text is gone. *)
Lemma unparsable_store_is_replaced self products offset limit n w text :
  Py.len products = Ret n ->
  fs w !! DgkeySdk.store_file self = Some (BadText text) ->
  DgkeySdk.store_file self ∉ unwritable w ->
  exists w',
    DgkeySdk.process_products self products offset limit w = (Ret tt, w') /\
    fs w' !! DgkeySdk.store_file self =
      Some (JsonText (JList [DgkeySdk.batch_data products offset limit n
                                                 (now w)])).
Proof.
  intros Hn Hbad Hw.
  destruct (len_iter _ _ Hn) as [items Hi].
  eexists. split; [apply (process_products_run _ _ _ _ _ _ _ Hn Hi)|].
  rewrite process_products_stores;
    [|exact Hw|apply (decodable_store _ _ _ Hbad); discriminate].
  unfold stored_collection. now rewrite Hbad.
Qed.

Lemma print_all_frame items w :
  unwritable (print_all items w) = unwritable w /\
  now (print_all items w) = now w /\
  http (print_all items w) = http w /\
  http_calls (print_all items w) = http_calls w /\
  sdk (print_all items w) = sdk w /\
  sdk_calls (print_all items w) = sdk_calls w.
Proof.
  revert w. induction items as [|x items IH]; intros w; simpl; [tauto|].
  destruct (IH (emit (EvPrint x) w)) as (-> & -> & -> & -> & -> & ->).
  tauto.
Qed.

(** [process_products] touches the store file and the trace, nothing else. *)
Lemma process_products_frame self products items offset limit n w :
  let w' := after_process_products self products items offset limit n w in
  unwritable w' = unwritable w /\ now w' = now w /\
  http w' = http w /\ http_calls w' = http_calls w /\
  sdk w' = sdk w /\ sdk_calls w' = sdk_calls w.
Proof.
  unfold after_process_products.
  destruct (undecodable _ w); [apply print_all_frame|].
  destruct (bool_decide _).
  { match goal with |- context [print_all items ?v] =>
      destruct (print_all_frame items v) as (-> & -> & -> & -> & -> & ->) end.
    unfold after_failed_write. destruct (torn w !! _); simpl; tauto. }
  destruct (all_dicts items); [simpl; tauto|].
  match goal with |- context [print_all items ?v] =>
    destruct (print_all_frame items v) as (-> & -> & -> & -> & -> & ->) end.
  simpl; tauto.
Qed.

Lemma iter_len x items : Py.iter x = Ret items -> exists n, Py.len x = Ret n.
Proof. destruct x; simpl; intros H; try discriminate; eauto. Qed.

(** C6. Appending to a store file that holds the JSON list [L] writes back
    [L] followed by the new batch: one element more, the prior batches
    untouched and in place; the same batch appended again gives a second
    entry. *)
Theorem append_extends_collection self products offset limit n L w :
  Py.len products = Ret n ->
  fs w !! DgkeySdk.store_file self = Some (JsonText (JList L)) ->
  DgkeySdk.store_file self ∉ unwritable w ->
  let batch := DgkeySdk.batch_data products offset limit n (now w) in
  exists w1 w2,
    DgkeySdk.process_products self products offset limit w = (Ret tt, w1) /\
    fs w1 !! DgkeySdk.store_file self = Some (JsonText (JList (L ++ [batch]))) /\
    length (L ++ [batch]) = S (length L) /\
    DgkeySdk.process_products self products offset limit w1 = (Ret tt, w2) /\
    fs w2 !! DgkeySdk.store_file self =
      Some (JsonText (JList (L ++ [batch; batch]))).
Proof.
  intros Hn HL Hw batch.
  destruct (len_iter _ _ Hn) as [items Hi].
  pose proof (process_products_frame self products items offset limit n w)
    as (Hu & Hnow & _).
  set (w1 := after_process_products self products items offset limit n w) in *.
  assert (H1 : fs w1 !! DgkeySdk.store_file self =
               Some (JsonText (JList (L ++ [batch])))).
  { subst w1. rewrite process_products_stores;
      [|exact Hw|apply (decodable_store _ _ _ HL); discriminate].
    unfold stored_collection. now rewrite HL. }
  exists w1, (after_process_products self products items offset limit n w1).
  split; [apply (process_products_run _ _ _ _ _ _ _ Hn Hi)|].
  split; [exact H1|].
  split; [rewrite length_app; simpl; lia|].
  split; [apply (process_products_run _ _ _ _ _ _ _ Hn Hi)|].
  rewrite process_products_stores;
    [|rewrite Hu; exact Hw|apply (decodable_store _ _ _ H1); discriminate].
  unfold stored_collection. rewrite H1, Hnow, <- app_assoc. reflexivity.
Qed.

Lemma append_extends_collection_witness :
  let old := DgkeySdk.batch_data (JList []) 0 50 0 "2024-04-30 08:00:00" in
  let batch := DgkeySdk.batch_data (JList [sample_product]) 50 50 1
                                   "2024-05-01 12:00:00" in
  exists w1 w2,
    DgkeySdk.process_products acme (JList [sample_product]) 50 50
      (sample_world one_batch_store ∅ no_answer) = (Ret tt, w1) /\
    fs w1 !! DgkeySdk.store_file acme = Some (JsonText (JList ([old] ++ [batch]))) /\
    length ([old] ++ [batch]) = 2%nat /\
    DgkeySdk.process_products acme (JList [sample_product]) 50 50 w1
      = (Ret tt, w2) /\
    fs w2 !! DgkeySdk.store_file acme =
      Some (JsonText (JList ([old] ++ [batch; batch]))).
Proof.
  intros old batch.
  apply (append_extends_collection acme (JList [sample_product]) 50 50 1 [old]
           (sample_world one_batch_store ∅ no_answer)).
  - reflexivity.
  - reflexivity.
  - apply not_elem_of_empty.
Defined.

(** C7, as the code has it. When writing the store file fails, at
    [open] or later while the text is written, [process_products] prints the
    batch's items to standard output in order and returns normally; what it
    returns is the same [None] it returns after a write that went through. *)
Theorem write_failure_prints_items self products items offset limit w :
  Py.iter products = Ret items ->
  DgkeySdk.store_file self ∈ unwritable w ->
  (exists w',
      DgkeySdk.process_products self products offset limit w = (Ret tt, w') /\
      events w' = events w ++ (EvPrint <$> items)) /\
  (forall v, fst (DgkeySdk.process_products self products offset limit v)
             = Ret tt).
Proof.
  intros Hi Hw. destruct (iter_len _ _ Hi) as [n Hn]. split.
  - eexists. split; [apply (process_products_run _ _ _ _ _ _ _ Hn Hi)|].
    unfold after_process_products.
    rewrite bool_decide_eq_true_2 by exact Hw.
    destruct (undecodable _ w); rewrite events_print_all;
      [reflexivity|now rewrite events_after_failed_write].
  - intros v. now rewrite (process_products_run _ _ _ _ _ _ _ Hn Hi).
Qed.

Lemma write_failure_prints_items_witness :
  let w := tearing (DgkeySdk.store_file acme) (BadText "[")
             (sample_world one_batch_store {[ DgkeySdk.store_file acme ]}
                           no_answer) in
  (exists w',
      DgkeySdk.process_products acme (JList [sample_product]) 0 50 w
        = (Ret tt, w') /\
      events w' = events w ++ [EvPrint sample_product]) /\
  (forall v, fst (DgkeySdk.process_products acme (JList [sample_product]) 0 50 v)
             = Ret tt).
Proof.
  intros w.
  apply (write_failure_prints_items acme (JList [sample_product])
           [sample_product] 0 50 w).
  - reflexivity.
  - unfold w, tearing, sample_world; simpl. apply elem_of_singleton_2.
    reflexivity.
Defined.

(** C7, as stated, fails: a caller cannot tell a failed write from a
    successful one by what [process_products] returns. *)
Lemma write_failure_is_not_reported :
  let failing := sample_world ∅ {[ DgkeySdk.store_file acme ]} no_answer in
  let working := sample_world ∅ ∅ no_answer in
  let run := DgkeySdk.process_products acme (JList [sample_product]) 0 50 in
  fs (snd (run failing)) !! DgkeySdk.store_file acme = None /\
  fs (snd (run working)) !! DgkeySdk.store_file acme =
    Some (JsonText (JList [DgkeySdk.batch_data (JList [sample_product]) 0 50 1
                             "2024-05-01 12:00:00"])) /\
  fst (run failing) = fst (run working).
Proof. vm_compute. repeat split; reflexivity. Qed.

(** C9. The batch that [process_products] builds and stores for a list of
    products carries, as [metadata.product_count], the length of its own
    [products] list, which is the list it was given. *)
Theorem batch_count_matches_items self (ps : list json) offset limit w :
  DgkeySdk.store_file self ∉ unwritable w ->
  undecodable (DgkeySdk.store_file self) w = false ->
  exists w' batch,
    DgkeySdk.process_products self (JList ps) offset limit w = (Ret tt, w') /\
    fs w' !! DgkeySdk.store_file self =
      Some (JsonText (JList (stored_collection (DgkeySdk.store_file self) w
                             ++ [batch]))) /\
    Py.getitem batch "products" = Ret (JList ps) /\
    rbind (Py.getitem batch "metadata")
          (fun metadata => Py.getitem metadata "product_count")
      = Ret (JNum (Z.of_nat (length ps))).
Proof.
  intros Hw Hd.
  exists (after_process_products self (JList ps) ps offset limit
            (Z.of_nat (length ps)) w),
         (DgkeySdk.batch_data (JList ps) offset limit (Z.of_nat (length ps))
            (now w)).
  split; [now apply process_products_run|].
  split; [now apply process_products_stores|].
  split; reflexivity.
Qed.

Lemma batch_count_matches_items_witness :
  exists w' batch,
    DgkeySdk.process_products acme (JList [sample_product; sample_product])
      100 50 (sample_world one_batch_store ∅ no_answer) = (Ret tt, w') /\
    fs w' !! DgkeySdk.store_file acme =
      Some (JsonText (JList (stored_collection (DgkeySdk.store_file acme)
                               (sample_world one_batch_store ∅ no_answer)
                             ++ [batch]))) /\
    Py.getitem batch "products" = Ret (JList [sample_product; sample_product]) /\
    rbind (Py.getitem batch "metadata")
          (fun metadata => Py.getitem metadata "product_count")
      = Ret (JNum 2).
Proof.
  apply (batch_count_matches_items acme [sample_product; sample_product] 100 50
           (sample_world one_batch_store ∅ no_answer)).
  - apply not_elem_of_empty.
  - reflexivity.
Defined.

(** ** Credentials *)

Lemma search_token_cached self w tok :
  cached_token self w tok -> DgkeySdk.get_access_token self w = (Ret tok, w).
Proof.
  intros (data & Hf & Hk). unfold DgkeySdk.get_access_token.
  rewrite (bind_ret _ _ _ _ _ (path_exists_some _ _ _ Hf)). simpl.
  unfold bind at 1. unfold ret at 1.
  unfold bind, json_load_file. rewrite Hf. unfold lift. now rewrite Hk.
Qed.

Lemma details_token_cached self w tok :
  cached_token self w tok ->
  ProductDetailsAPI.get_access_token self w = (Ret tok, w).
Proof.
  intros (data & Hf & Hk). unfold ProductDetailsAPI.get_access_token.
  rewrite (bind_ret _ _ _ _ _ (path_exists_some _ _ _ Hf)). simpl.
  unfold bind, json_load_file. rewrite Hf. unfold lift. now rewrite Hk.
Qed.

Lemma sleep_returns secs w :
  0 <= secs <= max_sleep -> sleep secs w = (Ret tt, emit (EvSleep secs) w).
Proof.
  intros H. unfold sleep.
  destruct (Z.ltb_spec secs (- max_sleep)); [unfold max_sleep in *; lia|].
  destruct (Z.ltb_spec max_sleep secs); [lia|].
  destruct (Z.ltb_spec secs 0); [lia|reflexivity].
Qed.

(** [sleep] either returns, leaving the sleep in the trace, or raises and
    leaves the world as it was. *)
Lemma sleep_any secs w :
  sleep secs w = (Ret tt, emit (EvSleep secs) w) \/
  exists e, sleep secs w = (Raise e, w).
Proof.
  unfold sleep. destruct (_ || _); [right; eauto|].
  destruct (secs <? 0); [right; eauto|now left].
Qed.

Lemma sleep_5 w : sleep 5 w = (Ret tt, emit (EvSleep 5) w).
Proof. apply sleep_returns. unfold max_sleep. lia. Qed.

(** The powers of a backoff factor up to the [n]-th fit the clock when the
    [n]-th does. *)
Lemma backoff_fits bf (i n : nat) :
  0 <= bf -> (0 < i <= n)%nat -> bf ^ Z.of_nat n <= max_sleep ->
  0 <= bf ^ Z.of_nat i <= max_sleep.
Proof.
  intros Hbf Hi Hn. split; [now apply Z.pow_nonneg|].
  destruct (Z.eq_dec bf 0) as [->|Hnz].
  - rewrite Z.pow_0_l by lia. unfold max_sleep. lia.
  - etransitivity; [|exact Hn]. apply Z.pow_le_mono_r; lia.
Qed.

(** The world after a [token_update] whose SDK call returned. *)
Lemma token_update_returns self w :
  sdk w (sdk_calls w) <> SdkRaises ->
  exists w',
    DgkeySdk.token_update self w = (Ret tt, w') /\
    events w' = events w ++ refresh_events /\
    sdk_calls w' = S (sdk_calls w) /\
    http_calls w' = http_calls w /\
    http w' = http w /\ sdk w' = sdk w.
Proof.
  intros Hs. unfold DgkeySdk.token_update, bind, digikey_keyword_search.
  destruct (sdk w (sdk_calls w)) as [|[c|]]; [congruence| |];
    rewrite sleep_5; (eexists; split; [reflexivity|]); simpl;
    rewrite <- app_assoc; tauto.
Qed.

(** ** The retry loops *)


Lemma search_attempts_done fuel self hd payload m bf retries w :
  m <= retries ->
  DgkeySdk.search_attempts fuel self hd payload m bf retries w
    = (Ret (JDict []), w).
Proof.
  intros H. destruct fuel; simpl;
    (destruct (Z.ltb_spec retries m); [lia|reflexivity]).
Qed.



Lemma details_attempts_done fuel url hd params m bf retries w :
  m <= retries ->
  ProductDetailsAPI.details_attempts fuel url hd params m bf retries w
    = (Ret (JDict []), w).
Proof.
  intros H. destruct fuel; simpl;
    (destruct (Z.ltb_spec retries m); [lia|reflexivity]).
Qed.



Lemma sleeps_app xs ys : sleeps (xs ++ ys) = sleeps xs ++ sleeps ys.
Proof. unfold sleeps. apply flat_map_app. Qed.






(** C4. A 404 on the first detail request ends [get_product_details] at
    once with the empty dict: the request is the only thing that happened,
    so there is no sleep and no refresh. *)
Theorem not_found_short_circuit self product_number manufacturer_id max_retries
    backoff_factor tok answer w :
  cached_token self w tok ->
  Py.truthy tok = true ->
  1 <= max_retries ->
  http w (http_calls w) = Responded 404 answer ->
  exists w',
    ProductDetailsAPI.get_product_details self product_number manufacturer_id
      max_retries backoff_factor w = (Ret (JDict []), w') /\
    events w' = events w ++
      [EvGet (ProductDetailsAPI.details_url product_number)
             (ProductDetailsAPI.details_headers self tok)
             (ProductDetailsAPI.details_params manufacturer_id)] /\
    sleeps (events w') = sleeps (events w) /\
    sdk_calls w' = sdk_calls w /\
    http_calls w' = S (http_calls w).
Proof.
  intros Htok Htruthy Hm H404.
  unfold ProductDetailsAPI.get_product_details.
  rewrite (bind_ret _ _ _ _ _ (details_token_cached _ _ _ Htok)).
  rewrite Htruthy. simpl negb. cbv iota.
  destruct (Z.to_nat max_retries) as [|fuel] eqn:Hfuel; [lia|].
  simpl. destruct (Z.ltb_spec 0 max_retries); [|lia].
  unfold bind, try_except, requests_get, exchange. rewrite H404. simpl.
  eexists. split; [reflexivity|]. simpl.
  rewrite sleeps_app, app_nil_r. tauto.
Qed.

Lemma not_found_short_circuit_witness :
  let w := sample_world token_store ∅ always_404 in
  exists w',
    ProductDetailsAPI.get_product_details acme "FP-301 3/4 BL" (Some 19) 3 2 w
      = (Ret (JDict []), w') /\
    events w' = events w ++
      [EvGet (ProductDetailsAPI.details_url "FP-301 3/4 BL")
             (ProductDetailsAPI.details_headers acme (JStr "t0k3n"))
             (ProductDetailsAPI.details_params (Some 19))] /\
    sleeps (events w') = sleeps (events w) /\
    sdk_calls w' = sdk_calls w /\
    http_calls w' = S (http_calls w).
Proof.
  intros w.
  apply (not_found_short_circuit acme "FP-301 3/4 BL" (Some 19) 3 2
           (JStr "t0k3n") (JDict [("detail", JStr "Not Found")]) w).
  - exists (JDict [("access_token", JStr "t0k3n")]). split; reflexivity.
  - reflexivity.
  - lia.
  - reflexivity.
Defined.

(** C8, as the code has it. With no token file, [DgkeySdk.get_access_token]
    first runs [token_update] (one SDK call) and then reads the file: it
    returns a token exactly when that refresh left a token file with an
    [access_token] in it, and that is the token returned.
    [ProductDetailsAPI.get_access_token] has no refresh: it returns [None]
    and leaves the world as it was. *)
Theorem absent_token_is_refreshed_by_search_client self w :
  fs w !! token_file self = None ->
  (exists r w' rest,
      DgkeySdk.get_access_token self w = (r, w') /\
      events w' =
        events w ++
        EvKeywordSearch "Batteries Rechargeable (Secondary)" 10 0 :: rest /\
      sdk_calls w' = S (sdk_calls w) /\
      (forall tok,
          r = Ret tok <->
          exists data,
            sdk w (sdk_calls w) = SdkReturns (Some (JsonText data)) /\
            Py.getitem data "access_token" = Ret tok)) /\
  ProductDetailsAPI.get_access_token self w = (Ret JNull, w).
Proof.
  intros Hnone. split.
  - unfold DgkeySdk.get_access_token.
    rewrite (bind_ret _ _ _ _ _ (path_exists_none _ _ Hnone)). simpl negb.
    cbv iota.
    unfold bind, DgkeySdk.token_update, digikey_keyword_search, bind,
      json_load_file, lift.
    destruct (sdk w (sdk_calls w)) as [|[[data|text|bytes]|]] eqn:Hsdk;
      rewrite ?sleep_5; simpl.
    + do 3 eexists. split; [reflexivity|]. simpl.
      split; [reflexivity|]. split; [reflexivity|].
      intros tok. split; [discriminate|]. intros (d & Hd & _). discriminate.
    + rewrite lookup_insert_eq.
      destruct (Py.getitem data "access_token") as [t|e|] eqn:Hget;
        (do 3 eexists; split; [reflexivity|]; simpl;
         rewrite <- app_assoc; split; [reflexivity|]; split; [reflexivity|];
         intros tok; split;
         [ intros Hr; first [discriminate | exists data; split; congruence]
         | intros (d & Hd & Hg); congruence ]).
    + rewrite lookup_insert_eq.
      do 3 eexists. split; [reflexivity|]. simpl.
      rewrite <- app_assoc. split; [reflexivity|]. split; [reflexivity|].
      intros tok. split; [discriminate|]. intros (d & Hd & _). discriminate.
    + rewrite lookup_insert_eq.
      do 3 eexists. split; [reflexivity|]. simpl.
      rewrite <- app_assoc. split; [reflexivity|]. split; [reflexivity|].
      intros tok. split; [discriminate|]. intros (d & Hd & _). discriminate.
    + rewrite Hnone.
      do 3 eexists. split; [reflexivity|]. simpl.
      rewrite <- app_assoc. split; [reflexivity|]. split; [reflexivity|].
      intros tok. split; [discriminate|]. intros (d & Hd & _). discriminate.
  - unfold ProductDetailsAPI.get_access_token.
    rewrite (bind_ret _ _ _ _ _ (path_exists_none _ _ Hnone)). reflexivity.
Qed.

Lemma absent_token_is_refreshed_by_search_client_witness :
  let w := sdk_grants sample_token (sample_world ∅ ∅ no_answer) in
  (exists r w' rest,
      DgkeySdk.get_access_token acme w = (r, w') /\
      events w' =
        events w ++
        EvKeywordSearch "Batteries Rechargeable (Secondary)" 10 0 :: rest /\
      sdk_calls w' = S (sdk_calls w) /\
      (forall tok,
          r = Ret tok <->
          exists data,
            sdk w (sdk_calls w) = SdkReturns (Some (JsonText data)) /\
            Py.getitem data "access_token" = Ret tok)) /\
  ProductDetailsAPI.get_access_token acme w = (Ret JNull, w).
Proof.
  intros w. apply (absent_token_is_refreshed_by_search_client acme w).
  reflexivity.
Defined.

(** C8, as stated, fails for the detail client: with no token file its
    [get_access_token] returns [None] although a refresh would have obtained
    a token, and the SDK is never called. *)
Lemma details_client_returns_without_credential :
  let w := sdk_grants sample_token (sample_world ∅ ∅ no_answer) in
  fs w !! token_file acme = None /\
  fst (DgkeySdk.get_access_token acme w) = Ret (JStr "t0k3n") /\
  fst (ProductDetailsAPI.get_access_token acme w) = Ret JNull /\
  sdk_calls (snd (ProductDetailsAPI.get_access_token acme w)) = 0%nat /\
  events (snd (ProductDetailsAPI.get_access_token acme w)) = [].
Proof. vm_compute. repeat split; reflexivity. Qed.

(** ** What obtaining a credential can change *)

Lemma same_outside_refl self w : same_outside self w w.
Proof. unfold same_outside. tauto. Qed.

Lemma same_outside_trans self w1 w2 w3 :
  same_outside self w1 w2 -> same_outside self w2 w3 -> same_outside self w1 w3.
Proof.
  intros (A1 & A2 & A3 & A4 & A5 & A6) (B1 & B2 & B3 & B4 & B5 & B6).
  repeat split; try congruence.
  intros p Hp. rewrite B6, A6 by exact Hp. reflexivity.
Qed.

(** [token_update] in any world: one SDK call, then the 5 second pause
    unless the call raised; only the token file can change. *)
Lemma token_update_any self w :
  exists r w' new,
    DgkeySdk.token_update self w = (r, w') /\
    r <> Diverge /\
    (r = Raise SdkError <-> sdk w (sdk_calls w) = SdkRaises) /\
    (r = Ret tt \/ r = Raise SdkError) /\
    events w' = events w ++ new /\
    Forall (fun e => (exists secs, e = EvSleep secs) \/
                     e = EvKeywordSearch "Batteries Rechargeable (Secondary)"
                                         10 0) new /\
    http_calls w' = http_calls w /\
    sdk_calls w' = S (sdk_calls w) /\
    same_outside self w w'.
Proof.
  unfold DgkeySdk.token_update, bind, digikey_keyword_search.
  destruct (sdk w (sdk_calls w)) as [|[c|]] eqn:Hs; rewrite ?sleep_5; simpl.
  - do 3 eexists. split; [reflexivity|]. simpl.
    split; [discriminate|]. split; [tauto|]. split; [tauto|].
    split; [reflexivity|]. split; [constructor; [now right|constructor]|].
    split; [reflexivity|]. split; [reflexivity|].
    unfold same_outside; simpl; tauto.
  - do 3 eexists. split; [reflexivity|]. simpl.
    split; [discriminate|]. split; [split; discriminate|]. split; [tauto|].
    rewrite <- app_assoc.
    split; [reflexivity|].
    split; [constructor; [now right|constructor; [left; eauto|constructor]]|].
    split; [reflexivity|]. split; [reflexivity|].
    repeat split. intros p Hp. simpl. apply lookup_insert_ne. congruence.
  - do 3 eexists. split; [reflexivity|]. simpl.
    split; [discriminate|]. split; [split; discriminate|]. split; [tauto|].
    rewrite <- app_assoc.
    split; [reflexivity|].
    split; [constructor; [now right|constructor; [left; eauto|constructor]]|].
    split; [reflexivity|]. split; [reflexivity|].
    unfold same_outside; simpl; tauto.
Qed.

Lemma page_requests_refresh new :
  Forall (fun e => (exists secs, e = EvSleep secs) \/
                   e = EvKeywordSearch "Batteries Rechargeable (Secondary)"
                                       10 0) new ->
  page_requests new = [].
Proof. induction 1 as [|e l [[s ->]| ->] _ IHl]; simpl; auto. Qed.

(** Reading the token file changes nothing, and what it returns is the
    credential the file holds. *)
Lemma load_token self v :
  exists r,
    bind (json_load_file (token_file self))
         (fun data => lift (Py.getitem data "access_token")) v = (r, v) /\
    r <> Diverge /\
    forall tok, r = Ret tok -> cached_token self v tok.
Proof.
  unfold bind, json_load_file, lift, cached_token.
  destruct (fs v !! token_file self) as [[data|text|bytes]|].
  - destruct (Py.getitem data "access_token") eqn:Hg.
    + eexists. split; [reflexivity|]. split; [discriminate|].
      intros tok [= <-]. eauto.
    + eexists. split; [reflexivity|]. split; discriminate.
    + destruct data as [| | | | |d]; simpl in Hg; try discriminate.
      destruct (Py.assoc "access_token" d); discriminate.
  - eexists. split; [reflexivity|]. split; discriminate.
  - eexists. split; [reflexivity|]. split; discriminate.
  - eexists. split; [reflexivity|]. split; discriminate.
Qed.

(** [DgkeySdk.get_access_token] in any world: no HTTP request, and nothing
    but the token file can change; a credential it returns is then cached. *)
Lemma search_token_any self w :
  exists r w' new,
    DgkeySdk.get_access_token self w = (r, w') /\
    r <> Diverge /\
    events w' = events w ++ new /\
    page_requests new = [] /\
    http_calls w' = http_calls w /\
    same_outside self w w' /\
    forall tok, r = Ret tok -> cached_token self w' tok.
Proof.
  unfold DgkeySdk.get_access_token, bind at 1, path_exists.
  destruct (bool_decide (is_Some (fs w !! token_file self))); cbn [negb].
  - unfold bind at 1, ret at 1. destruct (load_token self w) as (r & Hr & Hnd & Hc).
    exists r, w, []. rewrite Hr, app_nil_r.
    repeat split; try assumption; apply same_outside_refl.
  - unfold bind at 1.
    destruct (token_update_any self w)
      as (r & w2 & new & Hrun & _ & _ & Hr & Hev & Hnew & Hh & _ & Hso).
    rewrite Hrun.
    pose proof (page_requests_refresh _ Hnew) as Hreq.
    destruct Hr as [->| ->].
    + destruct (load_token self w2) as (r & Hr & Hnd & Hc).
      exists r, w2, new. rewrite Hr. tauto.
    + exists (Raise SdkError), w2, new.
      repeat split; try assumption; try discriminate; apply Hso.
Qed.

(** Once [get_access_token] has returned a credential, in a world with a
    token file or in one where the refresh has just stored it, the
    credential is cached: a search from the world before is the search
    from the world after. *)
Lemma search_token_obtained self w tok w0 :
  DgkeySdk.get_access_token self w = (Ret tok, w0) ->
  cached_token self w0 tok /\
  same_outside self w w0 /\
  http_calls w0 = http_calls w /\
  page_requests (events w0) = page_requests (events w).
Proof.
  intros Hrun.
  destruct (search_token_any self w)
    as (r & w' & new & Hrun' & _ & Hev & Hreq & Hh & Hso & Hc).
  rewrite Hrun in Hrun'. injection Hrun' as <- <-.
  split; [now apply Hc|]. split; [exact Hso|]. split; [exact Hh|].
  rewrite Hev. unfold page_requests in *. rewrite flat_map_app, Hreq.
  apply app_nil_r.
Qed.

Lemma search_product_after_token self keyword limit offset manufactured_id
    max_retries backoff_factor user_id w tok w0 :
  DgkeySdk.get_access_token self w = (Ret tok, w0) ->
  DgkeySdk._search_product self keyword limit offset manufactured_id
    max_retries backoff_factor user_id w =
  DgkeySdk._search_product self keyword limit offset manufactured_id
    max_retries backoff_factor user_id w0.
Proof.
  intros Hrun. destruct (search_token_obtained _ _ _ _ Hrun) as (Hc & _).
  unfold DgkeySdk._search_product.
  rewrite (bind_ret _ _ _ _ _ Hrun).
  now rewrite (bind_ret _ _ _ _ _ (search_token_cached _ _ _ Hc)).
Qed.

(** ** Pagination *)

Lemma string_app_inv_head (s a b : string) : s +:+ a = s +:+ b -> a = b.
Proof. induction s as [|c s IH]; simpl; intros H; [exact H|]. injection H. exact IH. Qed.

Lemma store_file_not_token_file self : DgkeySdk.store_file self <> token_file self.
Proof.
  unfold DgkeySdk.store_file, token_file. intros H.
  apply string_app_inv_head in H. discriminate.
Qed.

Lemma page_requests_app xs ys :
  page_requests (xs ++ ys) = page_requests xs ++ page_requests ys.
Proof. unfold page_requests. apply flat_map_app. Qed.

Lemma page_requests_prints items : page_requests (EvPrint <$> items) = [].
Proof. induction items; simpl; auto. Qed.

(** What [process_products] leaves alone, beyond [process_products_frame]. *)
Lemma process_products_keeps self products items offset limit n w :
  let w' := after_process_products self products items offset limit n w in
  page_requests (events w') = page_requests (events w) /\
  fs w' !! token_file self = fs w !! token_file self.
Proof.
  unfold after_process_products.
  pose proof (store_file_not_token_file self) as Hne.
  unfold after_failed_write.
  destruct (undecodable _ w);
    [|destruct (bool_decide _);
      [destruct (torn w !! _)|destruct (all_dicts items)]];
    rewrite ?events_print_all, ?page_requests_app, ?page_requests_prints,
      ?app_nil_r, ?fs_print_all; simpl; rewrite ?lookup_insert_ne by exact Hne;
    tauto.
Qed.

(** One successful fetch: the token is read, the request goes out once. *)
Lemma fetch_page self keyword limit offset manufactured_id user_id tok c body w :
  cached_token self w tok ->
  http w (http_calls w) = Responded c body ->
  fails (Responded c body) = false ->
  DgkeySdk._search_product self keyword limit offset manufactured_id 10 2
    user_id w =
  (Ret body,
   tick_http (emit (EvPost DgkeySdk.search_url
                           (DgkeySdk.search_headers self tok)
                           (DgkeySdk.search_payload keyword limit offset
                                                    manufactured_id)) w)).
Proof.
  intros Htok Hresp Hok. unfold DgkeySdk._search_product.
  rewrite (bind_ret _ _ _ _ _ (search_token_cached _ _ _ Htok)).
  change (Z.to_nat 10) with 10%nat. simpl.
  unfold bind, try_except, requests_post, exchange. rewrite Hresp. simpl.
  unfold raise_for_status. simpl in *. rewrite Hok. reflexivity.
Qed.

(** One turn of the page loop on a successful fetch. *)
Lemma search_pages_turn fuel self keyword limit offset manufactured_id user_id
    tok total products n items w :
  cached_token self w tok ->
  is_page total products (http w (http_calls w)) ->
  Py.len products = Ret n ->
  Py.iter products = Ret items ->
  let w1 := tick_http (emit (EvPost DgkeySdk.search_url
                               (DgkeySdk.search_headers self tok)
                               (DgkeySdk.search_payload keyword limit offset
                                                        manufactured_id)) w) in
  let w2 := after_process_products self products items offset limit n w1 in
  DgkeySdk.search_pages (S fuel) self keyword limit offset manufactured_id
    user_id w =
  if total <=? offset + limit then (Ret tt, w2)
  else DgkeySdk.search_pages fuel self keyword limit (offset + limit)
         manufactured_id user_id w2.
Proof.
  intros Htok (c & d & Hresp & Hok & Hcount & Hprod) Hn Hi w1 w2.
  cbn [DgkeySdk.search_pages].
  rewrite Hresp in Hok.
  rewrite (bind_ret _ _ _ _ _
             (fetch_page self keyword limit offset manufactured_id user_id
                         tok c (JDict d) w Htok Hresp Hok)).
  fold w1.
  assert (Htruthy : Py.truthy (JDict d) = true).
  { destruct d; [discriminate|reflexivity]. }
  rewrite Htruthy. cbn [negb].
  unfold Py.get at 1. rewrite Hcount. cbn [from_option id].
  rewrite (bind_lift_ret _ _ _ _ eq_refl).
  unfold Py.get at 1. rewrite Hprod.
  rewrite (bind_lift_ret _ _ _ _ eq_refl).
  rewrite (bind_lift_ret _ _ _ _ Hn).
  rewrite (bind_ret _ _ _ _ _ (process_products_run _ _ _ _ _ _ _ Hn Hi)).
  fold w2. unfold Py.int_ge.
  rewrite (bind_lift_ret _ _ _ _ eq_refl).
  destruct (total <=? offset + limit); reflexivity.
Qed.

Lemma last_page total limit j :
  0 < limit -> 0 <= total ->
  S j = pages_needed total limit ->
  (total <=? limit * Z.of_nat j + limit) = true.
Proof.
  unfold pages_needed, ceil_div. intros Hl Ht Hj.
  pose proof (Z.div_mod (total + limit - 1) limit ltac:(lia)) as Hdm.
  pose proof (Z.mod_pos_bound (total + limit - 1) limit Hl) as Hb.
  apply Z.leb_le. nia.
Qed.

Lemma more_pages total limit j :
  0 < limit -> 0 <= total ->
  (S j < pages_needed total limit)%nat ->
  (total <=? limit * Z.of_nat j + limit) = false.
Proof.
  unfold pages_needed, ceil_div. intros Hl Ht Hj.
  pose proof (Z.div_mod (total + limit - 1) limit ltac:(lia)) as Hdm.
  pose proof (Z.mod_pos_bound (total + limit - 1) limit Hl) as Hb.
  apply Z.leb_gt. nia.
Qed.

(** The page loop for one category, for any positive page size: started at
    page [j] with [k] pages to go, it makes exactly [k] requests. *)
Lemma search_pages_run self keyword limit manufactured_id user_id tok total :
  0 < limit -> 0 <= total ->
  forall k j fuel w,
    (1 <= k <= fuel)%nat ->
    (j + k)%nat = pages_needed total limit ->
    cached_token self w tok ->
    (forall n, page_ok total (http w n)) ->
    exists w',
      DgkeySdk.search_pages fuel self keyword limit (limit * Z.of_nat j)
        manufactured_id user_id w = (Ret tt, w') /\
      page_requests (events w') =
        page_requests (events w) ++
        page_payloads keyword limit manufactured_id j k /\
      cached_token self w' tok /\
      http w' = http w /\
      http_calls w' = (http_calls w + k)%nat.
Proof.
  intros Hl Ht. induction k as [|k IH]; intros j fuel w Hk Hjk Htok Hpages;
    [lia|].
  destruct fuel as [|fuel]; [lia|].
  destruct (Hpages (http_calls w)) as (products & n & Hpage & Hn).
  destruct (len_iter _ _ Hn) as [items Hi].
  rewrite (search_pages_turn fuel self keyword limit (limit * Z.of_nat j)
             manufactured_id user_id tok total products n items w
             Htok Hpage Hn Hi).
  set (w1 := tick_http _).
  set (w2 := after_process_products _ _ _ _ _ _ w1).
  destruct (process_products_frame self products items (limit * Z.of_nat j)
              limit n w1) as (_ & _ & Hh & Hc & _).
  destruct (process_products_keeps self products items (limit * Z.of_nat j)
              limit n w1) as (Hreq & Hfs).
  fold w2 in Hh, Hc, Hreq, Hfs.
  assert (Htok2 : cached_token self w2 tok).
  { destruct Htok as (data & Hf & Hg). exists data. split; [|exact Hg].
    rewrite Hfs. exact Hf. }
  assert (Hreq2 : page_requests (events w2) =
                  page_requests (events w) ++
                  [DgkeySdk.search_payload keyword limit (limit * Z.of_nat j)
                                           manufactured_id]).
  { rewrite Hreq. subst w1. simpl. now rewrite page_requests_app. }
  destruct k as [|k].
  - rewrite last_page by (try assumption; lia).
    exists w2. split; [reflexivity|]. split; [exact Hreq2|].
    split; [exact Htok2|]. split; [exact Hh|]. rewrite Hc. subst w1. simpl. lia.
  - rewrite more_pages by (try assumption; lia).
    replace (limit * Z.of_nat j + limit) with (limit * Z.of_nat (S j)) by lia.
    destruct (IH (S j) fuel w2) as (w3 & Hrun & Hreq3 & Htok3 & Hh3 & Hc3).
    + lia.
    + lia.
    + exact Htok2.
    + intros i. rewrite Hh. apply Hpages.
    + exists w3. split; [exact Hrun|]. split.
      * rewrite Hreq3, Hreq2, <- app_assoc. reflexivity.
      * split; [exact Htok3|]. split; [rewrite Hh3, Hh; reflexivity|].
        rewrite Hc3, Hc. subst w1. simpl. lia.
Qed.

Lemma search_pages_after_token fuel self keyword limit offset manufactured_id
    user_id w tok w0 :
  DgkeySdk.get_access_token self w = (Ret tok, w0) ->
  DgkeySdk.search_pages (S fuel) self keyword limit offset manufactured_id
    user_id w =
  DgkeySdk.search_pages (S fuel) self keyword limit offset manufactured_id
    user_id w0.
Proof.
  intros Hrun. cbn [DgkeySdk.search_pages]. unfold bind at 1 3.
  now rewrite (search_product_after_token _ _ _ _ _ _ _ _ _ _ _ Hrun).
Qed.

(** The requests of a whole run that starts with a cached credential. *)
Lemma search_products_run self categories manufactured_id user_id tok total
    fuel :
  0 <= total ->
  (pages_needed total 50 <= fuel)%nat ->
  forall w,
    cached_token self w tok ->
    (forall n, page_ok total (http w n)) ->
    exists w',
      DgkeySdk.search_products fuel self categories manufactured_id user_id w
        = (Ret tt, w') /\
      page_requests (events w') =
        page_requests (events w) ++
        flat_map (fun keyword =>
                    page_payloads keyword 50 manufactured_id 0
                                  (pages_needed total 50))
                 categories.
Proof.
  intros Ht Hfuel. unfold DgkeySdk.search_products.
  induction categories as [|keyword rest IH]; intros w Htok Hpages.
  - exists w. simpl. rewrite app_nil_r. split; reflexivity.
  - cbn [for_each flat_map].
    destruct (search_pages_run self keyword 50 manufactured_id user_id tok
                total ltac:(lia) Ht (pages_needed total 50) 0%nat fuel w)
      as (w1 & Hrun & Hreq & Htok1 & Hh & _); try assumption.
    { unfold pages_needed in *. lia. }
    { reflexivity. }
    change (50 * Z.of_nat 0) with 0 in Hrun.
    rewrite (bind_ret _ _ _ _ _ Hrun).
    destruct (IH w1 Htok1) as (w2 & Hrest & Hreq2).
    { intros n. rewrite Hh. apply Hpages. }
    exists w2. split; [exact Hrest|].
    rewrite Hreq2, Hreq, <- app_assoc. reflexivity.
Qed.

(** C1, as the code has it. [search_products] fetches pages of 50; when
    a credential is there to be read, or to be obtained by the refresh of a
    first run, and every fetch succeeds and reports [total] results with a
    sequence of products, it sends, for each keyword in turn,
    [max 1 (ceil (total / 50))] requests, at offsets 0, 50, 100, ...: one
    request even when [total] is 0, since the total is only known from the
    first response. *)
Theorem pagination_request_count self categories manufactured_id user_id tok
    total fuel w w0 :
  0 <= total ->
  DgkeySdk.get_access_token self w = (Ret tok, w0) ->
  (forall n, page_ok total (http w n)) ->
  (pages_needed total 50 <= fuel)%nat ->
  Z.of_nat (pages_needed total 50) = Z.max 1 (ceil_div total 50) /\
  exists w',
    DgkeySdk.search_products fuel self categories manufactured_id user_id w
      = (Ret tt, w') /\
    page_requests (events w') =
      page_requests (events w) ++
      flat_map (fun keyword =>
                  page_payloads keyword 50 manufactured_id 0
                                (pages_needed total 50))
               categories.
Proof.
  intros Ht Hget Hpages Hfuel.
  split; [unfold pages_needed; lia|].
  destruct categories as [|keyword rest].
  { exists w. simpl. rewrite app_nil_r. split; reflexivity. }
  destruct (search_token_obtained _ _ _ _ Hget)
    as (Htok & (Hh & _) & _ & Hreq).
  destruct (search_products_run self (keyword :: rest) manufactured_id user_id
              tok total fuel Ht Hfuel w0 Htok) as (w' & Hrun & Hreq').
  { intros n. rewrite Hh. apply Hpages. }
  exists w'. split; [|now rewrite Hreq', Hreq].
  rewrite <- Hrun. unfold DgkeySdk.search_products. cbn [for_each].
  destruct fuel as [|fuel]; [unfold pages_needed in Hfuel; lia|].
  unfold bind.
  now rewrite (search_pages_after_token _ _ _ _ _ _ _ _ _ _ Hget).
Qed.

Lemma pagination_request_count_witness :
  let w := sdk_grants sample_token
             (sample_world ∅ ∅ (pages_of 120 [sample_product])) in
  Z.of_nat (pages_needed 120 50) = Z.max 1 (ceil_div 120 50) /\
  exists w',
    DgkeySdk.search_products 3 acme ["Amplifiers"; "Capacitors"] 2946 JNull w
      = (Ret tt, w') /\
    page_requests (events w') =
      page_requests (events w) ++
      flat_map (fun keyword =>
                  page_payloads keyword 50 2946 0 (pages_needed 120 50))
               ["Amplifiers"; "Capacitors"].
Proof.
  intros w.
  apply (pagination_request_count acme ["Amplifiers"; "Capacitors"] 2946 JNull
           (JStr "t0k3n") 120 3%nat w
           (snd (DgkeySdk.get_access_token acme w))).
  - lia.
  - reflexivity.
  - intros n. exists (JList [sample_product]), 1. split; [|reflexivity].
    exists 200, [("ProductsCount", JNum 120);
                 ("Products", JList [sample_product])].
    repeat split.
  - vm_compute. lia.
Defined.

(** C1, as stated, fails at [total_count = 0]: every fetch succeeds and
    reports 0, [ceil (0 / 50)] is 0, and yet one request is sent.  And a
    fetch that succeeds does not make the run succeed when the page's
    [Products] is no sequence: [len(products)] then raises. *)
Lemma zero_total_still_one_request :
  let w := sample_world token_store ∅ (pages_of 0 []) in
  let w' := snd (DgkeySdk.search_products 5 acme ["Amplifiers"] 2946 JNull w) in
  let no_products :=
    sample_world token_store ∅
      (fun _ => Responded 200 (JDict [("ProductsCount", JNum 120);
                                      ("Products", JNull)])) in
  (forall n, page_ok 0 (http w n)) /\
  ceil_div 0 50 = 0 /\
  page_requests (events w') = [DgkeySdk.search_payload "Amplifiers" 50 0 2946] /\
  Z.of_nat (length (page_requests (events w'))) <> ceil_div 0 50 /\
  is_page 120 JNull (http no_products (http_calls no_products)) /\
  fst (DgkeySdk.search_products 5 acme ["Amplifiers"] 2946 JNull no_products)
    = Raise TypeError.
Proof.
  split.
  - intros n. exists (JList []), 0. split; [|reflexivity].
    exists 200, [("ProductsCount", JNum 0); ("Products", JList [])].
    repeat split.
  - split; [reflexivity|]. split; [reflexivity|]. split; [discriminate|].
    split; [|reflexivity].
    exists 200, [("ProductsCount", JNum 120); ("Products", JNull)].
    repeat split.
Qed.

(** C2, as the code has it. When the first fetch for a keyword succeeds
    and reports a total of 0 with a sequence of products, the loop stops
    after that one request, and [process_products] has been called once on
    the page's products: one batch (empty when the page is) is handed to the
    store, and appended to the store file if that can be read and written.
    No error is raised. *)
Theorem zero_total_stores_one_batch self keyword manufactured_id user_id tok
    products n fuel w w0 :
  DgkeySdk.get_access_token self w = (Ret tok, w0) ->
  is_page 0 products (http w (http_calls w)) ->
  Py.len products = Ret n ->
  let w1 := tick_http (emit (EvPost DgkeySdk.search_url
                               (DgkeySdk.search_headers self tok)
                               (DgkeySdk.search_payload keyword 50 0
                                                        manufactured_id)) w0) in
  exists w',
    DgkeySdk.search_products (S fuel) self [keyword] manufactured_id user_id w
      = (Ret tt, w') /\
    DgkeySdk.process_products self products 0 50 w1 = (Ret tt, w') /\
    http_calls w' = S (http_calls w) /\
    (DgkeySdk.store_file self ∉ unwritable w ->
     undecodable (DgkeySdk.store_file self) w = false ->
     fs w' !! DgkeySdk.store_file self =
       Some (JsonText
               (JList (stored_collection (DgkeySdk.store_file self) w ++
                       [DgkeySdk.batch_data products 0 50 n (now w)])))).
Proof.
  intros Hget Hpage Hn w1.
  destruct (len_iter _ _ Hn) as [items Hi].
  destruct (search_token_obtained _ _ _ _ Hget)
    as (Htok & (Hh & _ & Hu & _ & Hnow & Hfs) & Hc0 & _).
  pose proof (Hfs _ (store_file_not_token_file self)) as Hstore.
  rewrite <- Hh, <- Hc0 in Hpage.
  exists (after_process_products self products items 0 50 n w1).
  split.
  - unfold DgkeySdk.search_products. cbn [for_each]. unfold bind at 1.
    rewrite (search_pages_after_token _ _ _ _ _ _ _ _ _ _ Hget).
    rewrite (search_pages_turn fuel self keyword 50 0 manufactured_id
               user_id tok 0 products n items w0 Htok Hpage Hn Hi).
    reflexivity.
  - split; [apply (process_products_run _ _ _ _ _ _ _ Hn Hi)|].
    destruct (process_products_frame self products items 0 50 n w1)
      as (_ & _ & _ & Hc & _).
    split; [rewrite Hc; subst w1; simpl; now rewrite Hc0|].
    intros Hw Hd. rewrite process_products_stores.
    + unfold stored_collection. subst w1. simpl. now rewrite Hstore, Hnow.
    + subst w1. simpl. now rewrite Hu.
    + unfold undecodable in *. subst w1. simpl. now rewrite Hstore.
Qed.

Lemma zero_total_stores_one_batch_witness :
  let w := sdk_grants sample_token (sample_world ∅ ∅ (pages_of 0 [])) in
  let w1 := tick_http (emit (EvPost DgkeySdk.search_url
                               (DgkeySdk.search_headers acme (JStr "t0k3n"))
                               (DgkeySdk.search_payload "Amplifiers" 50 0 2946))
                            (snd (DgkeySdk.get_access_token acme w))) in
  exists w',
    DgkeySdk.search_products 1 acme ["Amplifiers"] 2946 JNull w = (Ret tt, w') /\
    DgkeySdk.process_products acme (JList []) 0 50 w1 = (Ret tt, w') /\
    http_calls w' = S (http_calls w) /\
    fs w' !! DgkeySdk.store_file acme =
      Some (JsonText
              (JList (stored_collection (DgkeySdk.store_file acme) w ++
                      [DgkeySdk.batch_data (JList []) 0 50 0 (now w)]))).
Proof.
  intros w.
  destruct (zero_total_stores_one_batch acme "Amplifiers" 2946 JNull
              (JStr "t0k3n") (JList []) 0 0%nat w
              (snd (DgkeySdk.get_access_token acme w)))
    as (w' & Hrun & Hstore & Hcalls & Hfile).
  - reflexivity.
  - exists 200, [("ProductsCount", JNum 0); ("Products", JList [])].
    repeat split.
  - reflexivity.
  - exists w'. split; [exact Hrun|]. split; [exact Hstore|].
    split; [exact Hcalls|]. apply Hfile; [apply not_elem_of_empty|reflexivity].
Defined.

(** C2, as stated, fails: the first fetch succeeds and reports a total of
    0, and the store file, absent before, then holds one batch.  Nor is it
    true that no error is raised whatever the page holds: when its
    [Products] is [null], [len(products)] raises before anything is
    stored. *)
Lemma zero_total_batch_is_stored :
  let w := sample_world token_store ∅ (pages_of 0 []) in
  let run := DgkeySdk.search_products 5 acme ["Amplifiers"] 2946 JNull w in
  let no_products :=
    sample_world token_store ∅
      (fun _ => Responded 200 (JDict [("ProductsCount", JNum 0);
                                      ("Products", JNull)])) in
  let failed :=
    DgkeySdk.search_products 5 acme ["Amplifiers"] 2946 JNull no_products in
  is_page 0 (JList []) (http w (http_calls w)) /\
  fs w !! DgkeySdk.store_file acme = None /\
  fst run = Ret tt /\
  fs (snd run) !! DgkeySdk.store_file acme =
    Some (JsonText (JList [DgkeySdk.batch_data (JList []) 0 50 0
                             "2024-05-01 12:00:00"])) /\
  is_page 0 JNull (http no_products (http_calls no_products)) /\
  fst failed = Raise TypeError /\
  fs (snd failed) !! DgkeySdk.store_file acme = None.
Proof.
  split.
  - exists 200, [("ProductsCount", JNum 0); ("Products", JList [])].
    repeat split.
  - split; [reflexivity|]. split; [reflexivity|]. split; [reflexivity|].
    split; [|split; reflexivity].
    exists 200, [("ProductsCount", JNum 0); ("Products", JNull)].
    repeat split.
Qed.

(** ** The mapper *)

Section MapperFacts.

Variable py_repr : json -> string.

Lemma rbind_ret_inv {A B} (r : result A) (k : A -> result B) b :
  rbind r k = Ret b -> exists a, r = Ret a /\ k a = Ret b.
Proof. destruct r; simpl; intros H; try discriminate. eauto. Qed.

Lemma dict_display_keys fields kvs :
  ProductDetailsAPI.dict_display fields = Ret kvs -> kvs.*1 = fields.*1.
Proof.
  revert kvs. induction fields as [|[k r] fields IH]; intros kvs H; simpl in H.
  - now inversion H.
  - apply rbind_ret_inv in H as (v & _ & H).
    apply rbind_ret_inv in H as (more & Hmore & H).
    inversion H; subst. simpl. f_equal. now apply IH.
Qed.

Lemma mapper_falsy x : Py.truthy x = false -> 
  ProductDetailsAPI.map_product_details_to_structure py_repr x
    = Ret (JDict []).
Proof.
  intros H. unfold ProductDetailsAPI.map_product_details_to_structure.
  now rewrite H.
Qed.

Lemma mapper_no_product d :
  Py.assoc "Product" d = None ->
  ProductDetailsAPI.map_product_details_to_structure py_repr (JDict d)
    = Ret (JDict []).
Proof.
  intros H. unfold ProductDetailsAPI.map_product_details_to_structure.
  destruct (Py.truthy (JDict d)); simpl; [|reflexivity].
  now rewrite H.
Qed.

Lemma mapper_returns_all_keys d product r :
  Py.assoc "Product" d = Some product ->
  ProductDetailsAPI.map_product_details_to_structure py_repr (JDict d)
    = Ret r ->
  exists kvs, r = JDict kvs /\ kvs.*1 = output_keys.
Proof.
  intros Hp H. unfold ProductDetailsAPI.map_product_details_to_structure in H.
  assert (Ht : Py.truthy (JDict d) = true) by (destruct d; [discriminate|reflexivity]).
  rewrite Ht in H. cbn [negb] in H.
  unfold Py.contains, Py.getitem in H. rewrite Hp in H.
  cbn [rbind negb] in H.
  do 7 (apply rbind_ret_inv in H as (? & _ & H)).
  apply rbind_ret_inv in H as (h & _ & H).
  destruct h as [[[[? ?] ?] ?] ?].
  apply rbind_ret_inv in H as (kvs & Hkvs & H).
  inversion H; subst. exists kvs. split; [reflexivity|].
  apply dict_display_keys in Hkvs. exact Hkvs.
Qed.

Lemma dict_display_total fields :
  Forall (fun f => returns f.2) fields ->
  returns (ProductDetailsAPI.dict_display fields).
Proof.
  induction 1 as [|[k r] fields [v Hv] _ [more IH]]; simpl.
  - eexists. reflexivity.
  - simpl in Hv. rewrite Hv, IH. eexists. reflexivity.
Qed.

Lemma dict_list_cases x :
  WellFormed.dict_list x = true ->
  Py.truthy x = false \/
  exists first rest, x = JList (JDict first :: rest) /\ all_dicts rest = true.
Proof.
  unfold WellFormed.dict_list. destruct (Py.truthy x) eqn:Ht; [|now left].
  simpl. destruct x as [| | | |[|[] rest]|]; try discriminate.
  simpl. intros H. right. eauto.
Qed.

Lemma first_parameter_total l text dflt :
  all_dicts l = true ->
  returns (ProductDetailsAPI.first_parameter l text dflt).
Proof.
  induction l as [|[] l IH]; simpl; try discriminate; intros H.
  - eexists. reflexivity.
  - destruct (Py.is_str text _); [eexists; reflexivity|auto].
Qed.

Lemma get_parameter_value_total x text dflt :
  WellFormed.dict_list x = true ->
  returns (ProductDetailsAPI.get_parameter_value x text dflt).
Proof.
  intros H. unfold ProductDetailsAPI.get_parameter_value.
  destruct (dict_list_cases x H) as [->|(first & rest & -> & Hrest)].
  - eexists. reflexivity.
  - cbn [Py.truthy negb Py.iter rbind].
    apply first_parameter_total. exact Hrest.
Qed.

Lemma price_tiers_total l :
  all_dicts l = true -> returns (ProductDetailsAPI.price_tiers py_repr l).
Proof.
  induction l as [|[] l IH]; simpl; try discriminate; intros H.
  - eexists. reflexivity.
  - destruct (IH H) as [more ->]. eexists. reflexivity.
Qed.

Lemma variations_cases v :
  WellFormed.variations v = true ->
  Py.truthy v = false \/
  exists first rest,
    v = JList (JDict first :: rest) /\
    WellFormed.dict_list (default JNull (Py.assoc "StandardPricing" first))
      = true /\
    (Py.assoc "PackageType" first = None \/
     exists p, Py.assoc "PackageType" first = Some (JDict p)).
Proof.
  unfold WellFormed.variations. destruct (Py.truthy v) eqn:Ht; [|now left].
  simpl. destruct v as [| | | |[|[] rest]|]; try discriminate.
  intros H. apply andb_true_iff in H as [H1 H2]. right.
  exists d, rest. split; [reflexivity|]. split; [exact H1|].
  destruct (Py.assoc "PackageType" d) as [[]|]; try discriminate; eauto.
Qed.

Lemma get_base_price_total v :
  WellFormed.variations v = true ->
  returns (ProductDetailsAPI.get_base_price v).
Proof.
  intros H. unfold ProductDetailsAPI.get_base_price,
    ProductDetailsAPI.no_standard_pricing.
  destruct (variations_cases v H) as [->|(first & rest & -> & Hp & _)].
  - eexists. reflexivity.
  - cbn [Py.truthy negb Py.index rbind lookup list_lookup Py.get Py.getitem].
    destruct (dict_list_cases _ Hp) as [Hf|(t & ts & Hsp & Hts)].
    + rewrite Hf. eexists. reflexivity.
    + destruct (Py.assoc "StandardPricing" first) as [sp|]; simpl in Hsp;
        [|discriminate].
      subst sp. eexists. reflexivity.
Qed.

Lemma format_bulk_prices_total v :
  WellFormed.variations v = true ->
  returns (ProductDetailsAPI.format_bulk_prices py_repr v).
Proof.
  intros H. unfold ProductDetailsAPI.format_bulk_prices,
    ProductDetailsAPI.no_standard_pricing.
  destruct (variations_cases v H) as [->|(first & rest & -> & Hp & _)].
  - eexists. reflexivity.
  - cbn [Py.truthy negb Py.index rbind lookup list_lookup Py.get Py.getitem].
    destruct (dict_list_cases _ Hp) as [Hf|(t & ts & Hsp & Hts)].
    + rewrite Hf. eexists. reflexivity.
    + destruct (Py.assoc "StandardPricing" first) as [sp|]; simpl in Hsp;
        [|discriminate].
      subst sp. cbn [Py.truthy negb rbind Py.iter].
      destruct (price_tiers_total (JDict t :: ts) Hts) as [tiers ->].
      eexists. reflexivity.
Qed.

Lemma all_dicts_lookup l i c :
  all_dicts l = true -> l !! i = Some c -> exists d, c = JDict d.
Proof.
  revert i. induction l as [|x l IH]; intros i H Hl; [discriminate|].
  simpl in H. apply andb_true_iff in H as [Hx H].
  destruct i as [|i]; simpl in Hl.
  - inversion Hl; subst. destruct c; try discriminate. eauto.
  - eauto.
Qed.

Lemma child_name_total l i :
  all_dicts (take 4 l) = true -> (i < 4)%nat ->
  returns (ProductDetailsAPI.child_name (JList l) i).
Proof.
  intros H Hi. unfold ProductDetailsAPI.child_name.
  cbn [Py.len rbind Py.index].
  destruct (Z.ltb_spec (Z.of_nat i) (Z.of_nat (length l)));
    [|eexists; reflexivity].
  destruct (l !! i) as [c|] eqn:Hl.
  - destruct (all_dicts_lookup (take 4 l) i c H) as [d ->].
    { now rewrite lookup_take_lt. }
    eexists. reflexivity.
  - apply lookup_ge_None_1 in Hl. lia.
Qed.

Lemma get_category_hierarchy_total c :
  WellFormed.category c = true ->
  returns (ProductDetailsAPI.get_category_hierarchy c).
Proof.
  unfold WellFormed.category, ProductDetailsAPI.get_category_hierarchy.
  destruct (Py.truthy c) eqn:Ht; [|eexists; reflexivity].
  simpl. destruct c; try discriminate. intros H.
  cbn [Py.get rbind].
  unfold WellFormed.children in H.
  destruct (Py.truthy (default (JList []) (Py.assoc "ChildCategories" d)))
    eqn:Hc; [|eexists; reflexivity].
  simpl in H.
  destruct (default (JList []) (Py.assoc "ChildCategories" d))
    as [| | | |l|]; try discriminate.
  destruct l as [|first l]; [discriminate|].
  destruct (all_dicts_lookup (take 4 (first :: l)) 0 first H eq_refl)
    as [f ->].
  cbn [Py.index lookup list_lookup rbind Py.get].
  destruct (child_name_total (JDict f :: l) 1 H ltac:(lia)) as [n1 ->].
  destruct (child_name_total (JDict f :: l) 2 H ltac:(lia)) as [n2 ->].
  destruct (child_name_total (JDict f :: l) 3 H ltac:(lia)) as [n3 ->].
  eexists. reflexivity.
Qed.

Lemma format_datasheets_total u :
  WellFormed.datasheet u = true ->
  returns (ProductDetailsAPI.format_datasheets u).
Proof.
  unfold WellFormed.datasheet, ProductDetailsAPI.format_datasheets.
  destruct (Py.truthy u); [|eexists; reflexivity].
  destruct u; try discriminate. eexists. reflexivity.
Qed.

Lemma str_items_total l :
  forallb WellFormed.is_JStr l = true ->
  returns (ProductDetailsAPI.str_items l).
Proof.
  induction l as [|[] l IH]; simpl; try discriminate; intros H.
  - eexists. reflexivity.
  - destruct (IH H) as [more ->]. eexists. reflexivity.
Qed.

Lemma format_other_names_total o :
  WellFormed.other_names o = true ->
  returns (ProductDetailsAPI.format_other_names o).
Proof.
  unfold WellFormed.other_names, ProductDetailsAPI.format_other_names.
  destruct o as [| | | |[|x l]|]; try (eexists; reflexivity).
  intros H. destruct (str_items_total (x :: l) H) as [parts ->].
  eexists. reflexivity.
Qed.

Lemma first_variation_total v key dflt :
  WellFormed.variations v = true ->
  returns (ProductDetailsAPI.first_variation v key dflt).
Proof.
  intros H. unfold ProductDetailsAPI.first_variation.
  destruct (variations_cases v H) as [->|(first & rest & -> & _)];
    eexists; reflexivity.
Qed.

Lemma packaging_type_total v dflt :
  WellFormed.variations v = true ->
  returns (if Py.truthy v then
             rbind (Py.index v 0)
               (fun first =>
                  rbind (Py.get first "PackageType" (JDict []))
                    (fun package_type => Py.get package_type "Name" dflt))
           else Ret dflt).
Proof.
  intros H.
  destruct (variations_cases v H) as [->|(first & rest & -> & _ & Hp)];
    [eexists; reflexivity|].
  cbn [Py.truthy Py.index lookup list_lookup rbind Py.get].
  destruct Hp as [->|[p ->]]; eexists; reflexivity.
Qed.

End MapperFacts.

Section MapperTotal.

Variable py_repr : json -> string.

Lemma returns_ret {A} (a : A) : returns (Ret a).
Proof. eexists. reflexivity. Qed.

Lemma returns_dict_get d key dflt : returns (Py.get (JDict d) key dflt).
Proof. eexists. reflexivity. Qed.

Lemma returns_bind_get {B} d key dflt (k : json -> result B) :
  (forall v, returns (k v)) -> returns (rbind (Py.get (JDict d) key dflt) k).
Proof. intros H. simpl. apply H. Qed.

Lemma mapper_total d product :
  Py.assoc "Product" d = Some product ->
  WellFormed.product product = true ->
  returns (ProductDetailsAPI.map_product_details_to_structure py_repr
             (JDict d)).
Proof.
  intros Hp Hwf.
  unfold ProductDetailsAPI.map_product_details_to_structure.
  assert (Ht : Py.truthy (JDict d) = true)
    by (destruct d; [discriminate|reflexivity]).
  rewrite Ht. cbn [negb].
  unfold Py.contains, Py.getitem. rewrite Hp. cbn [rbind negb].
  destruct product as [| | | | |p]; try discriminate.
  unfold WellFormed.product in Hwf.
  repeat (apply andb_true_iff in Hwf as [Hwf ?]).
  cbn [Py.get rbind].
  destruct (get_category_hierarchy_total
              (default (JDict []) (Py.assoc "Category" p)))
    as [[[[[c1 c2] c3] c4] c5] ->]; [assumption|].
  cbn [rbind].
  match goal with
  | |- returns (rbind (ProductDetailsAPI.dict_display ?fields) _) =>
      destruct (dict_display_total fields) as [kvs ->]
  end; [|eexists; reflexivity].
  repeat (apply Forall_cons; split;
          [cbn [snd];
           first [ apply returns_ret
                 | apply returns_dict_get
                 | apply get_parameter_value_total; assumption
                 | apply get_base_price_total; assumption
                 | apply format_bulk_prices_total; assumption
                 | apply first_variation_total; assumption
                 | apply packaging_type_total; assumption
                 | idtac ]
          |]);
    try apply Forall_nil.
  all: cbn [rbind Py.get];
    first [ exact I
          | apply returns_ret
          | apply format_datasheets_total; assumption
          | apply format_other_names_total; assumption
          | destruct (Py.truthy
                        (default JNull (Py.assoc "ManufacturerLeadWeeks" p)));
            apply returns_ret ].
Qed.

End MapperTotal.

Example mapper_on_sample_details :
  rbind (ProductDetailsAPI.map_product_details_to_structure opaque_repr
           sample_details)
        (fun mapped =>
           rbind (Py.getitem mapped "BulkPrices") (fun bulk =>
           rbind (Py.getitem mapped "BasePrice") (fun base =>
           rbind (Py.getitem mapped "Datasheets") (fun sheet =>
           rbind (Py.getitem mapped "Other_Names") (fun names =>
           rbind (Py.getitem mapped "Color") (fun color =>
           rbind (Py.getitem mapped "Subcategory") (fun sub =>
           Ret [bulk; base; sheet; names; color; sub])))))))
  = Ret [JStr "1+-153;5+-140"; JNum 153;
         JStr "https://multimedia.3m.com/fp301.pdf";
         JStr "FP034K-200,3M5385"; JStr "Black"; JStr "Heat Shrink Tubing"].
Proof. vm_compute. reflexivity. Qed.

(** C10, as the code has it. On an empty input, and on a mapping without
    the key [Product], [map_product_details_to_structure] returns the empty
    dict.  On a mapping with [Product] it either raises or returns a record
    whose keys are exactly the fixed output keys, in order; it does return
    such a record when the product is a mapping of the expected shape
    ([WellFormed.product]). *)
Theorem mapper_output_keys (py_repr : json -> string) :
  (forall x,
      Py.truthy x = false ->
      ProductDetailsAPI.map_product_details_to_structure py_repr x
        = Ret (JDict [])) /\
  (forall d,
      Py.assoc "Product" d = None ->
      ProductDetailsAPI.map_product_details_to_structure py_repr (JDict d)
        = Ret (JDict [])) /\
  (forall d product,
      Py.assoc "Product" d = Some product ->
      (forall r,
          ProductDetailsAPI.map_product_details_to_structure py_repr (JDict d)
            = Ret r ->
          exists kvs, r = JDict kvs /\ kvs.*1 = output_keys) /\
      (WellFormed.product product = true ->
       exists kvs,
         ProductDetailsAPI.map_product_details_to_structure py_repr (JDict d)
           = Ret (JDict kvs) /\
         kvs.*1 = output_keys)).
Proof.
  split; [apply mapper_falsy|]. split; [apply mapper_no_product|].
  intros d product Hp. split.
  - intros r. apply mapper_returns_all_keys with (product := product). exact Hp.
  - intros Hwf. destruct (mapper_total py_repr d product Hp Hwf) as [r Hr].
    destruct (mapper_returns_all_keys py_repr d product r Hp Hr)
      as (kvs & -> & Hkeys).
    exists kvs. split; assumption.
Qed.

Lemma mapper_output_keys_witness :
  WellFormed.product
    (default JNull (match sample_details with
                    | JDict d => Py.assoc "Product" d
                    | _ => None
                    end)) = true /\
  exists kvs,
    ProductDetailsAPI.map_product_details_to_structure opaque_repr
      sample_details = Ret (JDict kvs) /\
    kvs.*1 = output_keys.
Proof.
  split; [reflexivity|].
  destruct (mapper_output_keys opaque_repr) as (_ & _ & H).
  unfold sample_details.
  refine (proj2 (H _ _ _) _); reflexivity.
Defined.

(** C10, as stated, fails: a mapping that contains [Product] can make the
    mapper raise instead of returning a record. *)
Lemma mapper_raises_on_malformed_product :
  ProductDetailsAPI.map_product_details_to_structure opaque_repr
    (JDict [("Product", JNull)]) = Raise AttributeError /\
  ProductDetailsAPI.map_product_details_to_structure opaque_repr
    (JDict [("Product", JDict [("Parameters", JStr "n/a")])])
    = Raise AttributeError.
Proof. split; reflexivity. Qed.

(** * Further properties *)

(** ** One turn of each retry loop, in closed form *)

Lemma search_turn fuel self hd payload m bf retries w :
  retries < m ->
  DgkeySdk.search_attempts (S fuel) self hd payload m bf retries w =
    let w1 := tick_http (emit (EvPost DgkeySdk.search_url hd payload) w) in
    if fails (http w (http_calls w)) then
      bind (sleep (bf ^ (retries + 1)))
           (fun _ =>
              bind (DgkeySdk.token_update self)
                   (fun _ => DgkeySdk.search_attempts fuel self hd payload m bf
                               (retries + 1))) w1
    else (Ret (answer_body (http w (http_calls w))), w1).
Proof.
  intros Hr. simpl. destruct (Z.ltb_spec retries m); [|lia].
  unfold try_except, bind, requests_post, exchange.
  destruct (http w (http_calls w)) as [|c b]; simpl; [reflexivity|].
  unfold raise_for_status. simpl.
  destruct ((400 <=? c) && (c <? 600)); reflexivity.
Qed.

Lemma details_turn fuel url hd params m bf retries w :
  retries < m ->
  ProductDetailsAPI.details_attempts (S fuel) url hd params m bf retries w =
    let w1 := tick_http (emit (EvGet url hd params) w) in
    if is_404 (http w (http_calls w)) then (Ret (JDict []), w1)
    else if fails (http w (http_calls w)) then
      bind (ProductDetailsAPI.backoff_unless_last m bf (retries + 1))
           (fun _ => ProductDetailsAPI.details_attempts fuel url hd params m bf
                       (retries + 1)) w1
    else (Ret (answer_body (http w (http_calls w))), w1).
Proof.
  intros Hr. simpl. destruct (Z.ltb_spec retries m); [|lia].
  unfold bind at 1. unfold try_except, bind, requests_get, exchange.
  destruct (http w (http_calls w)) as [|c b]; simpl; [reflexivity|].
  destruct (c =? 404) eqn:H404; simpl; [reflexivity|].
  unfold raise_for_status. simpl.
  destruct ((400 <=? c) && (c <? 600)); simpl; [|reflexivity].
  rewrite H404. reflexivity.
Qed.

(** ** The retry loops in an arbitrary world *)

Lemma page_requests_search_event hd payload e :
  search_event hd payload e ->
  page_requests [e] = [payload] /\ e = EvPost DgkeySdk.search_url hd payload \/
  page_requests [e] = [].
Proof.
  intros [->|[[s ->]| ->]]; simpl; auto.
Qed.

Lemma search_attempts_any self hd payload m bf :
  forall fuel retries w,
    (Z.to_nat (m - retries) <= fuel)%nat ->
    exists r w' new,
      DgkeySdk.search_attempts fuel self hd payload m bf retries w = (r, w') /\
      r <> Diverge /\
      events w' = events w ++ new /\
      Forall (search_event hd payload) new /\
      (http_calls w <= http_calls w' <= http_calls w + Z.to_nat (m - retries))%nat /\
      length (page_requests new) = (http_calls w' - http_calls w)%nat /\
      same_outside self w w'.
Proof.
  induction fuel as [|fuel IH]; intros retries w Hfuel.
  - exists (Ret (JDict [])), w, [].
    rewrite search_attempts_done by lia. rewrite app_nil_r.
    repeat split; try discriminate; try constructor; simpl; lia.
  - destruct (Z.lt_ge_cases retries m) as [Hr|Hr].
    2:{ exists (Ret (JDict [])), w, [].
        rewrite search_attempts_done by lia. rewrite app_nil_r.
        repeat split; try discriminate; try constructor; simpl; lia. }
    rewrite search_turn by exact Hr. cbv zeta.
    set (post := EvPost DgkeySdk.search_url hd payload).
    destruct (fails (http w (http_calls w))).
    2:{ do 2 eexists. exists [post]. split; [reflexivity|]. simpl.
        split; [discriminate|]. split; [reflexivity|].
        split; [constructor; [now left|constructor]|].
        split; [lia|]. split; [lia|]. unfold same_outside; simpl; tauto. }
    unfold bind at 1.
    destruct (sleep_any (bf ^ (retries + 1))
                (tick_http (emit post w))) as [Hs|[e Hs]]; rewrite Hs.
    2:{ do 2 eexists. exists [post]. split; [reflexivity|]. simpl.
        split; [discriminate|]. split; [reflexivity|].
        split; [constructor; [now left|constructor]|].
        split; [lia|]. split; [lia|]. unfold same_outside; simpl; tauto. }
    set (w1 := emit _ (tick_http _)).
    destruct (token_update_any self w1)
      as (r & w2 & new2 & Hrun & _ & _ & Hr2 & Hev2 & Hnew2 & Hh2 & _ & Hso2).
    unfold bind. rewrite Hrun.
    assert (Hso1 : same_outside self w w1)
      by (unfold same_outside; simpl; tauto).
    destruct Hr2 as [->| ->].
    + destruct (IH (retries + 1) w2 ltac:(lia))
        as (r3 & w3 & new3 & Hrun3 & Hnd & Hev3 & Hnew3 & Hc3 & Hlen3 & Hso3).
      exists r3, w3, ([post; EvSleep (bf ^ (retries + 1))] ++ new2 ++ new3).
      split; [exact Hrun3|]. split; [exact Hnd|].
      split.
      { rewrite Hev3, Hev2. subst w1. simpl. rewrite <- !app_assoc. reflexivity. }
      split.
      { constructor; [now left|]. constructor; [right; left; eauto|].
        apply Forall_app. split; [|exact Hnew3].
        eapply Forall_impl; [exact Hnew2|]. intros e [He| ->]; [right; now left|].
        right; now right. }
      assert (Hreq2 : page_requests new2 = []).
      { clear -Hnew2. induction Hnew2 as [|e l [[s ->]| ->] _ IHl]; simpl; auto. }
      split; [rewrite Hh2 in Hc3; subst w1; simpl in *; lia|].
      split.
      { rewrite !page_requests_app, Hreq2. simpl. rewrite Hlen3, Hh2.
        rewrite Hh2 in Hc3. subst w1. simpl in *. lia. }
      eapply same_outside_trans; [exact Hso1|].
      eapply same_outside_trans; [exact Hso2|exact Hso3].
    + exists (Raise SdkError), w2, ([post; EvSleep (bf ^ (retries + 1))] ++ new2).
      split; [reflexivity|]. split; [discriminate|].
      split.
      { rewrite Hev2. subst w1. simpl. rewrite <- !app_assoc. reflexivity. }
      split.
      { constructor; [now left|]. constructor; [right; left; eauto|].
        eapply Forall_impl; [exact Hnew2|]. intros e [He| ->]; [right; now left|].
        right; now right. }
      assert (Hreq2 : page_requests new2 = []).
      { clear -Hnew2. induction Hnew2 as [|e l [[s ->]| ->] _ IHl]; simpl; auto. }
      split; [rewrite Hh2; subst w1; simpl; lia|].
      split.
      { rewrite page_requests_app, Hreq2, Hh2. subst w1. simpl. lia. }
      eapply same_outside_trans; [exact Hso1|exact Hso2].
Qed.

(** X1. [_search_product] always comes back, after at most [max_retries]
    requests (none when [max_retries <= 0]), and it never writes the store
    file. *)
Theorem search_product_is_bounded self keyword limit offset manufactured_id
    max_retries backoff_factor user_id w :
  exists r w',
    DgkeySdk._search_product self keyword limit offset manufactured_id
      max_retries backoff_factor user_id w = (r, w') /\
    r <> Diverge /\
    (http_calls w <= http_calls w' <= http_calls w + Z.to_nat max_retries)%nat /\
    fs w' !! DgkeySdk.store_file self = fs w !! DgkeySdk.store_file self.
Proof.
  unfold DgkeySdk._search_product, bind.
  destruct (search_token_any self w)
    as (r & w1 & new & Hrun & Hnd & _ & _ & Hh & Hso & _).
  pose proof (store_file_not_token_file self) as Hne.
  rewrite Hrun. destruct r as [tok|e|]; [| |congruence].
  2:{ exists (Raise e), w1. rewrite Hh. repeat split; try discriminate; try lia.
      now apply Hso. }
  destruct (search_attempts_any self (DgkeySdk.search_headers self tok)
              (DgkeySdk.search_payload keyword limit offset manufactured_id)
              max_retries backoff_factor (Z.to_nat max_retries) 0 w1
              ltac:(lia))
    as (r & w2 & new2 & Hrun2 & Hnd2 & _ & _ & Hc & _ & Hso2).
  exists r, w2. split; [exact Hrun2|]. split; [exact Hnd2|].
  rewrite Z.sub_0_r, Hh in Hc. split; [exact Hc|].
  destruct (same_outside_trans _ _ _ _ Hso Hso2) as (_ & _ & _ & _ & _ & Hfs).
  now apply Hfs.
Qed.

(** X2. every request of one [_search_product] call is the same POST, with
    the token read at the start of the call: a token that a retry's refresh
    stores is not used before the next call. *)
Theorem search_product_requests_are_identical self keyword limit offset
    manufactured_id max_retries backoff_factor user_id w :
  exists r w' new,
    DgkeySdk._search_product self keyword limit offset manufactured_id
      max_retries backoff_factor user_id w = (r, w') /\
    events w' = events w ++ new /\
    length (page_requests new) = (http_calls w' - http_calls w)%nat /\
    forall url hd data,
      In (EvPost url hd data) new ->
      exists tok w0,
        DgkeySdk.get_access_token self w = (Ret tok, w0) /\
        url = DgkeySdk.search_url /\
        hd = DgkeySdk.search_headers self tok /\
        data = DgkeySdk.search_payload keyword limit offset manufactured_id.
Proof.
  unfold DgkeySdk._search_product, bind.
  destruct (search_token_any self w)
    as (r & w1 & new & Hrun & Hnd & Hev & Hreq & Hh & Hso & _).
  assert (Hnopost : forall url hd data, ~ In (EvPost url hd data) new).
  { clear -Hreq. induction new as [|e new IH]; intros url hd data H;
      [destruct H|].
    destruct H as [H|H].
    - subst e. discriminate.
    - destruct e; simpl in Hreq; try discriminate; eapply IH; eauto. }
  rewrite Hrun. destruct r as [tok|e|]; [| |congruence].
  2:{ exists (Raise e), w1, new. split; [reflexivity|]. split; [exact Hev|].
      rewrite Hreq, Hh. split; [simpl; lia|].
      intros url hd data Hin. destruct (Hnopost _ _ _ Hin). }
  destruct (search_attempts_any self (DgkeySdk.search_headers self tok)
              (DgkeySdk.search_payload keyword limit offset manufactured_id)
              max_retries backoff_factor (Z.to_nat max_retries) 0 w1
              ltac:(lia))
    as (r & w2 & new2 & Hrun2 & _ & Hev2 & Hnew2 & Hc & Hlen & _).
  exists r, w2, (new ++ new2). split; [exact Hrun2|].
  split; [rewrite Hev2, Hev, app_assoc; reflexivity|].
  split; [rewrite page_requests_app, Hreq, <- Hh; exact Hlen|].
  intros url hd data Hin. apply in_app_or in Hin as [Hin|Hin].
  { destruct (Hnopost _ _ _ Hin). }
  rewrite List.Forall_forall in Hnew2. apply Hnew2 in Hin.
  exists tok, w1. split; [reflexivity|].
  destruct Hin as [Heq|[[s Heq]|Heq]]; try discriminate.
  inversion Heq; subst. tauto.
Qed.

(** ** Failures followed by an answer *)

Lemma token_update_frame self w :
  sdk w (sdk_calls w) <> SdkRaises ->
  exists w',
    DgkeySdk.token_update self w = (Ret tt, w') /\
    events w' = events w ++ refresh_events /\
    sdk_calls w' = S (sdk_calls w) /\
    http_calls w' = http_calls w /\
    same_outside self w w'.
Proof.
  intros Hs.
  destruct (token_update_returns self w Hs) as (w' & Hrun & Hev & Hc & Hh & _).
  destruct (token_update_any self w)
    as (r & w2 & new & Hrun2 & _ & _ & _ & _ & _ & _ & _ & Hso).
  rewrite Hrun in Hrun2. inversion Hrun2; subst. eauto 10.
Qed.

(** [k] failed turns of the search loop, one after the other. *)
Lemma search_attempts_rounds self hd payload m bf :
  0 <= bf ->
  forall k r fuel w,
    Z.of_nat (r + k) <= m ->
    (forall i, (r < i <= r + k)%nat -> bf ^ Z.of_nat i <= max_sleep) ->
    (forall i, (i < k)%nat -> fails (http w (http_calls w + i)%nat) = true) ->
    (forall i, (i < k)%nat -> sdk w (sdk_calls w + i)%nat <> SdkRaises) ->
    exists w',
      DgkeySdk.search_attempts (k + fuel) self hd payload m bf (Z.of_nat r) w =
      DgkeySdk.search_attempts fuel self hd payload m bf (Z.of_nat (r + k)) w' /\
      events w' = events w ++ flat_map (search_round hd payload bf) (seq (S r) k) /\
      sdk_calls w' = (sdk_calls w + k)%nat /\
      http_calls w' = (http_calls w + k)%nat /\
      same_outside self w w'.
Proof.
  intros Hbf. induction k as [|k IH]; intros r fuel w Hm Hfit Hhttp Hsdk.
  - exists w. rewrite Nat.add_0_r, app_nil_r. simpl.
    repeat split; try lia; reflexivity.
  - cbn [Nat.add]. rewrite search_turn by lia. cbv zeta.
    pose proof (Hhttp 0%nat ltac:(lia)) as Hf. rewrite Nat.add_0_r in Hf.
    rewrite Hf.
    replace (Z.of_nat r + 1) with (Z.of_nat (S r)) by lia.
    assert (Hsl : 0 <= bf ^ Z.of_nat (S r) <= max_sleep).
    { split; [now apply Z.pow_nonneg|apply Hfit; lia]. }
    rewrite (bind_ret _ _ _ _ _ (sleep_returns _ _ Hsl)).
    set (w1 := emit _ (tick_http _)).
    destruct (token_update_frame self w1) as (w2 & Hrun & Hev & Hc & Hh & Hso).
    { try subst w1; simpl. pose proof (Hsdk 0%nat ltac:(lia)) as Hs.
      now rewrite Nat.add_0_r in Hs. }
    rewrite (bind_ret _ _ _ _ _ Hrun).
    assert (Hso1 : same_outside self w w2).
    { eapply same_outside_trans; [|exact Hso].
      unfold same_outside; simpl; tauto. }
    destruct Hso1 as (Hh1 & Hs1 & Hrest).
    destruct (IH (S r) fuel w2) as (w3 & Hrun3 & Hev3 & Hc3 & Hh3 & Hso3).
    + lia.
    + intros i Hi. apply Hfit. lia.
    + intros i Hi. rewrite Hh1, Hh. try subst w1; simpl.
      replace (S (http_calls w + i))%nat with (http_calls w + S i)%nat by lia.
      apply Hhttp. lia.
    + intros i Hi. rewrite Hs1, Hc. try subst w1; simpl.
      replace (S (sdk_calls w + i))%nat with (sdk_calls w + S i)%nat by lia.
      apply Hsdk. lia.
    + exists w3. split.
      { rewrite Hrun3. f_equal. lia. }
      split.
      { rewrite Hev3, Hev. try subst w1; simpl.
        unfold search_round at 2. rewrite <- !app_assoc. reflexivity. }
      split; [rewrite Hc3, Hc; try subst w1; simpl; lia|].
      split; [rewrite Hh3, Hh; try subst w1; simpl; lia|].
      eapply same_outside_trans; [|exact Hso3].
      unfold same_outside. tauto.
Qed.

(** X3. when the first [k] attempts fail and the next one is answered, with
    [k < max_retries], [_search_product] returns that answer's body after
    [k] rounds of backoff and refresh and one last POST.  The backoffs must
    be sleeps that [time.sleep] accepts: a factor that is not negative, and
    a longest sleep, [backoff_factor ^ k], that fits its clock. *)
Theorem search_succeeds_after_failures self keyword limit offset
    manufactured_id user_id max_retries backoff_factor tok k w :
  0 <= backoff_factor ->
  backoff_factor ^ Z.of_nat k <= max_sleep ->
  Z.of_nat k < max_retries ->
  cached_token self w tok ->
  (forall i, (i < k)%nat -> fails (http w (http_calls w + i)%nat) = true) ->
  fails (http w (http_calls w + k)%nat) = false ->
  (forall i, (i < k)%nat -> sdk w (sdk_calls w + i)%nat <> SdkRaises) ->
  let hd := DgkeySdk.search_headers self tok in
  let payload := DgkeySdk.search_payload keyword limit offset manufactured_id in
  exists w',
    DgkeySdk._search_product self keyword limit offset manufactured_id
      max_retries backoff_factor user_id w
      = (Ret (answer_body (http w (http_calls w + k)%nat)), w') /\
    events w' = events w ++
      flat_map (search_round hd payload backoff_factor) (seq 1 k) ++
      [EvPost DgkeySdk.search_url hd payload] /\
    sdk_calls w' = (sdk_calls w + k)%nat /\
    http_calls w' = (http_calls w + S k)%nat.
Proof.
  intros Hbf Hfit Hk Htok Hfail Hok Hsdk hd payload.
  unfold DgkeySdk._search_product.
  rewrite (bind_ret _ _ _ _ _ (search_token_cached _ _ _ Htok)).
  fold hd. fold payload.
  replace (Z.to_nat max_retries)
    with (k + S (Z.to_nat max_retries - k - 1))%nat by lia.
  destruct (search_attempts_rounds self hd payload max_retries backoff_factor
              Hbf k 0%nat (S (Z.to_nat max_retries - k - 1)) w)
    as (w1 & Hrun & Hev & Hc & Hh & (Hh1 & _)); try assumption; try (simpl; lia).
  { intros i Hi. now apply (backoff_fits backoff_factor i k). }
  change (Z.of_nat 0) with 0 in Hrun. rewrite Hrun.
  rewrite search_turn by (simpl; lia). cbv zeta.
  rewrite Hh1, Hh, Hok.
  eexists. split; [reflexivity|]. simpl.
  rewrite Hev, <- app_assoc. repeat split; [exact Hc|lia].
Qed.

Lemma search_succeeds_after_failures_witness :
  let w := sample_world token_store ∅
             (fun n => if (n <? 2)%nat then Responded 503 JNull
                       else Responded 200 (sample_page 1 [sample_product])) in
  let hd := DgkeySdk.search_headers acme (JStr "t0k3n") in
  let payload := DgkeySdk.search_payload "Amplifiers" 50 0 2946 in
  exists w',
    DgkeySdk._search_product acme "Amplifiers" 50 0 2946 10 2 JNull w
      = (Ret (answer_body (http w (http_calls w + 2)%nat)), w') /\
    events w' = events w ++
      flat_map (search_round hd payload 2) (seq 1 2) ++
      [EvPost DgkeySdk.search_url hd payload] /\
    sdk_calls w' = (sdk_calls w + 2)%nat /\
    http_calls w' = (http_calls w + 3)%nat.
Proof.
  intros w.
  apply (search_succeeds_after_failures acme "Amplifiers" 50 0 2946 JNull 10 2
           (JStr "t0k3n") 2%nat w).
  - lia.
  - unfold max_sleep. simpl. lia.
  - lia.
  - exists (JDict [("access_token", JStr "t0k3n")]). split; reflexivity.
  - intros [|[|i]] Hi; try reflexivity. lia.
  - reflexivity.
  - intros i _. discriminate.
Defined.

(** [k] failed turns of the detail loop, none of them a 404. *)
Lemma details_attempts_rounds url hd params m bf :
  0 <= bf ->
  forall k r fuel w,
    Z.of_nat (r + k) <= m ->
    (forall i, (r < i <= r + k)%nat -> bf ^ Z.of_nat i <= max_sleep) ->
    (forall i, (i < k)%nat -> fails (http w (http_calls w + i)%nat) = true) ->
    (forall i, (i < k)%nat -> is_404 (http w (http_calls w + i)%nat) = false) ->
    exists w',
      ProductDetailsAPI.details_attempts (k + fuel) url hd params m bf
        (Z.of_nat r) w =
      ProductDetailsAPI.details_attempts fuel url hd params m bf
        (Z.of_nat (r + k)) w' /\
      events w' = events w ++
                  flat_map (details_round url hd params m bf) (seq (S r) k) /\
      http_calls w' = (http_calls w + k)%nat /\
      http w' = http w /\ sdk w' = sdk w /\ sdk_calls w' = sdk_calls w /\
      fs w' = fs w /\ unwritable w' = unwritable w /\ now w' = now w.
Proof.
  intros Hbf. induction k as [|k IH]; intros r fuel w Hm Hfit Hhttp H404.
  - exists w. rewrite Nat.add_0_r, app_nil_r. simpl.
    repeat split; try lia; reflexivity.
  - cbn [Nat.add]. rewrite details_turn by lia. cbv zeta.
    pose proof (Hhttp 0%nat ltac:(lia)) as Hf. rewrite Nat.add_0_r in Hf.
    pose proof (H404 0%nat ltac:(lia)) as H4. rewrite Nat.add_0_r in H4.
    rewrite Hf, H4.
    replace (Z.of_nat r + 1) with (Z.of_nat (S r)) by lia.
    unfold bind at 1, ProductDetailsAPI.backoff_unless_last.
    assert (Hstep : exists w1,
      (if Z.of_nat (S r) <? m
       then sleep (bf ^ Z.of_nat (S r)) else ret tt)
        (tick_http (emit (EvGet url hd params) w)) = (Ret tt, w1) /\
      events w1 = events w ++ details_round url hd params m bf (S r) /\
      http_calls w1 = S (http_calls w) /\
      http w1 = http w /\ sdk w1 = sdk w /\ sdk_calls w1 = sdk_calls w /\
      fs w1 = fs w /\ unwritable w1 = unwritable w /\ now w1 = now w).
    { unfold details_round. destruct (Z.of_nat (S r) <? m).
      - rewrite sleep_returns
          by (split; [now apply Z.pow_nonneg|apply Hfit; lia]).
        eexists. split; [reflexivity|]. simpl. rewrite <- app_assoc.
        repeat split.
      - eexists. split; [reflexivity|]. simpl. repeat split. }
    destruct Hstep as (w1 & Hrun & Hev & Hc & Hh & Hs & Hsc & Hfs & Hu & Hn).
    rewrite Hrun.
    destruct (IH (S r) fuel w1)
      as (w2 & Hrun2 & Hev2 & Hc2 & Hh2 & Hs2 & Hsc2 & Hfs2 & Hu2 & Hn2).
    + lia.
    + intros i Hi. apply Hfit. lia.
    + intros i Hi. rewrite Hh, Hc.
      replace (S (http_calls w) + i)%nat with (http_calls w + S i)%nat by lia.
      apply Hhttp. lia.
    + intros i Hi. rewrite Hh, Hc.
      replace (S (http_calls w) + i)%nat with (http_calls w + S i)%nat by lia.
      apply H404. lia.
    + exists w2. split.
      { rewrite Hrun2. f_equal. lia. }
      split.
      { rewrite Hev2, Hev. cbn [seq flat_map]. rewrite <- app_assoc.
        reflexivity. }
      repeat split; try congruence. lia.
Qed.

Lemma sleeps_details_rounds_inner url hd params m bf k s :
  Z.of_nat (s + k) <= m ->
  sleeps (flat_map (details_round url hd params m bf) (seq s k)) =
  (fun i => bf ^ Z.of_nat i) <$> seq s k.
Proof.
  revert s. induction k as [|k IH]; intros s Hm; [reflexivity|].
  cbn [seq flat_map]. rewrite sleeps_app, (IH (S s)) by lia.
  unfold details_round, sleeps. cbn [flat_map].
  destruct (Z.ltb_spec (Z.of_nat s) m); [reflexivity|lia].
Qed.

(** X4. when the first [k] detail attempts fail (none with a 404) and the
    next one is answered, with [k < max_retries], [get_product_details]
    returns that answer's body; it has slept [backoff_factor ^ i] after the
    [i]-th failure and has not refreshed the token.  When the next answer is
    a 404 instead, it returns the empty dict at that point.  The backoffs
    must be sleeps that [time.sleep] accepts: a factor that is not negative,
    and a longest sleep, [backoff_factor ^ k], that fits its clock. *)
Theorem details_answer_after_failures self product_number manufacturer_id
    max_retries backoff_factor tok k w :
  0 <= backoff_factor ->
  backoff_factor ^ Z.of_nat k <= max_sleep ->
  Z.of_nat k < max_retries ->
  cached_token self w tok ->
  Py.truthy tok = true ->
  (forall i, (i < k)%nat -> fails (http w (http_calls w + i)%nat) = true) ->
  (forall i, (i < k)%nat -> is_404 (http w (http_calls w + i)%nat) = false) ->
  let last := http w (http_calls w + k)%nat in
  is_404 last = true \/ fails last = false ->
  let url := ProductDetailsAPI.details_url product_number in
  let hd := ProductDetailsAPI.details_headers self tok in
  let params := ProductDetailsAPI.details_params manufacturer_id in
  exists w',
    ProductDetailsAPI.get_product_details self product_number manufacturer_id
      max_retries backoff_factor w
      = (Ret (if is_404 last then JDict [] else answer_body last), w') /\
    events w' = events w ++
      flat_map (details_round url hd params max_retries backoff_factor)
               (seq 1 k) ++ [EvGet url hd params] /\
    sleeps (events w') = sleeps (events w) ++
      ((fun i => backoff_factor ^ Z.of_nat i) <$> seq 1 k) /\
    sdk_calls w' = sdk_calls w /\
    http_calls w' = (http_calls w + S k)%nat /\
    fs w' = fs w.
Proof.
  intros Hbf Hfit Hk Htok Htruthy Hfail Hno404 last Hlast url hd params.
  unfold ProductDetailsAPI.get_product_details.
  rewrite (bind_ret _ _ _ _ _ (details_token_cached _ _ _ Htok)).
  rewrite Htruthy. cbn [negb]. fold url. fold hd. fold params.
  replace (Z.to_nat max_retries)
    with (k + S (Z.to_nat max_retries - k - 1))%nat by lia.
  destruct (details_attempts_rounds url hd params max_retries backoff_factor
              Hbf k 0%nat (S (Z.to_nat max_retries - k - 1)) w)
    as (w1 & Hrun & Hev & Hc & Hh & _ & Hsc & Hfs & _);
    try assumption; try (simpl; lia).
  { intros i Hi. now apply (backoff_fits backoff_factor i k). }
  change (Z.of_nat 0) with 0 in Hrun. rewrite Hrun.
  rewrite details_turn by (simpl; lia). cbv zeta.
  rewrite Hh, Hc. fold last.
  assert (Hres : exists w',
    (if is_404 last
     then (Ret (JDict []), tick_http (emit (EvGet url hd params) w1))
     else if fails last
          then bind (ProductDetailsAPI.backoff_unless_last max_retries
                       backoff_factor (Z.of_nat (0 + k) + 1))
                    (fun _ => ProductDetailsAPI.details_attempts
                                (Z.to_nat max_retries - k - 1) url hd params
                                max_retries backoff_factor
                                (Z.of_nat (0 + k) + 1))
                    (tick_http (emit (EvGet url hd params) w1))
          else (Ret (answer_body last),
                tick_http (emit (EvGet url hd params) w1)))
    = (Ret (if is_404 last then JDict [] else answer_body last), w') /\
    w' = tick_http (emit (EvGet url hd params) w1)).
  { destruct (is_404 last); [eauto|].
    destruct Hlast as [?| ->]; [discriminate|eauto]. }
  destruct Hres as (w' & Hres & ->). rewrite Hres.
  eexists. split; [reflexivity|]. simpl.
  rewrite Hev, <- app_assoc. split; [reflexivity|].
  split.
  { rewrite !sleeps_app, sleeps_details_rounds_inner by lia.
    simpl. now rewrite app_nil_r. }
  repeat split; [exact Hsc|lia|exact Hfs].
Qed.

Lemma details_answer_after_failures_witness :
  let w := sample_world token_store ∅
             (fun n => if (n <? 2)%nat then Responded 502 JNull
                       else Responded 200 sample_details) in
  let url := ProductDetailsAPI.details_url "FP034K-200-ND" in
  let hd := ProductDetailsAPI.details_headers acme (JStr "t0k3n") in
  let params := ProductDetailsAPI.details_params None in
  exists w',
    ProductDetailsAPI.get_product_details acme "FP034K-200-ND" None 3 2 w
      = (Ret (if is_404 (http w (http_calls w + 2)%nat) then JDict []
              else answer_body (http w (http_calls w + 2)%nat)), w') /\
    events w' = events w ++
      flat_map (details_round url hd params 3 2) (seq 1 2) ++
      [EvGet url hd params] /\
    sleeps (events w') = sleeps (events w) ++
      ((fun i => 2 ^ Z.of_nat i) <$> seq 1 2) /\
    sdk_calls w' = sdk_calls w /\
    http_calls w' = (http_calls w + 3)%nat /\
    fs w' = fs w.
Proof.
  intros w.
  apply (details_answer_after_failures acme "FP034K-200-ND" None 3 2
           (JStr "t0k3n") 2%nat w).
  - lia.
  - unfold max_sleep. simpl. lia.
  - lia.
  - exists (JDict [("access_token", JStr "t0k3n")]). split; reflexivity.
  - reflexivity.
  - intros [|[|i]] Hi; try reflexivity. lia.
  - intros [|[|i]] Hi; first [reflexivity|lia].
  - right. reflexivity.
Defined.

Lemma details_attempts_any url hd params m bf :
  forall fuel retries w,
    (Z.to_nat (m - retries) <= fuel)%nat ->
    exists r w' new,
      ProductDetailsAPI.details_attempts fuel url hd params m bf retries w
        = (r, w') /\
      r <> Diverge /\
      events w' = events w ++ new /\
      Forall (details_event url hd params) new /\
      (http_calls w <= http_calls w' <= http_calls w + Z.to_nat (m - retries))%nat /\
      sdk_calls w' = sdk_calls w /\ fs w' = fs w /\
      unwritable w' = unwritable w /\ now w' = now w.
Proof.
  induction fuel as [|fuel IH]; intros retries w Hfuel.
  - exists (Ret (JDict [])), w, [].
    rewrite details_attempts_done by lia. rewrite app_nil_r.
    repeat split; try discriminate; try constructor; simpl; lia.
  - destruct (Z.lt_ge_cases retries m) as [Hr|Hr].
    2:{ exists (Ret (JDict [])), w, [].
        rewrite details_attempts_done by lia. rewrite app_nil_r.
        repeat split; try discriminate; try constructor; simpl; lia. }
    rewrite details_turn by exact Hr. cbv zeta.
    set (get := EvGet url hd params).
    assert (Hone : forall (r : result json),
      r <> Diverge ->
      exists r' w' new,
        (r, tick_http (emit get w)) = (r', w') /\ r' <> Diverge /\
        events w' = events w ++ new /\
        Forall (details_event url hd params) new /\
        (http_calls w <= http_calls w'
           <= http_calls w + Z.to_nat (m - retries))%nat /\
        sdk_calls w' = sdk_calls w /\ fs w' = fs w /\
        unwritable w' = unwritable w /\ now w' = now w).
    { intros r Hnd. exists r, (tick_http (emit get w)), [get].
      split; [reflexivity|]. split; [exact Hnd|]. simpl.
      split; [reflexivity|]. split; [constructor; [now left|constructor]|].
      repeat split; lia. }
    destruct (is_404 (http w (http_calls w))); [apply Hone; discriminate|].
    destruct (fails (http w (http_calls w))); [|apply Hone; discriminate].
    unfold bind, ProductDetailsAPI.backoff_unless_last.
    destruct (retries + 1 <? m).
    + destruct (sleep_any (bf ^ (retries + 1)) (tick_http (emit get w)))
        as [Hs|[e Hs]]; rewrite Hs.
      2:{ apply Hone. discriminate. }
      destruct (IH (retries + 1)
                  (emit (EvSleep (bf ^ (retries + 1))) (tick_http (emit get w)))
                  ltac:(lia))
        as (r3 & w3 & new3 & Hrun3 & Hnd & Hev3 & Hnew3 & Hc3 & Hs3 & Hfs3 & Hu3
            & Hn3).
      exists r3, w3, ([get; EvSleep (bf ^ (retries + 1))] ++ new3).
      split; [exact Hrun3|]. split; [exact Hnd|].
      split; [rewrite Hev3; simpl; rewrite <- !app_assoc; reflexivity|].
      split.
      { constructor; [now left|]. constructor; [right; eauto|exact Hnew3]. }
      simpl in *. repeat split; try lia; congruence.
    + unfold ret at 1.
      destruct (IH (retries + 1) (tick_http (emit get w)) ltac:(lia))
        as (r3 & w3 & new3 & Hrun3 & Hnd & Hev3 & Hnew3 & Hc3 & Hs3 & Hfs3 & Hu3
            & Hn3).
      exists r3, w3, ([get] ++ new3).
      split; [exact Hrun3|]. split; [exact Hnd|].
      split; [rewrite Hev3; simpl; rewrite <- !app_assoc; reflexivity|].
      split; [constructor; [now left|exact Hnew3]|].
      simpl in *. repeat split; try lia; congruence.
Qed.

Lemma details_token_any self w :
  exists r, ProductDetailsAPI.get_access_token self w = (r, w) /\ r <> Diverge.
Proof.
  unfold ProductDetailsAPI.get_access_token, bind, path_exists, json_load_file,
    lift.
  destruct (fs w !! token_file self) as [[data|text|bytes]|] eqn:Hf; simpl;
    rewrite ?Hf.
  - destruct (Py.getitem data "access_token") eqn:Hg.
    + eexists. split; [reflexivity|discriminate].
    + eexists. split; [reflexivity|discriminate].
    + destruct data as [| | | | |d]; simpl in Hg; try discriminate.
      destruct (Py.assoc "access_token" d); discriminate.
  - eexists. split; [reflexivity|discriminate].
  - eexists. split; [reflexivity|discriminate].
  - eexists. split; [reflexivity|discriminate].
Qed.

(** X5. in any world [get_product_details] comes back after at most
    [max_retries] requests, each of them the same GET; it never calls the
    SDK (no refresh) and leaves every file as it was. *)
Theorem get_product_details_is_bounded self product_number manufacturer_id
    max_retries backoff_factor w :
  exists r w' new,
    ProductDetailsAPI.get_product_details self product_number manufacturer_id
      max_retries backoff_factor w = (r, w') /\
    r <> Diverge /\
    events w' = events w ++ new /\
    (forall e, In e new ->
       (exists secs, e = EvSleep secs) \/
       exists tok, e = EvGet (ProductDetailsAPI.details_url product_number)
                             (ProductDetailsAPI.details_headers self tok)
                             (ProductDetailsAPI.details_params manufacturer_id)) /\
    (http_calls w <= http_calls w' <= http_calls w + Z.to_nat max_retries)%nat /\
    sdk_calls w' = sdk_calls w /\
    fs w' = fs w.
Proof.
  unfold ProductDetailsAPI.get_product_details, bind.
  destruct (details_token_any self w) as (r & -> & Hnd).
  destruct r as [tok|e|]; [| |congruence].
  2:{ exists (Raise e), w, []. rewrite app_nil_r.
      repeat split; try discriminate; try lia. intros e' []. }
  destruct (Py.truthy tok); cbn [negb].
  2:{ exists (Ret (JDict [])), w, []. rewrite app_nil_r.
      repeat split; try discriminate; try lia. intros e' []. }
  destruct (details_attempts_any (ProductDetailsAPI.details_url product_number)
              (ProductDetailsAPI.details_headers self tok)
              (ProductDetailsAPI.details_params manufacturer_id)
              max_retries backoff_factor (Z.to_nat max_retries) 0 w ltac:(lia))
    as (r & w' & new & Hrun & Hnd' & Hev & Hnew & Hc & Hs & Hfs & _).
  exists r, w', new. rewrite Z.sub_0_r in Hc.
  repeat split; try assumption; try lia.
  intros e He. rewrite List.Forall_forall in Hnew.
  destruct (Hnew e He) as [->|Hsl]; eauto.
Qed.

(** X6. without a token file, or with one whose [access_token] is empty,
    [get_product_details] returns the empty dict without sending anything;
    a token file that does not parse, or has no [access_token], makes both
    clients raise before any request, and neither refreshes. *)
Theorem unusable_token_file self product_number manufacturer_id max_retries
    backoff_factor keyword limit offset manufactured_id user_id w :
  (fs w !! token_file self = None \/
   (exists data tok, fs w !! token_file self = Some (JsonText data) /\
                     Py.getitem data "access_token" = Ret tok /\
                     Py.truthy tok = false) ->
   ProductDetailsAPI.get_product_details self product_number manufacturer_id
     max_retries backoff_factor w = (Ret (JDict []), w)) /\
  (forall e,
      (exists text, fs w !! token_file self = Some (BadText text) /\
                    e = JSONDecodeError) \/
      (exists data, fs w !! token_file self = Some (JsonText data) /\
                    Py.getitem data "access_token" = Raise e) ->
      ProductDetailsAPI.get_product_details self product_number manufacturer_id
        max_retries backoff_factor w = (Raise e, w) /\
      DgkeySdk._search_product self keyword limit offset manufactured_id
        max_retries backoff_factor user_id w = (Raise e, w)).
Proof.
  split.
  - intros [Hnone|(data & tok & Hf & Hg & Ht)];
      unfold ProductDetailsAPI.get_product_details,
        ProductDetailsAPI.get_access_token.
    + rewrite (bind_ret _ _ _ _ _ (bind_ret _ _ _ _ _
                 (path_exists_none _ _ Hnone))). reflexivity.
    + assert (Htok : cached_token self w tok) by (exists data; tauto).
      pose proof (details_token_cached _ _ _ Htok) as Hrun.
      unfold ProductDetailsAPI.get_access_token in Hrun.
      rewrite (bind_ret _ _ _ _ _ Hrun), Ht. reflexivity.
  - intros e He.
    assert (Hload : exists c, fs w !! token_file self = Some c /\
              bind (json_load_file (token_file self))
                   (fun data => lift (Py.getitem data "access_token")) w
              = (Raise e, w)).
    { destruct He as [(text & Hf & ->)|(data & Hf & Hg)]; eexists;
        (split; [exact Hf|]); unfold bind, json_load_file, lift; rewrite Hf;
        [reflexivity|now rewrite Hg]. }
    destruct Hload as (c & Hf & Hload). split.
    + unfold ProductDetailsAPI.get_product_details,
        ProductDetailsAPI.get_access_token.
      unfold bind at 1. unfold bind at 1.
      rewrite (path_exists_some _ _ _ Hf). cbn [negb]. now rewrite Hload.
    + unfold DgkeySdk._search_product, DgkeySdk.get_access_token.
      unfold bind at 1. unfold bind at 1.
      rewrite (path_exists_some _ _ _ Hf). cbn [negb].
      unfold bind at 1, ret at 1. now rewrite Hload.
Qed.

Lemma unusable_token_file_witness :
  let w := sample_world ∅ ∅ always_500 in
  let v := sample_world {[ token_file acme := BadText "<html>" ]} ∅
                        always_500 in
  ProductDetailsAPI.get_product_details acme "FP034K-200-ND" None 3 2 w
    = (Ret (JDict []), w) /\
  ProductDetailsAPI.get_product_details acme "FP034K-200-ND" None 3 2 v
    = (Raise JSONDecodeError, v) /\
  DgkeySdk._search_product acme "Amplifiers" 50 0 2946 3 2 JNull v
    = (Raise JSONDecodeError, v).
Proof.
  intros w v. split.
  - apply (unusable_token_file acme "FP034K-200-ND" None 3 2 "Amplifiers" 50 0
             2946 JNull w). left. reflexivity.
  - apply (unusable_token_file acme "FP034K-200-ND" None 3 2 "Amplifiers" 50 0
             2946 JNull v). left. exists "<html>". split; reflexivity.
Defined.

(** ** More on the store *)

(** X7. the first append creates the collection, and a store file that holds
    a single JSON value instead of a list is kept as the first element. *)
Theorem store_is_created_or_wrapped self products offset limit n w :
  Py.len products = Ret n ->
  DgkeySdk.store_file self ∉ unwritable w ->
  let batch := DgkeySdk.batch_data products offset limit n (now w) in
  exists w',
    DgkeySdk.process_products self products offset limit w = (Ret tt, w') /\
    (fs w !! DgkeySdk.store_file self = None ->
     fs w' !! DgkeySdk.store_file self = Some (JsonText (JList [batch]))) /\
    (forall doc,
        fs w !! DgkeySdk.store_file self = Some (JsonText doc) ->
        Py.isinstance_list doc = false ->
        fs w' !! DgkeySdk.store_file self =
          Some (JsonText (JList [doc; batch]))).
Proof.
  intros Hn Hw batch. destruct (len_iter _ _ Hn) as [items Hi].
  eexists. split; [apply (process_products_run _ _ _ _ _ _ _ Hn Hi)|].
  split.
  - intros Hnone. rewrite process_products_stores;
      [|exact Hw|unfold undecodable; now rewrite Hnone].
    unfold stored_collection. now rewrite Hnone.
  - intros doc Hdoc Hlist. rewrite process_products_stores;
      [|exact Hw|apply (decodable_store _ _ _ Hdoc); discriminate].
    unfold stored_collection. rewrite Hdoc.
    destruct doc; try discriminate; reflexivity.
Qed.

Lemma store_is_created_or_wrapped_witness :
  let w := sample_world
             {[ DgkeySdk.store_file acme := JsonText (JDict [("legacy", JNum 1)]) ]}
             ∅ no_answer in
  let batch := DgkeySdk.batch_data (JList []) 0 50 0 (now w) in
  exists w',
    DgkeySdk.process_products acme (JList []) 0 50 w = (Ret tt, w') /\
    (fs w !! DgkeySdk.store_file acme = None ->
     fs w' !! DgkeySdk.store_file acme = Some (JsonText (JList [batch]))) /\
    (forall doc,
        fs w !! DgkeySdk.store_file acme = Some (JsonText doc) ->
        Py.isinstance_list doc = false ->
        fs w' !! DgkeySdk.store_file acme =
          Some (JsonText (JList [doc; batch]))).
Proof.
  intros w.
  apply (store_is_created_or_wrapped acme (JList []) 0 50 0 w).
  - reflexivity.
  - apply not_elem_of_empty.
Defined.

(** Products that have no length ([None], a boolean, a number) make
    [process_products] raise [TypeError] before it reads or writes
    anything. *)
Theorem unsized_products_raise self offset limit w :
  DgkeySdk.process_products self JNull offset limit w = (Raise TypeError, w) /\
  (forall b, DgkeySdk.process_products self (JBool b) offset limit w
             = (Raise TypeError, w)) /\
  (forall z, DgkeySdk.process_products self (JNum z) offset limit w
             = (Raise TypeError, w)).
Proof. repeat split. Qed.

(** While the store file cannot be read as text, [process_products] leaves
    it as it is. *)
Lemma process_products_undecodable self products items offset limit n w :
  undecodable (DgkeySdk.store_file self) w = true ->
  after_process_products self products items offset limit n w
    = print_all items w.
Proof. intros Hd. unfold after_process_products. now rewrite Hd. Qed.

(** X8. when the batch has been written but one of the products is not a
    mapping, the debug line after the write raises inside the same [try]:
    the batch stays in the file and every item is printed as well.  (A
    store file that cannot be read as text is not written to; the items are
    printed all the same.) *)
Theorem stored_batch_can_still_print self (ps : list json) offset limit w :
  DgkeySdk.store_file self ∉ unwritable w ->
  all_dicts ps = false ->
  exists w',
    DgkeySdk.process_products self (JList ps) offset limit w = (Ret tt, w') /\
    fs w' !! DgkeySdk.store_file self =
      (if undecodable (DgkeySdk.store_file self) w
       then fs w !! DgkeySdk.store_file self
       else
         Some (JsonText
                 (JList (stored_collection (DgkeySdk.store_file self) w ++
                         [DgkeySdk.batch_data (JList ps) offset limit
                            (Z.of_nat (length ps)) (now w)])))) /\
    events w' = events w ++ (EvPrint <$> ps).
Proof.
  intros Hw Hps. eexists.
  split; [apply process_products_run; reflexivity|].
  destruct (undecodable (DgkeySdk.store_file self) w) eqn:Hd.
  - rewrite process_products_undecodable by exact Hd.
    now rewrite fs_print_all, events_print_all.
  - split; [now apply process_products_stores|].
    unfold after_process_products. rewrite Hd.
    rewrite bool_decide_eq_false_2 by exact Hw. rewrite Hps.
    now rewrite events_print_all.
Qed.

Lemma stored_batch_can_still_print_witness :
  let w := sample_world ∅ ∅ no_answer in
  let ps := [sample_product; JStr "LM358"] in
  exists w',
    DgkeySdk.process_products acme (JList ps) 0 50 w = (Ret tt, w') /\
    fs w' !! DgkeySdk.store_file acme =
      Some (JsonText
              (JList (stored_collection (DgkeySdk.store_file acme) w ++
                      [DgkeySdk.batch_data (JList ps) 0 50
                         (Z.of_nat (length ps)) (now w)]))) /\
    events w' = events w ++ (EvPrint <$> ps).
Proof.
  intros w ps.
  apply (stored_batch_can_still_print acme ps 0 50 w).
  - apply not_elem_of_empty.
  - reflexivity.
Defined.

(** X9. [process_products] stays away from the network, the SDK and the
    token file: after a call on a list of products the call counters and the
    token file are as before, and what the call has added to the trace, if
    anything, is the printed items. *)
Theorem process_products_stays_local self (ps : list json) offset limit w :
  let w' := snd (DgkeySdk.process_products self (JList ps) offset limit w) in
  http_calls w' = http_calls w /\ sdk_calls w' = sdk_calls w /\
  fs w' !! token_file self = fs w !! token_file self /\
  (events w' = events w \/ events w' = events w ++ (EvPrint <$> ps)).
Proof.
  rewrite (process_products_run self (JList ps) offset limit w
             (Z.of_nat (length ps)) ps eq_refl eq_refl).
  cbn [snd]. cbv zeta.
  destruct (process_products_frame self (JList ps) ps offset limit
              (Z.of_nat (length ps)) w) as (_ & _ & _ & Hc & _ & Hs).
  destruct (process_products_keeps self (JList ps) ps offset limit
              (Z.of_nat (length ps)) w) as (_ & Hfs).
  split; [exact Hc|]. split; [exact Hs|]. split; [exact Hfs|].
  unfold after_process_products.
  destruct (undecodable _ w); [|destruct (bool_decide _);
                                [|destruct (all_dicts ps)]];
    rewrite ?events_print_all, ?events_after_failed_write; auto.
Qed.

(** ** Pagination, page by page *)


Lemma stored_collection_after path l w :
  stored_collection path (set_fs (<[path := JsonText (JList l)]> (fs w)) w) = l.
Proof. unfold stored_collection. simpl. now rewrite lookup_insert_eq. Qed.


Lemma stored_collection_undecodable path w :
  undecodable path w = true -> stored_collection path w = [].
Proof.
  unfold undecodable, stored_collection.
  destruct (fs w !! path) as [[| |]|]; try discriminate; reflexivity.
Qed.

Lemma stored_collection_ext path w v :
  fs v !! path = fs w !! path ->
  stored_collection path v = stored_collection path w.
Proof. unfold stored_collection. now intros ->. Qed.

Lemma undecodable_ext path w v :
  fs v !! path = fs w !! path -> undecodable path v = undecodable path w.
Proof. unfold undecodable. now intros ->. Qed.



















Lemma same_outside_undecodable self w w' :
  same_outside self w w' ->
  undecodable (DgkeySdk.store_file self) w' =
  undecodable (DgkeySdk.store_file self) w.
Proof.
  intros (_ & _ & _ & _ & _ & Hfs). apply undecodable_ext.
  now rewrite Hfs by apply store_file_not_token_file.
Qed.





(** ** Fetching, mapping and storing one product *)

Lemma get_product_details_frame self product_number manufacturer_id max_retries
    backoff_factor w r w' :
  ProductDetailsAPI.get_product_details self product_number manufacturer_id
    max_retries backoff_factor w = (r, w') ->
  r <> Diverge /\ fs w' = fs w /\ unwritable w' = unwritable w /\ now w' = now w.
Proof.
  unfold ProductDetailsAPI.get_product_details, bind.
  destruct (details_token_any self w) as (t & -> & Hnd).
  destruct t as [tok|e|]; [| |congruence].
  2:{ intros H; inversion H; subst. repeat split. discriminate. }
  destruct (Py.truthy tok); cbn [negb].
  2:{ intros H; inversion H; subst. repeat split. discriminate. }
  destruct (details_attempts_any (ProductDetailsAPI.details_url product_number)
              (ProductDetailsAPI.details_headers self tok)
              (ProductDetailsAPI.details_params manufacturer_id)
              max_retries backoff_factor (Z.to_nat max_retries) 0 w ltac:(lia))
    as (r2 & w2 & new & Hrun & Hnd' & _ & _ & _ & _ & Hfs & Hu & Hn).
  rewrite Hrun. intros H; inversion H; subst. tauto.
Qed.

Lemma mapped_file_not_raw_file self :
  ProductDetailsAPI.mapped_file self <> ProductDetailsAPI.raw_file self.
Proof.
  unfold ProductDetailsAPI.mapped_file, ProductDetailsAPI.raw_file. intros H.
  apply string_app_inv_head in H. discriminate.
Qed.

Lemma details_attempts_torn url hd params m bf :
  forall fuel retries w,
    torn (snd (ProductDetailsAPI.details_attempts fuel url hd params m bf
                 retries w)) = torn w.
Proof.
  induction fuel as [|fuel IH]; intros retries w.
  - simpl. destruct (retries <? m); reflexivity.
  - destruct (Z.lt_ge_cases retries m) as [Hr|Hr].
    2:{ now rewrite details_attempts_done by lia. }
    rewrite details_turn by exact Hr. cbv zeta.
    destruct (is_404 _); [reflexivity|].
    destruct (fails _); [|reflexivity].
    unfold bind, ProductDetailsAPI.backoff_unless_last.
    destruct (retries + 1 <? m).
    + destruct (sleep_any (bf ^ (retries + 1))
                  (tick_http (emit (EvGet url hd params) w)))
        as [Hs|[e Hs]]; rewrite Hs; [|reflexivity].
      now rewrite IH.
    + unfold ret at 1. now rewrite IH.
Qed.

Lemma get_product_details_torn self product_number manufacturer_id max_retries
    backoff_factor w :
  torn (snd (ProductDetailsAPI.get_product_details self product_number
               manufacturer_id max_retries backoff_factor w)) = torn w.
Proof.
  unfold ProductDetailsAPI.get_product_details, bind.
  destruct (details_token_any self w) as (r & -> & _).
  destruct r as [tok|e|]; try reflexivity.
  destruct (Py.truthy tok); cbn [negb]; [|reflexivity].
  apply details_attempts_torn.
Qed.

Section StoreDetails.

Variable py_repr : json -> string.

(** What the function does once the answer is there and has been mapped:
    the two appends run one after the other inside one [try], and the first
    of them to fail, by reading bytes that are no text or by a write that
    fails, ends the call with the empty dict. *)
Lemma process_and_store_run self product_number manufacturer_id w api w1 mapped :
  ProductDetailsAPI.get_product_details self product_number manufacturer_id 3 2
    w = (Ret api, w1) ->
  Py.truthy api = true ->
  ProductDetailsAPI.map_product_details_to_structure py_repr api = Ret mapped ->
  Py.truthy mapped = true ->
  let mfile := ProductDetailsAPI.mapped_file self in
  let rfile := ProductDetailsAPI.raw_file self in
  let ts := now w in
  let w2 := set_fs (<[mfile := JsonText (JList (stored_collection mfile w ++
                      [mapped_entry product_number manufacturer_id ts mapped
                                    api]))]> (fs w1)) w1 in
  let w3 := set_fs (<[rfile := JsonText (JList (stored_collection rfile w ++
                      [raw_entry product_number manufacturer_id ts api]))]>
                      (fs w2)) w2 in
  ProductDetailsAPI.process_and_store_product_details py_repr self
    product_number manufacturer_id w =
  if undecodable mfile w then (Ret (JDict []), w1)
  else if bool_decide (mfile ∈ unwritable w)
  then (Ret (JDict []), after_failed_write mfile w1)
  else if undecodable rfile w then (Ret (JDict []), w2)
  else if bool_decide (rfile ∈ unwritable w)
  then (Ret (JDict []), after_failed_write rfile w2)
  else (Ret mapped, w3).
Proof.
  intros Hfetch Hapi Hmap Hmapped mfile rfile ts w2 w3.
  destruct (get_product_details_frame _ _ _ _ _ _ _ _ Hfetch)
    as (_ & Hfs & Hu & Hn).
  unfold ProductDetailsAPI.process_and_store_product_details.
  rewrite (bind_ret _ _ _ _ _ Hfetch). rewrite Hapi. cbn [negb].
  unfold bind at 1, try_except at 1, lift at 1. rewrite Hmap.
  rewrite Hmapped. cbn [negb].
  unfold bind at 1, strftime_now at 1.
  unfold bind at 1, try_except at 1.
  unfold bind at 1. rewrite append_to_store_run.
  fold mfile. fold rfile. rewrite Hu, Hn. fold ts.
  assert (Hsm : stored_collection mfile w1 = stored_collection mfile w)
    by (unfold stored_collection; now rewrite Hfs).
  assert (Hdm : undecodable mfile w1 = undecodable mfile w)
    by (unfold undecodable; now rewrite Hfs).
  rewrite Hdm. destruct (undecodable mfile w); [reflexivity|].
  destruct (bool_decide (mfile ∈ unwritable w)); [reflexivity|].
  unfold bind at 1. rewrite append_to_store_run. cbn [unwritable set_fs].
  rewrite Hu.
  assert (Hrf : fs (set_fs (<[mfile := JsonText
                     (JList (stored_collection mfile w1 ++
                        [mapped_entry product_number manufacturer_id ts mapped
                                      api]))]> (fs w1)) w1) !! rfile
                = fs w !! rfile).
  { simpl. rewrite lookup_insert_ne by apply mapped_file_not_raw_file.
    now rewrite Hfs. }
  assert (Hsr : stored_collection rfile
                  (set_fs (<[mfile := JsonText
                     (JList (stored_collection mfile w1 ++
                        [mapped_entry product_number manufacturer_id ts mapped
                                      api]))]> (fs w1)) w1)
                = stored_collection rfile w)
    by (apply stored_collection_ext, Hrf).
  assert (Hdr : undecodable rfile
                  (set_fs (<[mfile := JsonText
                     (JList (stored_collection mfile w1 ++
                        [mapped_entry product_number manufacturer_id ts mapped
                                      api]))]> (fs w1)) w1)
                = undecodable rfile w)
    by (apply undecodable_ext, Hrf).
  unfold w3, w2, mapped_entry, raw_entry in *.
  rewrite Hdr.
  destruct (undecodable rfile w); [now rewrite Hsm|].
  destruct (bool_decide (rfile ∈ unwritable w)); [now rewrite Hsm|].
  now rewrite Hsr, Hsm.
Qed.

End StoreDetails.

Section StoreDetailsProperties.

Variable py_repr : json -> string.

(** X14. a fetched answer whose [Product] has the expected shape is mapped,
    and one entry goes to each of the two files: the mapped record together
    with the untouched answer to the mapped file, the answer alone to the
    raw file; the mapped record is returned.  (A file that cannot be read
    as text is left as it is, and ends the call with the empty dict: the
    mapped file before anything is written, the raw file after the mapped
    file has gained its entry.) *)
Theorem details_are_stored_in_both_files self product_number manufacturer_id
    w w1 d product :
  ProductDetailsAPI.get_product_details self product_number manufacturer_id 3 2
    w = (Ret (JDict d), w1) ->
  Py.assoc "Product" d = Some product ->
  WellFormed.product product = true ->
  ProductDetailsAPI.mapped_file self ∉ unwritable w ->
  ProductDetailsAPI.raw_file self ∉ unwritable w ->
  let bad_mapped := undecodable (ProductDetailsAPI.mapped_file self) w in
  let bad_raw := undecodable (ProductDetailsAPI.raw_file self) w in
  exists kvs w',
    ProductDetailsAPI.process_and_store_product_details py_repr self
      product_number manufacturer_id w
      = (Ret (if bad_mapped || bad_raw then JDict [] else JDict kvs), w') /\
    kvs.*1 = output_keys /\
    fs w' !! ProductDetailsAPI.mapped_file self =
      (if bad_mapped then fs w !! ProductDetailsAPI.mapped_file self
       else
         Some (JsonText (JList
           (stored_collection (ProductDetailsAPI.mapped_file self) w ++
            [mapped_entry product_number manufacturer_id (now w) (JDict kvs)
                          (JDict d)])))) /\
    fs w' !! ProductDetailsAPI.raw_file self =
      (if bad_mapped || bad_raw then fs w !! ProductDetailsAPI.raw_file self
       else
         Some (JsonText (JList
           (stored_collection (ProductDetailsAPI.raw_file self) w ++
            [raw_entry product_number manufacturer_id (now w) (JDict d)])))).
Proof.
  intros Hfetch Hp Hwf Hm Hr bad_mapped bad_raw.
  destruct (mapper_total py_repr d product Hp Hwf) as [mapped Hmap].
  destruct (mapper_returns_all_keys py_repr d product mapped Hp Hmap)
    as (kvs & -> & Hkeys).
  assert (Hd : Py.truthy (JDict d) = true)
    by (destruct d; [discriminate|reflexivity]).
  assert (Hk : Py.truthy (JDict kvs) = true)
    by (destruct kvs; [discriminate|reflexivity]).
  destruct (get_product_details_frame _ _ _ _ _ _ _ _ Hfetch)
    as (_ & Hfs & _).
  pose proof (mapped_file_not_raw_file self) as Hne.
  pose proof (process_and_store_run py_repr self product_number
                manufacturer_id w (JDict d) w1 (JDict kvs) Hfetch Hd Hmap Hk)
    as Hrun.
  cbv zeta in Hrun. rewrite !bool_decide_eq_false_2 in Hrun by assumption.
  subst bad_mapped bad_raw.
  destruct (undecodable (ProductDetailsAPI.mapped_file self) w);
    [|destruct (undecodable (ProductDetailsAPI.raw_file self) w)];
    cbn [orb]; exists kvs; eexists; (split; [exact Hrun|]);
    (split; [exact Hkeys|]); simpl.
  - now rewrite Hfs.
  - rewrite lookup_insert_eq, lookup_insert_ne by exact Hne.
    now rewrite Hfs.
  - rewrite lookup_insert_eq, lookup_insert_ne by congruence.
    now rewrite lookup_insert_eq.
Qed.

(** X15. the two writes share one [try]: when the mapped file has been
    written and the raw file cannot be, the function returns the empty dict
    as for a failure, although the mapped file has already gained its
    entry.  The raw file is untouched when it is [open] that fails, and
    holds what the failed write left of it otherwise.  (A mapped file that
    cannot be read as text is left as it is, and so is then the raw file.) *)
Theorem raw_write_failure_leaves_mapped_entry self product_number
    manufacturer_id w w1 d product :
  ProductDetailsAPI.get_product_details self product_number manufacturer_id 3 2
    w = (Ret (JDict d), w1) ->
  Py.assoc "Product" d = Some product ->
  WellFormed.product product = true ->
  ProductDetailsAPI.mapped_file self ∉ unwritable w ->
  ProductDetailsAPI.raw_file self ∈ unwritable w ->
  let bad_mapped := undecodable (ProductDetailsAPI.mapped_file self) w in
  let bad_raw := undecodable (ProductDetailsAPI.raw_file self) w in
  exists kvs w',
    ProductDetailsAPI.process_and_store_product_details py_repr self
      product_number manufacturer_id w = (Ret (JDict []), w') /\
    ProductDetailsAPI.map_product_details_to_structure py_repr (JDict d)
      = Ret (JDict kvs) /\
    fs w' !! ProductDetailsAPI.mapped_file self =
      (if bad_mapped then fs w !! ProductDetailsAPI.mapped_file self
       else
         Some (JsonText (JList
           (stored_collection (ProductDetailsAPI.mapped_file self) w ++
            [mapped_entry product_number manufacturer_id (now w) (JDict kvs)
                          (JDict d)])))) /\
    fs w' !! ProductDetailsAPI.raw_file self =
      (if bad_mapped || bad_raw then fs w !! ProductDetailsAPI.raw_file self
       else
         match torn w !! ProductDetailsAPI.raw_file self with
         | Some left_behind => Some left_behind
         | None => fs w !! ProductDetailsAPI.raw_file self
         end).
Proof.
  intros Hfetch Hp Hwf Hm Hr bad_mapped bad_raw.
  destruct (mapper_total py_repr d product Hp Hwf) as [mapped Hmap].
  destruct (mapper_returns_all_keys py_repr d product mapped Hp Hmap)
    as (kvs & -> & Hkeys).
  assert (Hd : Py.truthy (JDict d) = true)
    by (destruct d; [discriminate|reflexivity]).
  assert (Hk : Py.truthy (JDict kvs) = true)
    by (destruct kvs; [discriminate|reflexivity]).
  destruct (get_product_details_frame _ _ _ _ _ _ _ _ Hfetch)
    as (_ & Hfs & _).
  pose proof (get_product_details_torn self product_number manufacturer_id 3 2
                w) as Htorn.
  rewrite Hfetch in Htorn. cbn [snd] in Htorn.
  pose proof (mapped_file_not_raw_file self) as Hne.
  pose proof (process_and_store_run py_repr self product_number
                manufacturer_id w (JDict d) w1 (JDict kvs) Hfetch Hd Hmap Hk)
    as Hrun.
  cbv zeta in Hrun. rewrite bool_decide_eq_false_2 in Hrun by assumption.
  rewrite bool_decide_eq_true_2 in Hrun by assumption.
  subst bad_mapped bad_raw.
  destruct (undecodable (ProductDetailsAPI.mapped_file self) w);
    [|destruct (undecodable (ProductDetailsAPI.raw_file self) w)];
    cbn [orb]; exists kvs; eexists; (split; [exact Hrun|]);
    (split; [exact Hmap|]).
  - now rewrite Hfs.
  - simpl. rewrite lookup_insert_eq, lookup_insert_ne by exact Hne.
    now rewrite Hfs.
  - unfold after_failed_write. cbn [torn set_fs]. rewrite Htorn.
    destruct (torn w !! ProductDetailsAPI.raw_file self); simpl.
    + rewrite lookup_insert_eq, lookup_insert_ne by congruence.
      now rewrite lookup_insert_eq.
    + rewrite lookup_insert_eq, lookup_insert_ne by exact Hne.
      now rewrite Hfs.
Qed.

(** X16. when the fetch gives nothing (the empty dict: not found, no token,
    retries exhausted) or the answer cannot be mapped to a record (no
    [Product], or the mapper raises), the function returns the empty dict
    and no file has changed. *)
Theorem nothing_is_stored_without_a_record self product_number manufacturer_id
    w w1 api :
  ProductDetailsAPI.get_product_details self product_number manufacturer_id 3 2
    w = (Ret api, w1) ->
  Py.truthy api = false \/
  (exists e, ProductDetailsAPI.map_product_details_to_structure py_repr api
             = Raise e) \/
  (exists mapped,
      ProductDetailsAPI.map_product_details_to_structure py_repr api
        = Ret mapped /\ Py.truthy mapped = false) ->
  ProductDetailsAPI.process_and_store_product_details py_repr self
    product_number manufacturer_id w = (Ret (JDict []), w1) /\
  fs w1 = fs w.
Proof.
  intros Hfetch Hno.
  destruct (get_product_details_frame _ _ _ _ _ _ _ _ Hfetch)
    as (_ & Hfs & _).
  split; [|exact Hfs].
  unfold ProductDetailsAPI.process_and_store_product_details.
  rewrite (bind_ret _ _ _ _ _ Hfetch).
  destruct (Py.truthy api) eqn:Hapi; [|reflexivity].
  cbn [negb]. unfold bind, try_except, lift.
  destruct Hno as [?|[[e ->]|(mapped & -> & ->)]];
    [discriminate|reflexivity|reflexivity].
Qed.

(** C5. The recovery from a corrupt store file, and where it stops.  Text
    that does not parse as JSON is replaced by a one-element collection
    holding the new batch.  A file whose bytes are no UTF-8 text makes
    [json.load] raise [UnicodeDecodeError] instead, which the handler for
    [JSONDecodeError] around it does not catch: [process_products] then
    prints the products instead of storing them, and
    [process_and_store_product_details] returns the empty dict; the file
    keeps its bytes, so that nothing is appended on this call or on any
    later one. *)
Theorem store_recovery_misses_undecodable_bytes self :
  (forall products n offset limit w text,
      Py.len products = Ret n ->
      fs w !! DgkeySdk.store_file self = Some (BadText text) ->
      DgkeySdk.store_file self ∉ unwritable w ->
      exists w',
        DgkeySdk.process_products self products offset limit w
          = (Ret tt, w') /\
        fs w' !! DgkeySdk.store_file self =
          Some (JsonText (JList [DgkeySdk.batch_data products offset limit n
                                                     (now w)]))) /\
  (forall products items offset limit w bytes,
      Py.iter products = Ret items ->
      fs w !! DgkeySdk.store_file self = Some (NotText bytes) ->
      exists w',
        DgkeySdk.process_products self products offset limit w
          = (Ret tt, w') /\
        fs w' !! DgkeySdk.store_file self = Some (NotText bytes) /\
        events w' = events w ++ (EvPrint <$> items)) /\
  (forall product_number manufacturer_id w w1 d product bytes,
      ProductDetailsAPI.get_product_details self product_number
        manufacturer_id 3 2 w = (Ret (JDict d), w1) ->
      Py.assoc "Product" d = Some product ->
      WellFormed.product product = true ->
      fs w !! ProductDetailsAPI.mapped_file self = Some (NotText bytes) ->
      ProductDetailsAPI.process_and_store_product_details py_repr self
        product_number manufacturer_id w = (Ret (JDict []), w1) /\
      fs w1 = fs w).
Proof.
  split; [|split].
  - intros products n offset limit w text.
    apply unparsable_store_is_replaced.
  - intros products items offset limit w bytes Hi Hbad.
    destruct (iter_len _ _ Hi) as [n Hn].
    assert (Hd : undecodable (DgkeySdk.store_file self) w = true)
      by (unfold undecodable; now rewrite Hbad).
    eexists. split; [apply (process_products_run _ _ _ _ _ _ _ Hn Hi)|].
    rewrite process_products_undecodable by exact Hd.
    now rewrite fs_print_all, events_print_all.
  - intros product_number manufacturer_id w w1 d product bytes Hfetch Hp Hwf
      Hbad.
    destruct (mapper_total py_repr d product Hp Hwf) as [mapped Hmap].
    destruct (mapper_returns_all_keys py_repr d product mapped Hp Hmap)
      as (kvs & -> & Hkeys).
    assert (Hd : Py.truthy (JDict d) = true)
      by (destruct d; [discriminate|reflexivity]).
    assert (Hk : Py.truthy (JDict kvs) = true)
      by (destruct kvs; [discriminate|reflexivity]).
    destruct (get_product_details_frame _ _ _ _ _ _ _ _ Hfetch)
      as (_ & Hfs & _).
    rewrite (process_and_store_run py_repr self product_number manufacturer_id
               w (JDict d) w1 (JDict kvs) Hfetch Hd Hmap Hk).
    unfold undecodable. rewrite Hbad. split; [reflexivity|exact Hfs].
Qed.

End StoreDetailsProperties.

Lemma store_recovery_misses_undecodable_bytes_witness :
  let u := sample_world corrupt_store ∅ no_answer in
  let w := sample_world undecodable_store ∅ no_answer in
  let v := sample_world
             (<[ProductDetailsAPI.mapped_file acme := NotText not_utf8]>
                token_store)
             ∅ (fun _ => Responded 200 sample_details) in
  (exists u',
      DgkeySdk.process_products acme (JList [sample_product]) 0 50 u
        = (Ret tt, u') /\
      fs u' !! DgkeySdk.store_file acme =
        Some (JsonText (JList [DgkeySdk.batch_data (JList [sample_product])
                                 0 50 1 "2024-05-01 12:00:00"]))) /\
  (exists w',
      DgkeySdk.process_products acme (JList [sample_product]) 0 50 w
        = (Ret tt, w') /\
      fs w' !! DgkeySdk.store_file acme = Some (NotText not_utf8) /\
      events w' = events w ++ [EvPrint sample_product]) /\
  (exists v1,
      ProductDetailsAPI.process_and_store_product_details opaque_repr acme
        "FP034K-200-ND" (Some 19) v = (Ret (JDict []), v1) /\
      fs v1 = fs v).
Proof.
  intros u w v.
  destruct (store_recovery_misses_undecodable_bytes opaque_repr acme)
    as (Hrecover & Hsearch & Hdetails).
  split; [|split].
  - apply (Hrecover (JList [sample_product]) 1 0 50 u _ eq_refl eq_refl).
    apply not_elem_of_empty.
  - apply (Hsearch (JList [sample_product]) [sample_product] 0 50 w _ eq_refl).
    reflexivity.
  - eexists. unfold sample_details.
    eapply (Hdetails "FP034K-200-ND" (Some 19) v).
    + vm_compute. reflexivity.
    + reflexivity.
    + reflexivity.
    + reflexivity.
Defined.

Lemma details_are_stored_in_both_files_witness :
  let w := sample_world token_store ∅ (fun _ => Responded 200 sample_details) in
  exists kvs w',
    ProductDetailsAPI.process_and_store_product_details opaque_repr acme
      "FP034K-200-ND" (Some 19) w = (Ret (JDict kvs), w') /\
    kvs.*1 = output_keys /\
    fs w' !! ProductDetailsAPI.mapped_file acme =
      Some (JsonText (JList
        (stored_collection (ProductDetailsAPI.mapped_file acme) w ++
         [mapped_entry "FP034K-200-ND" (Some 19) (now w) (JDict kvs)
                       sample_details]))) /\
    fs w' !! ProductDetailsAPI.raw_file acme =
      Some (JsonText (JList
        (stored_collection (ProductDetailsAPI.raw_file acme) w ++
         [raw_entry "FP034K-200-ND" (Some 19) (now w) sample_details]))).
Proof.
  intros w. unfold sample_details.
  eapply (details_are_stored_in_both_files opaque_repr acme "FP034K-200-ND"
            (Some 19) w).
  - vm_compute. reflexivity.
  - reflexivity.
  - reflexivity.
  - apply not_elem_of_empty.
  - apply not_elem_of_empty.
Defined.

Lemma raw_write_failure_leaves_mapped_entry_witness :
  let w := sample_world token_store {[ ProductDetailsAPI.raw_file acme ]}
                        (fun _ => Responded 200 sample_details) in
  exists kvs w',
    ProductDetailsAPI.process_and_store_product_details opaque_repr acme
      "FP034K-200-ND" (Some 19) w = (Ret (JDict []), w') /\
    ProductDetailsAPI.map_product_details_to_structure opaque_repr
      sample_details = Ret (JDict kvs) /\
    fs w' !! ProductDetailsAPI.mapped_file acme =
      Some (JsonText (JList
        (stored_collection (ProductDetailsAPI.mapped_file acme) w ++
         [mapped_entry "FP034K-200-ND" (Some 19) (now w) (JDict kvs)
                       sample_details]))) /\
    fs w' !! ProductDetailsAPI.raw_file acme =
      fs w !! ProductDetailsAPI.raw_file acme.
Proof.
  intros w. unfold sample_details.
  eapply (raw_write_failure_leaves_mapped_entry opaque_repr acme
            "FP034K-200-ND" (Some 19) w).
  - vm_compute. reflexivity.
  - reflexivity.
  - reflexivity.
  - unfold w, sample_world; simpl. intros H.
    apply elem_of_singleton_1 in H.
    now apply mapped_file_not_raw_file in H.
  - unfold w, sample_world; simpl. apply elem_of_singleton_2. reflexivity.
Defined.

Lemma nothing_is_stored_without_a_record_witness :
  let w := sample_world token_store ∅ always_404 in
  exists w1,
    ProductDetailsAPI.process_and_store_product_details opaque_repr acme
      "FP034K-200-ND" None w = (Ret (JDict []), w1) /\
    fs w1 = fs w.
Proof.
  intros w. eexists.
  eapply (nothing_is_stored_without_a_record opaque_repr acme "FP034K-200-ND"
            None w _ (JDict [])).
  - vm_compute. reflexivity.
  - left. reflexivity.
Defined.

(** ** Several products in a row *)

Section Bulk.

Variable py_repr : json -> string.

Lemma bulk_loop_results self manufacturer_id :
  forall product_numbers acc w results w',
    ProductDetailsAPI.bulk_loop py_repr self product_numbers manufacturer_id
      acc w = (Ret results, w') ->
    exists added,
      results = acc ++ added /\
      (length added <= length product_numbers)%nat /\
      Forall (fun r => Py.truthy r = true) added.
Proof.
  induction product_numbers as [|pn rest IH]; intros acc w results w' H.
  - inversion H; subst. exists []. rewrite app_nil_r.
    repeat split; [simpl; lia|constructor].
  - cbn [ProductDetailsAPI.bulk_loop] in H. unfold bind at 1 in H.
    destruct (ProductDetailsAPI.process_and_store_product_details py_repr self
                pn manufacturer_id w) as [[mapped|e|] w1];
      try discriminate.
    unfold bind at 1 in H. rewrite sleep_returns in H by (unfold max_sleep; lia).
    apply IH in H as (added & -> & Hlen & Hall).
    destruct (Py.truthy mapped) eqn:Hm.
    + exists (mapped :: added). rewrite <- app_assoc.
      repeat split; [simpl; lia|constructor; assumption].
    + exists added. repeat split; [simpl; lia|assumption].
Qed.

(** X17. what [bulk_get_product_details] returns holds at most one record
    per product number and no empty record: a product that could not be
    fetched, mapped or stored is left out without a trace in the result. *)
Theorem bulk_results_are_nonempty_records self product_numbers manufacturer_id
    w results w' :
  ProductDetailsAPI.bulk_get_product_details py_repr self product_numbers
    manufacturer_id w = (Ret results, w') ->
  (length results <= length product_numbers)%nat /\
  Forall (fun r => Py.truthy r = true) results.
Proof.
  intros H. apply bulk_loop_results in H as (added & -> & Hlen & Hall).
  tauto.
Qed.

(** X18. without a token file [bulk_get_product_details] sends nothing and
    stores nothing, yet it still pauses one second per product number and
    returns the empty list. *)
Theorem bulk_without_token_only_sleeps self product_numbers manufacturer_id w :
  fs w !! token_file self = None ->
  exists w',
    ProductDetailsAPI.bulk_get_product_details py_repr self product_numbers
      manufacturer_id w = (Ret [], w') /\
    events w' = events w ++ replicate (length product_numbers) (EvSleep 1) /\
    http_calls w' = http_calls w /\
    fs w' = fs w.
Proof.
  unfold ProductDetailsAPI.bulk_get_product_details.
  revert w. induction product_numbers as [|pn rest IH]; intros w Hnone.
  - exists w. simpl. rewrite app_nil_r. tauto.
  - cbn [ProductDetailsAPI.bulk_loop].
    assert (Hone :
      ProductDetailsAPI.process_and_store_product_details py_repr self pn
        manufacturer_id w = (Ret (JDict []), w)).
    { unfold ProductDetailsAPI.process_and_store_product_details,
        ProductDetailsAPI.get_product_details,
        ProductDetailsAPI.get_access_token.
      rewrite (bind_ret _ _ _ _ _ (bind_ret _ _ _ _ _ (bind_ret _ _ _ _ _
                 (path_exists_none _ _ Hnone)))). reflexivity. }
    rewrite (bind_ret _ _ _ _ _ Hone). cbn [Py.truthy].
    rewrite (bind_ret _ _ _ _ _ (sleep_returns 1 w ltac:(unfold max_sleep; lia))).
    destruct (IH (emit (EvSleep 1) w) Hnone) as (w' & Hrun & Hev & Hc & Hfs).
    exists w'. split; [exact Hrun|].
    split; [rewrite Hev; simpl; now rewrite <- app_assoc|].
    split; [exact Hc|exact Hfs].
Qed.

End Bulk.

Lemma bulk_results_are_nonempty_records_witness :
  let w := sample_world token_store ∅
             (fun n => if (n <? 1)%nat then Responded 200 sample_details
                       else Responded 404 JNull) in
  let run := ProductDetailsAPI.bulk_get_product_details opaque_repr acme
               ["FP034K-200-ND"; "NO-SUCH-PART"] (Some 19) w in
  exists results,
    fst run = Ret results /\
    (length results <= 2)%nat /\
    Forall (fun r => Py.truthy r = true) results.
Proof.
  intros w run.
  destruct run as [[results|e|] w'] eqn:Hrun; try (vm_compute in Hrun; discriminate).
  exists results. split; [reflexivity|].
  apply (bulk_results_are_nonempty_records opaque_repr acme
           ["FP034K-200-ND"; "NO-SUCH-PART"] (Some 19) w results w' Hrun).
Defined.

Lemma bulk_without_token_only_sleeps_witness :
  let w := sample_world ∅ ∅ always_500 in
  exists w',
    ProductDetailsAPI.bulk_get_product_details opaque_repr acme
      ["FP034K-200-ND"; "NO-SUCH-PART"] None w = (Ret [], w') /\
    events w' = events w ++ replicate 2 (EvSleep 1) /\
    http_calls w' = http_calls w /\
    fs w' = fs w.
Proof.
  intros w.
  apply (bulk_without_token_only_sleeps opaque_repr acme
           ["FP034K-200-ND"; "NO-SUCH-PART"] None w).
  reflexivity.
Defined.

(** ** The detail URL *)

Lemma unquote_quote_char a t :
  unquote (Quote.quote (String a t)) = String a (unquote (Quote.quote t)).
Proof. destruct a as [[] [] [] [] [] [] [] []]; reflexivity. Qed.

Lemma unquote_quote s : unquote (Quote.quote s) = s.
Proof.
  induction s as [|a s IH]; [reflexivity|].
  rewrite unquote_quote_char. now rewrite IH.
Qed.

Lemma quote_chars s :
  Forall (fun a => Quote.unreserved a = true \/ a = "%"%char)
         (String.list_ascii_of_string (Quote.quote s)).
Proof.
  induction s as [|a s IH]; [constructor|].
  assert (Hhex : forall n, (n < 16)%nat ->
                   Quote.unreserved (Quote.hex_digit n) = true).
  { intros n Hn. do 16 (destruct n as [|n]; [reflexivity|]). lia. }
  cbn [Quote.quote]. destruct (Quote.unreserved a) eqn:Ha.
  - constructor; [now left|exact IH].
  - cbn [String.list_ascii_of_string].
    pose proof (nat_ascii_bounded a) as Hb.
    constructor; [now right|].
    constructor; [left; apply Hhex; apply Nat.Div0.div_lt_upper_bound; lia|].
    constructor; [left; apply Hhex; apply Nat.mod_upper_bound; lia|exact IH].
Qed.

Lemma string_length_app (a b : string) :
  String.length (a +:+ b) = (String.length a + String.length b)%nat.
Proof. induction a as [|c a IH]; simpl; [reflexivity|now rewrite IH]. Qed.

Lemma string_app_inv_tail (a b t : string) : a +:+ t = b +:+ t -> a = b.
Proof.
  intros H.
  assert (Hl : String.length a = String.length b).
  { apply (f_equal String.length) in H.
    rewrite !string_length_app in H. lia. }
  revert b H Hl. induction a as [|c a IH]; intros [|d b] H Hl;
    try discriminate; [reflexivity|].
  simpl in H. injection H as -> H. f_equal. apply IH; [exact H|].
  simpl in Hl. lia.
Qed.

(** X19. the product number is percent-encoded into one path segment: the
    segment consists of letters, digits, [_ . - ~] and [%] only (no slash
    can come from a product number), and different product numbers give
    different URLs. *)
Theorem details_url_is_faithful (p q : string) :
  ProductDetailsAPI.details_url p =
    "https://api.digikey.com/products/v4/search/" +:+ Quote.quote p
      +:+ "/productdetails" /\
  Forall (fun a => Quote.unreserved a = true \/ a = "%"%char)
         (String.list_ascii_of_string (Quote.quote p)) /\
  Quote.unreserved "/" = false /\
  (ProductDetailsAPI.details_url p = ProductDetailsAPI.details_url q -> p = q).
Proof.
  split; [reflexivity|]. split; [apply quote_chars|]. split; [reflexivity|].
  unfold ProductDetailsAPI.details_url. intros H.
  apply string_app_inv_head in H. apply string_app_inv_tail in H.
  rewrite <- (unquote_quote p), <- (unquote_quote q). now rewrite H.
Qed.

(** ** The mapper's helpers *)

Lemma first_parameter_skips before rest parameter_text dflt :
  all_dicts before = true ->
  existsb (names_parameter parameter_text) before = false ->
  ProductDetailsAPI.first_parameter (before ++ rest) parameter_text dflt =
  ProductDetailsAPI.first_parameter rest parameter_text dflt.
Proof.
  induction before as [|p before IH]; intros Hd Hn; [reflexivity|].
  simpl in Hd, Hn. apply andb_true_iff in Hd as [Hp Hd].
  apply orb_false_iff in Hn as [Hpn Hn].
  destruct p as [| | | | |d]; try discriminate.
  cbn [app ProductDetailsAPI.first_parameter Py.get rbind].
  simpl in Hpn. rewrite Hpn. now apply IH.
Qed.

(** X20. [get_parameter_value] answers from the first entry that carries the
    wanted [ParameterText] (its [ValueText], or the default when that entry
    has none) and never looks at the entries after it, whatever they are;
    without such an entry among a list of mappings it gives the default. *)
Theorem first_parameter_wins before d after parameter_text dflt :
  all_dicts before = true ->
  existsb (names_parameter parameter_text) before = false ->
  (names_parameter parameter_text (JDict d) = true ->
   ProductDetailsAPI.get_parameter_value (JList (before ++ JDict d :: after))
     parameter_text dflt = Ret (default dflt (Py.assoc "ValueText" d))) /\
  ProductDetailsAPI.get_parameter_value (JList before) parameter_text dflt
    = Ret dflt.
Proof.
  intros Hd Hn. split.
  - intros Hmatch. unfold ProductDetailsAPI.get_parameter_value.
    assert (Ht : Py.truthy (JList (before ++ JDict d :: after)) = true)
      by (destruct before; reflexivity).
    rewrite Ht. cbn [negb Py.iter rbind].
    rewrite first_parameter_skips by assumption.
    cbn [ProductDetailsAPI.first_parameter Py.get rbind].
    simpl in Hmatch. now rewrite Hmatch.
  - unfold ProductDetailsAPI.get_parameter_value.
    destruct before as [|p before]; [reflexivity|].
    cbn [Py.truthy negb Py.iter rbind].
    rewrite <- (app_nil_r (p :: before)).
    rewrite first_parameter_skips by assumption. reflexivity.
Qed.

Lemma first_parameter_wins_witness :
  let before := [JDict [("ParameterText", JStr "Type");
                        ("ValueText", JStr "Tubing")]] in
  let d := [("ParameterText", JStr "Color"); ("ValueText", JStr "Black")] in
  let after := [JNull; JDict [("ParameterText", JStr "Color");
                              ("ValueText", JStr "Red")]] in
  (names_parameter "Color" (JDict d) = true ->
   ProductDetailsAPI.get_parameter_value (JList (before ++ JDict d :: after))
     "Color" (JStr "") = Ret (default (JStr "") (Py.assoc "ValueText" d))) /\
  ProductDetailsAPI.get_parameter_value (JList before) "Color" (JStr "")
    = Ret (JStr "").
Proof.
  intros before d after.
  apply (first_parameter_wins before d after "Color" (JStr "")); reflexivity.
Defined.

Lemma child_name_take l i :
  (i < 4)%nat ->
  ProductDetailsAPI.child_name (JList (take 4 l)) i =
  ProductDetailsAPI.child_name (JList l) i.
Proof.
  intros Hi. unfold ProductDetailsAPI.child_name.
  cbn [Py.len rbind Py.index]. rewrite length_take, lookup_take_lt by exact Hi.
  destruct (Z.ltb_spec (Z.of_nat i) (Z.of_nat (4 `min` length l)));
    destruct (Z.ltb_spec (Z.of_nat i) (Z.of_nat (length l)));
    try reflexivity; lia.
Qed.

(** X21. the category hierarchy has room for four child categories: what
    comes after the fourth entry of [ChildCategories] plays no part in the
    result. *)
Theorem category_uses_four_children d l :
  Py.assoc "ChildCategories" d = Some (JList l) ->
  ProductDetailsAPI.get_category_hierarchy (JDict d) =
  ProductDetailsAPI.get_category_hierarchy
    (JDict (("ChildCategories", JList (take 4 l)) :: d)).
Proof.
  intros Hc. unfold ProductDetailsAPI.get_category_hierarchy.
  assert (Ht : Py.truthy (JDict d) = true)
    by (destruct d; [discriminate|reflexivity]).
  rewrite Ht. cbn [Py.truthy negb Py.get rbind Py.assoc].
  change (String.eqb "Name" "ChildCategories") with false.
  change (String.eqb "ChildCategories" "ChildCategories") with true.
  cbv iota. rewrite Hc. cbn [from_option id].
  destruct l as [|c l]; [reflexivity|].
  change (take 4 (c :: l)) with (c :: take 3 l).
  cbn [Py.truthy Py.index lookup list_lookup rbind].
  change (c :: take 3 l) with (take 4 (c :: l)).
  rewrite !child_name_take by lia. reflexivity.
Qed.

Lemma category_uses_four_children_witness :
  let names := (fun s => JDict [("Name", JStr s)]) <$>
               ["a"; "b"; "c"; "d"; "e"; "f"] in
  let d := [("Name", JStr "root"); ("ChildCategories", JList names)] in
  ProductDetailsAPI.get_category_hierarchy (JDict d) =
  ProductDetailsAPI.get_category_hierarchy
    (JDict (("ChildCategories", JList (take 4 names)) :: d)).
Proof.
  intros names d.
  apply (category_uses_four_children d names). reflexivity.
Defined.

(** X22. [format_datasheets] turns a protocol-relative URL ([//host/...])
    into an [https:] one and leaves other strings alone; applied to its own
    result it changes nothing, and the result never starts with [//]. *)
Theorem format_datasheets_is_idempotent u r :
  ProductDetailsAPI.format_datasheets u = Ret r ->
  ProductDetailsAPI.format_datasheets r = Ret r /\
  exists s, r = JStr s /\ String.prefix "//" s = false /\
            (forall t, u = JStr ("//" +:+ t) -> s = "https://" +:+ t).
Proof.
  unfold ProductDetailsAPI.format_datasheets.
  destruct (Py.truthy u) eqn:Ht.
  - destruct u as [| | |s| |]; try discriminate. intros H; inversion H; subst.
    destruct (String.prefix "//" s) eqn:Hp.
    + split; [reflexivity|]. eexists. split; [reflexivity|].
      split; [reflexivity|]. intros t Heq. inversion Heq; subst. reflexivity.
    + rewrite Ht, Hp. split; [reflexivity|]. eexists. split; [reflexivity|].
      split; [exact Hp|]. intros t Heq. inversion Heq; subst.
      destruct t; simpl in Hp; discriminate.
  - intros H; inversion H; subst. split; [reflexivity|].
    exists "". split; [reflexivity|]. split; [reflexivity|].
    intros t ->. discriminate.
Qed.

Lemma format_datasheets_is_idempotent_witness :
  let r := JStr "https://multimedia.3m.com/fp301.pdf" in
  ProductDetailsAPI.format_datasheets r = Ret r /\
  exists s, r = JStr s /\ String.prefix "//" s = false /\
            (forall t, JStr "//multimedia.3m.com/fp301.pdf" = JStr ("//" +:+ t) ->
                       s = "https://" +:+ t).
Proof.
  intros r.
  apply (format_datasheets_is_idempotent
           (JStr "//multimedia.3m.com/fp301.pdf") r).
  reflexivity.
Defined.

(** X23. the mapper reads nothing but the [Product] entry of the answer: two
    answers with the same [Product] are mapped alike, whatever else they
    hold. *)
Theorem mapper_reads_only_product (py_repr : json -> string) d d' product :
  Py.assoc "Product" d = Some product ->
  Py.assoc "Product" d' = Some product ->
  ProductDetailsAPI.map_product_details_to_structure py_repr (JDict d) =
  ProductDetailsAPI.map_product_details_to_structure py_repr (JDict d').
Proof.
  intros H H'. unfold ProductDetailsAPI.map_product_details_to_structure.
  assert (Ht : Py.truthy (JDict d) = true)
    by (destruct d; [discriminate|reflexivity]).
  assert (Ht' : Py.truthy (JDict d') = true)
    by (destruct d'; [discriminate|reflexivity]).
  rewrite Ht, Ht'. unfold Py.contains, Py.getitem. rewrite H, H'. reflexivity.
Qed.

Lemma mapper_reads_only_product_witness :
  ProductDetailsAPI.map_product_details_to_structure opaque_repr
    (JDict [("Product", JDict [("ProductUrl", JStr "u")])]) =
  ProductDetailsAPI.map_product_details_to_structure opaque_repr
    (JDict [("SearchLocaleUsed", JDict [("Site", JStr "US")]);
            ("Product", JDict [("ProductUrl", JStr "u")])]).
Proof.
  apply (mapper_reads_only_product opaque_repr
           [("Product", JDict [("ProductUrl", JStr "u")])]
           [("SearchLocaleUsed", JDict [("Site", JStr "US")]);
            ("Product", JDict [("ProductUrl", JStr "u")])]
           (JDict [("ProductUrl", JStr "u")])); reflexivity.
Defined.
